(** * Options screener (CSP and bull put spreads): model and properties

    A shallow embedding of [trading_bot.py]: the configuration constants,
    the two fetchers ([get_current_price], [get_options_chain]), the two
    screeners ([screen_csp], [screen_bull_put_spread]) and the orchestrator
    ([screen_all_stocks]).

    Modelling conventions.
    - Python floats are exact rationals ([Q]); equality of prices is [Qeq].
      Rounding of binary64 arithmetic, NaN and infinities are not modelled
      there.  The module [Binary64] repeats the fetchers and the two
      screeners over IEEE 754 binary64, for the statements that depend on
      the values the code computes.
    - A division whose divisor is a variable goes through [py_div], which
      raises [ZeroDivisionError] on a zero divisor as Python does; a division
      by a non-zero literal is a plain [Qdiv].
    - The data provider (yfinance), the clock and [strptime] are an
      environment [Env] whose answers may change from one request to the
      next; every request is recorded in the [World] log.
    - A pandas frame is the list of its rows, in row order. *)

From Stdlib Require Import String.
From Stdlib Require Import QArith Qabs ZArith List Bool Lia Lqa.
From Stdlib Require Import Permutation Sorted.
From Stdlib Require PrimFloat FloatOps SpecFloat.
Import ListNotations.

Open Scope Q_scope.

(** ** Configuration constants (trading_bot.py, lines 87-94) *)

Definition MIN_DTE : Z := 1.
Definition MAX_DTE : Z := 7.
Definition MIN_OTM_PERCENT : Q := 5.
Definition MAX_OTM_PERCENT : Q := 10.
Definition SPREAD_WIDTH : Q := 5.
Definition MIN_RETURN_ON_RISK : Q := 20.
Definition MIN_VOLUME : Q := 10.
Definition MIN_OPEN_INTEREST : Q := 50.

(** ** Comparisons and division on numbers *)

Definition Qleb (x y : Q) : bool := Qle_bool x y.
Definition Qltb (x y : Q) : bool := negb (Qle_bool y x).

Infix "<=?" := Qleb (at level 70, no associativity) : Q_scope.
Infix "<?" := Qltb (at level 70, no associativity) : Q_scope.

(** ** Exceptions and results *)

Inductive exn : Type :=
| ZeroDivisionError
| ValueError
| RemoteError.

Inductive result (A : Type) : Type :=
| Ok (a : A)
| Raised (e : exn).
Arguments Ok {A} a.
Arguments Raised {A} e.

Definition rbind {A B} (c : result A) (k : A -> result B) : result B :=
  match c with
  | Ok a => k a
  | Raised e => Raised e
  end.

Notation "x <~ c ;; k" := (rbind c (fun x => k))
  (at level 61, c at next level, right associativity).

(** Python's [x / y] on numbers. *)
Definition py_div (x y : Q) : result Q :=
  if Qeq_bool y 0 then Raised ZeroDivisionError else Ok (x / y).

(** A [for] loop over a list that threads an accumulator and stops at the
    first exception. *)
Fixpoint for_each {A B} (body : A -> B -> result A) (acc : A) (xs : list B)
  : result A :=
  match xs with
  | [] => Ok acc
  | x :: xs' => acc' <~ body acc x ;; for_each body acc' xs'
  end.

(** ** Rows of an option chain *)

(** A row of [chain.puts] as the provider returns it. *)
Record raw_put : Type := mk_raw_put {
  raw_strike : Q;
  raw_bid : Q;
  raw_ask : Q;
  raw_volume : Z;
  raw_openInterest : Z
}.

(** A row after [get_options_chain] has added its three columns. *)
Record put_row : Type := mk_put_row {
  strike : Q;
  bid : Q;
  ask : Q;
  volume : Z;
  openInterest : Z;
  expiry : Z;
  expiry_str : string;
  dte : Z
}.

(** ** The environment and the log of requests *)

Inductive event : Type :=
| EvHistory (symbol : string)
| EvOptions (symbol : string)
| EvNow
| EvOptionChain (symbol : string) (exp_str : string).

(** The log, most recent request first. *)
Definition World : Type := list event.

(** Answers of the outside world; the [nat] is the number of requests made
    before this one.  Datetimes are microseconds since the epoch. *)
Record Env : Type := mk_Env {
  yf_history : string -> nat -> result (list Q);
  yf_options : string -> nat -> result (list string);
  yf_option_chain : string -> string -> nat -> result (list raw_put);
  datetime_now : nat -> Z;
  strptime : string -> result Z
}.

(** ** State and exception monad *)

Definition M (A : Type) : Type := World -> result A * World.

Definition ret {A} (a : A) : M A := fun w => (Ok a, w).

Definition bind {A B} (c : M A) (k : A -> M B) : M B :=
  fun w =>
    match c w with
    | (Ok a, w') => k a w'
    | (Raised e, w') => (Raised e, w')
    end.

Definition lift {A} (r : result A) : M A := fun w => (r, w).

(** [try: c  except Exception: h] *)
Definition try_except {A} (c : M A) (h : exn -> M A) : M A :=
  fun w =>
    match c w with
    | (Ok a, w') => (Ok a, w')
    | (Raised e, w') => h e w'
    end.

(** One request to the outside world: log it and answer from [Env]. *)
Definition request {A} (ev : event) (answer : nat -> result A) : M A :=
  fun w => (answer (length w), ev :: w).

Notation "x <- c ;; k" := (bind c (fun x => k))
  (at level 61, c at next level, right associativity).

Section Fetchers.

Variable env : Env.

(** [timedelta.days] of a difference of two datetimes. *)
Definition MICROSECONDS_PER_DAY : Z := 86400000000.
Definition timedelta_days (later earlier : Z) : Z :=
  ((later - earlier) / MICROSECONDS_PER_DAY)%Z.

(** [OptionsScreener.get_current_price] (lines 171-180). *)
Definition get_current_price (symbol : string) : M (option Q) :=
  try_except
    (data <- request (EvHistory symbol) (yf_history env symbol) ;;
     match data with
     | [] => ret None
     | c :: cs => ret (Some (last cs c))
     end)
    (fun _ => ret None).

(** The [puts] frame of one expiration with the columns [expiry],
    [expiry_str] and [dte] set (lines 201-204). *)
Definition tag_puts (exp_date : Z) (exp_str : string) (d : Z)
  (puts : list raw_put) : list put_row :=
  map (fun r => mk_put_row (raw_strike r) (raw_bid r) (raw_ask r)
                           (raw_volume r) (raw_openInterest r)
                           exp_date exp_str d) puts.

(** The loop over the expirations (lines 194-205); [all_puts] is the list
    of frames collected so far. *)
Fixpoint collect_puts (symbol : string) (current_date : Z)
  (expirations : list string) (all_puts : list (list put_row))
  : M (list (list put_row)) :=
  match expirations with
  | [] => ret all_puts
  | exp_str :: rest =>
      exp_date <- lift (strptime env exp_str) ;;
      let d := timedelta_days exp_date current_date in
      if ((MIN_DTE <=? d)%Z && (d <=? MAX_DTE)%Z)%bool then
        puts <- request (EvOptionChain symbol exp_str)
                        (yf_option_chain env symbol exp_str) ;;
        collect_puts symbol current_date rest
                     (all_puts ++ [tag_puts exp_date exp_str d puts])
      else
        collect_puts symbol current_date rest all_puts
  end.

(** [OptionsScreener.get_options_chain] (lines 182-213). *)
Definition get_options_chain (symbol : string) : M (option (list put_row)) :=
  try_except
    (expirations <- request (EvOptions symbol) (yf_options env symbol) ;;
     match expirations with
     | [] => ret None
     | _ :: _ =>
         current_date <- request EvNow (fun t => Ok (datetime_now env t)) ;;
         all_puts <- collect_puts symbol current_date expirations [] ;;
         match all_puts with
         | [] => ret None
         | _ :: _ => ret (Some (concat all_puts))
         end
     end)
    (fun _ => ret None).

End Fetchers.

(** ** Candidates *)

Module Csp.
(** The dict appended by [screen_csp] (lines 260-280). *)
Record candidate : Type := mk {
  symbol : string;
  strategy : string;
  current_price : Q;
  strike : Q;
  short_strike : Q;
  long_strike : option Q;
  premium : Q;
  bid : Q;
  ask : Q;
  credit : Q;
  max_risk : Q;
  otm_percent : Q;
  return_on_risk : Q;
  annualized_return : Q;
  expiry : Z;
  expiry_str : string;
  dte : Z;
  volume : Z;
  open_interest : Z
}.
End Csp.

Module Bps.
(** The dict appended by [screen_bull_put_spread] (lines 359-378). *)
Record candidate : Type := mk {
  symbol : string;
  strategy : string;
  current_price : Q;
  short_strike : Q;
  long_strike : Q;
  short_premium : Q;
  long_premium : Q;
  credit : Q;
  spread_width : Q;
  max_risk : Q;
  otm_percent : Q;
  return_on_risk : Q;
  annualized_return : Q;
  expiry : Z;
  expiry_str : string;
  dte : Z;
  short_volume : Z;
  long_volume : Z
}.
End Bps.

(** ** Sorting *)

Section Sorting.

Context {A : Type}.
Variable key : A -> Q.

(** Insert [x] in front of the first element whose key is not greater. *)
Fixpoint insert_desc (x : A) (l : list A) : list A :=
  match l with
  | [] => [x]
  | y :: l' => if key x <? key y then y :: insert_desc x l' else x :: y :: l'
  end.

(** Stable sort by decreasing key: what [list.sort(key=..., reverse=True)]
    returns.  It also stands for [sort_values(..., ascending=False)], whose
    order among rows of equal key pandas leaves open. *)
Fixpoint sort_desc (l : list A) : list A :=
  match l with
  | [] => []
  | x :: l' => insert_desc x (sort_desc l')
  end.

End Sorting.

(** [Series.unique()]: the distinct values in order of first appearance. *)
Fixpoint unique (l : list Z) : list Z :=
  match l with
  | [] => []
  | x :: l' => x :: filter (fun y => negb (y =? x)%Z) (unique l')
  end.

(** ** The screeners *)

Definition strike_window (current_price : Q) : Q * Q :=
  (current_price * (1 - MAX_OTM_PERCENT / 100),
   current_price * (1 - MIN_OTM_PERCENT / 100)).

(** Body of the loop over the filtered rows in [screen_csp]
    (lines 244-280). *)
Definition csp_body (symbol : string) (current_price : Q)
  (candidates : list Csp.candidate) (row : put_row)
  : result (list Csp.candidate) :=
  let strike := strike row in
  let bid := bid row in
  let ask := ask row in
  let premium := (bid + ask) / 2 in
  otm <~ py_div (current_price - strike) current_price ;;
  let otm_percent := otm * 100 in
  ror <~ py_div premium strike ;;
  let return_on_risk := ror * 100 in
  let max_risk := strike * 100 in
  if MIN_RETURN_ON_RISK <=? return_on_risk then
    let dte := dte row in
    per_year <~ py_div 365 (inject_Z dte) ;;
    let annualized_return := return_on_risk * per_year in
    Ok (candidates ++
        [Csp.mk symbol "CSP" current_price strike strike None premium bid ask
                premium max_risk otm_percent return_on_risk annualized_return
                (expiry row) (expiry_str row) dte (volume row)
                (openInterest row)])
  else Ok candidates.

(** The row filter of [screen_csp] (lines 234-241). *)
Definition csp_filter (min_strike max_strike : Q) (r : put_row) : bool :=
  (min_strike <=? strike r) &&
  (strike r <=? max_strike) &&
  (MIN_VOLUME <=? inject_Z (volume r)) &&
  (MIN_OPEN_INTEREST <=? inject_Z (openInterest r)) &&
  (0 <? bid r) &&
  (0 <? ask r).

(** The row filter of [screen_bull_put_spread] (lines 303-310). *)
Definition bps_filter (min_strike max_strike : Q) (r : put_row) : bool :=
  (min_strike - SPREAD_WIDTH <=? strike r) &&
  (strike r <=? max_strike) &&
  (MIN_VOLUME / 2 <=? inject_Z (volume r)) &&
  (MIN_OPEN_INTEREST / 2 <=? inject_Z (openInterest r)) &&
  (0 <? bid r) &&
  (0 <? ask r).

(** The rows admitted as long leg for a target strike (lines 328-331). *)
Definition long_window (long_strike : Q) (r : put_row) : bool :=
  (long_strike - 0.50 <=? strike r) && (strike r <=? long_strike + 0.50).

(** Metrics of a pair of legs (lines 341-346). *)
Definition short_premium_of (short_row : put_row) : Q :=
  (bid short_row + ask short_row) / 2.
Definition long_premium_of (long_row : put_row) : Q :=
  (bid long_row + ask long_row) / 2.
Definition net_credit_of (short_row long_row : put_row) : Q :=
  short_premium_of short_row - long_premium_of long_row.
Definition actual_width_of (short_row long_row : put_row) : Q :=
  strike short_row - strike long_row.
Definition max_risk_of (short_row long_row : put_row) : Q :=
  (actual_width_of short_row long_row - net_credit_of short_row long_row)
  * 100.

(** The guard of line 348: [true] when the pair is skipped. *)
Definition rejects (short_row long_row : put_row) : bool :=
  (max_risk_of short_row long_row <=? 0) ||
  (net_credit_of short_row long_row <=? 0).

(** From the chosen long leg to the append (lines 338-378). *)
Definition bps_pair (symbol : string) (current_price : Q)
  (candidates : list Bps.candidate) (short_row long_row : put_row)
  : result (list Bps.candidate) :=
  let short_strike := strike short_row in
  let actual_long_strike := strike long_row in
  let short_premium := short_premium_of short_row in
  let long_premium := long_premium_of long_row in
  let net_credit := net_credit_of short_row long_row in
  let actual_width := actual_width_of short_row long_row in
  let max_risk := max_risk_of short_row long_row in
  if rejects short_row long_row then Ok candidates
  else
    ror <~ py_div net_credit actual_width ;;
    let return_on_risk := ror * 100 in
    if MIN_RETURN_ON_RISK <=? return_on_risk then
      otm <~ py_div (current_price - short_strike) current_price ;;
      let otm_percent := otm * 100 in
      let dte := dte short_row in
      per_year <~ py_div 365 (inject_Z dte) ;;
      let annualized_return := return_on_risk * per_year in
      Ok (candidates ++
          [Bps.mk symbol "BPS" current_price short_strike actual_long_strike
                  short_premium long_premium net_credit actual_width max_risk
                  otm_percent return_on_risk annualized_return
                  (expiry short_row) (expiry_str short_row) dte
                  (volume short_row) (volume long_row)])
    else Ok candidates.

(** Body of the loop over the short legs of one expiry (lines 318-378). *)
Definition bps_body (symbol : string) (current_price : Q)
  (min_strike max_strike : Q) (expiry_chain : list put_row)
  (candidates : list Bps.candidate) (short_row : put_row)
  : result (list Bps.candidate) :=
  let short_strike := strike short_row in
  if (short_strike <? min_strike) || (max_strike <? short_strike) then
    Ok candidates
  else
    let long_strike := short_strike - SPREAD_WIDTH in
    let long_options := filter (long_window long_strike) expiry_chain in
    match long_options with
    | [] => Ok candidates
    | long_row :: _ =>
        bps_pair symbol current_price candidates short_row long_row
    end.

(** The rows of one expiry, highest strike first (lines 314-315). *)
Definition expiry_group (chain : list put_row) (e : Z) : list put_row :=
  sort_desc strike (filter (fun r => (expiry r =? e)%Z) chain).

(** Body of the loop over the expiries (lines 313-378). *)
Definition bps_expiry (symbol : string) (current_price : Q)
  (min_strike max_strike : Q) (chain : list put_row)
  (candidates : list Bps.candidate) (e : Z)
  : result (list Bps.candidate) :=
  let expiry_chain := expiry_group chain e in
  for_each (bps_body symbol current_price min_strike max_strike expiry_chain)
           candidates expiry_chain.

Section Screeners.

Variable env : Env.

(** [OptionsScreener.screen_csp] (lines 215-282). *)
Definition screen_csp (symbol : string) : M (list Csp.candidate) :=
  let candidates := [] in
  current_price <- get_current_price env symbol ;;
  match current_price with
  | None => ret candidates
  | Some current_price =>
      if Qeq_bool current_price 0 then ret candidates
      else
        chain <- get_options_chain env symbol ;;
        match chain with
        | None => ret candidates
        | Some chain =>
            if (length chain =? 0)%nat then ret candidates
            else
              let (min_strike, max_strike) := strike_window current_price in
              let chain := filter (csp_filter min_strike max_strike) chain in
              lift (for_each (csp_body symbol current_price) candidates chain)
        end
  end.

(** [OptionsScreener.screen_bull_put_spread] (lines 284-380). *)
Definition screen_bull_put_spread (symbol : string)
  : M (list Bps.candidate) :=
  let candidates := [] in
  current_price <- get_current_price env symbol ;;
  match current_price with
  | None => ret candidates
  | Some current_price =>
      if Qeq_bool current_price 0 then ret candidates
      else
        chain <- get_options_chain env symbol ;;
        match chain with
        | None => ret candidates
        | Some chain =>
            if (length chain =? 0)%nat then ret candidates
            else
              let (min_strike, max_strike) := strike_window current_price in
              let chain := filter (bps_filter min_strike max_strike) chain in
              lift (for_each
                      (bps_expiry symbol current_price min_strike max_strike
                                  chain)
                      candidates (unique (map expiry chain)))
        end
  end.

End Screeners.

(** ** The orchestrator *)

Record results : Type := mk_results {
  CSP : list Csp.candidate;
  BPS : list Bps.candidate
}.

Section Orchestrator.

Variable csp_screener : string -> M (list Csp.candidate).
Variable bps_screener : string -> M (list Bps.candidate).

(** Body of the loop over the tickers (lines 392-408): the [results] dict is
    updated in place, so what was appended before an exception stays. *)
Definition screen_symbol (res : results) (symbol : string) (w : World)
  : results * World :=
  match csp_screener symbol w with
  | (Raised _, w1) => (res, w1)
  | (Ok csp_results, w1) =>
      let res1 := mk_results (CSP res ++ csp_results) (BPS res) in
      match bps_screener symbol w1 with
      | (Raised _, w2) => (res1, w2)
      | (Ok bps_results, w2) =>
          (mk_results (CSP res1) (BPS res1 ++ bps_results), w2)
      end
  end.

(** The loop over the tickers. *)
Fixpoint scan (tickers : list string) (res : results) (w : World)
  : results * World :=
  match tickers with
  | [] => (res, w)
  | symbol :: rest =>
      let (res', w') := screen_symbol res symbol w in
      scan rest res' w'
  end.

(** The two final sorts (lines 411-412). *)
Definition rank (res : results) : results :=
  mk_results (sort_desc Csp.annualized_return (CSP res))
             (sort_desc Bps.annualized_return (BPS res)).

Definition screen_all_stocks_with (tickers : list string) (w : World)
  : results * World :=
  let (res, w') := scan tickers (mk_results [] []) w in
  (rank res, w').

End Orchestrator.

(** [OptionsScreener.screen_all_stocks] (lines 382-414). *)
Definition screen_all_stocks (env : Env) (tickers : list string) (w : World)
  : results * World :=
  screen_all_stocks_with (screen_csp env) (screen_bull_put_spread env)
                         tickers w.

(** ** The report (trading_bot.py, lines 420-475) *)

(** What [display_results] prints.  A line built from numbers is kept as the
    numbers it shows, before they are formatted; the lines of one trade
    (lines 436-439, 453-456) are one entry. *)
Inductive line : Type :=
| Text (s : string)
| TotalFound (n : nat)
| CspEntry (i : nat) (trade : Csp.candidate)
| BpsEntry (i : nat) (trade : Bps.candidate)
| TotalCsp (n : nat)
| TotalBps (n : nat)
| AverageCsp (avg : Q)
| AverageBps (avg : Q).

(** ["=" * n] *)
Fixpoint rule (c : string) (n : nat) : string :=
  match n with
  | O => EmptyString
  | S n' => (c ++ rule c n')%string
  end.

Definition newline : string := String (Ascii.ascii_of_nat 10) EmptyString.

(** [enumerate(l, start)] *)
Fixpoint enumerate {A} (start : nat) (l : list A) : list (nat * A) :=
  match l with
  | [] => []
  | x :: l' => (start, x) :: enumerate (S start) l'
  end.

(** [sum(...)] of numbers: additions from the left, starting at 0. *)
Definition py_sum (l : list Q) : Q := fold_left Qplus l 0.

(** [len(...)] as a number. *)
Definition py_len {A} (l : list A) : Q := inject_Z (Z.of_nat (length l)).

(** [display_results] (lines 420-475). *)
Definition display_results (res : results) : result (list line) :=
  let csp_candidates := CSP res in
  let bps_candidates := BPS res in
  let csp_part :=
    [Text (newline ++ rule "=" 100);
     Text "CASH SECURED PUT (CSP) OPPORTUNITIES";
     Text (rule "=" 100);
     TotalFound (length csp_candidates)] ++
    match csp_candidates with
    | [] => [Text "No CSP candidates found matching criteria"]
    | _ :: _ =>
        [Text "Top 15 CSP Trades:"; Text (rule "-" 100)] ++
        map (fun it => CspEntry (fst it) (snd it))
            (enumerate 1 (firstn 15 csp_candidates))
    end in
  let bps_part :=
    [Text (newline ++ newline ++ rule "=" 100);
     Text "BULL PUT SPREAD (BPS) OPPORTUNITIES";
     Text (rule "=" 100);
     TotalFound (length bps_candidates)] ++
    match bps_candidates with
    | [] => [Text "No BPS candidates found matching criteria"]
    | _ :: _ =>
        [Text "Top 15 BPS Trades:"; Text (rule "-" 100)] ++
        map (fun it => BpsEntry (fst it) (snd it))
            (enumerate 1 (firstn 15 bps_candidates))
    end in
  let summary :=
    [Text (newline ++ newline ++ rule "=" 100);
     Text "SUMMARY";
     Text (rule "=" 100);
     TotalCsp (length csp_candidates);
     TotalBps (length bps_candidates)] in
  csp_average <~
    match csp_candidates with
    | [] => Ok []
    | _ :: _ =>
        avg_csp_return <~
          py_div (py_sum (map Csp.return_on_risk csp_candidates))
                 (py_len csp_candidates) ;;
        Ok [AverageCsp avg_csp_return]
    end ;;
  bps_average <~
    match bps_candidates with
    | [] => Ok []
    | _ :: _ =>
        avg_bps_return <~
          py_div (py_sum (map Bps.return_on_risk bps_candidates))
                 (py_len bps_candidates) ;;
        Ok [AverageBps avg_bps_return]
    end ;;
  Ok (csp_part ++ bps_part ++ summary ++ csp_average ++ bps_average
      ++ [Text (rule "=" 100)]).

(** ** The intraday bracket order script
    (intraday_bracket_order(entry-SL-takeprofit).py) *)

Module Bracket.

(** A historical bar as [reqHistoricalData] returns it. *)
Record bar : Type := mk_bar {
  bar_open : Q;
  bar_high : Q;
  bar_low : Q;
  bar_close : Q;
  bar_volume : Q
}.

Inductive error : Type :=
| AttributeError
| IndexError.

Inductive action : Type :=
| BUY
| SELL.

Inductive bias : Type :=
| up
| down.

Inductive color : Type :=
| green
| red.

(** What the script does with the broker: it leaves without an order, or
    places the bracket of lines 82-91. *)
Inductive outcome : Type :=
| NoSignal
| Placed (act : action) (totalQuantity : Z)
         (limitPrice takeProfitPrice stopLossPrice : Q).

(** [util.df(bars)]: no frame for an empty list. *)
Definition df (bars : list bar) : option (list bar) :=
  match bars with
  | [] => None
  | _ :: _ => Some bars
  end.

(** [frame.iloc[-2]] *)
Definition iloc_second_last (frame : list bar) : error + bar :=
  match rev frame with
  | _ :: b :: _ => inr b
  | _ => inl IndexError
  end.

(** Lines 27-30. *)
Definition market_bias_of (prev_day : bar) : bias :=
  if bar_open prev_day <? bar_close prev_day then up else down.

(** Line 45. *)
Definition color_of (x : bar) : color :=
  if bar_open x <? bar_close x then green else red.

Definition is_color (c : color) (x : bar) : bool :=
  match c, color_of x with
  | green, green => true
  | red, red => true
  | _, _ => false
  end.

(** [frame.loc[frame['volume'].idxmin()]] on a frame whose first row is
    [best]: the first row of least volume. *)
Fixpoint lowest_volume (best : bar) (rest : list bar) : bar :=
  match rest with
  | [] => best
  | b :: rest' =>
      if bar_volume b <? bar_volume best then lowest_volume b rest'
      else lowest_volume best rest'
  end.

(** Lines 68-75. *)
Definition prices (trade_direction : action) (low high : Q) : Q * Q * Q :=
  match trade_direction with
  | BUY =>
      let entry := low in
      let stop := high in
      let target := entry + 2 * (entry - stop) in
      (entry, stop, target)
  | SELL =>
      let entry := low in
      let stop := high in
      let target := entry - 2 * (stop - entry) in
      (entry, stop, target)
  end.

(** The script, from the two answers of [reqHistoricalData] to what it
    does with the broker (lines 13-91). *)
Definition script (yesterday_data intraday_bars : list bar)
  : error + outcome :=
  match df yesterday_data with
  | None => inl AttributeError
  | Some df_hist =>
      match iloc_second_last df_hist with
      | inl e => inl e
      | inr prev_day =>
          let market_bias := market_bias_of prev_day in
          match df intraday_bars with
          | None => inl AttributeError
          | Some frame =>
              let df_after3 := skipn 3 frame in
              let (wanted, trade_direction) :=
                match market_bias with
                | down => (green, BUY)
                | up => (red, SELL)
                end in
              let signal_candles := filter (is_color wanted) df_after3 in
              match signal_candles with
              | [] => inr NoSignal
              | c :: cs =>
                  let lowest_vol_candle := lowest_volume c cs in
                  let high := bar_high lowest_vol_candle in
                  let low := bar_low lowest_vol_candle in
                  let '(entry, stop, target) :=
                    prices trade_direction low high in
                  let quantity := 10%Z in
                  inr (Placed trade_direction quantity entry target stop)
              end
          end
      end
  end.

End Bracket.

(** ** The daily checklist: volatility and decision
    (Daily Options Trading Checklist & News Analyzer.py) *)

Module Checklist.

(** The dict returned by [check_vix]; a key that a dict may lack is an
    option. *)
Record vix_data : Type := mk_vix_data {
  current : option Q;
  previous : option Q;
  level : option string;
  risk_assessment : option string;
  rising : option bool
}.

(** [check_vix] (lines 82-116), on the closing prices of the five-day
    history of the index, or the exception raised while fetching them. *)
Definition check_vix (hist : result (list Q)) : vix_data :=
  match hist with
  | Ok (c :: cs) =>
      let current_vix := last (c :: cs) 0 in
      let prev_vix :=
        if (1 <? length (c :: cs))%nat
        then nth (length (c :: cs) - 2) (c :: cs) 0
        else current_vix in
      let '(level, risk) :=
        if current_vix <? 15 then
          ("LOW (Complacent)"%string,
           "✅ Low volatility - Good for selling premium"%string)
        else if current_vix <? 20 then
          ("NORMAL"%string,
           "✅ Normal conditions - Standard strategies OK"%string)
        else if current_vix <? 30 then
          ("ELEVATED"%string, "⚠️ Higher volatility - Use caution"%string)
        else
          ("HIGH (Fear)"%string,
           "🚨 High volatility - Avoid selling puts or use wider strikes"%string)
      in
      mk_vix_data (Some current_vix) (Some prev_vix) (Some level) (Some risk)
                  (Some (prev_vix <? current_vix))
  | _ =>
      mk_vix_data (Some 0) None (Some "UNKNOWN"%string)
                  (Some "Unable to fetch VIX data"%string) None
  end.

(** An entry of the dict returned by [get_market_overview]. *)
Record index_data : Type := mk_index_data {
  price : option Q;
  change : option Q;
  trend : option string
}.

(** The dict returned by [generate_trading_decision]; the two texts built
    from numbers are kept as what they show. *)
Record decision : Type := mk_decision {
  futures_check : string * Q * Q;
  econ_check : string;
  news_check : nat;
  technical_check : string;
  action : string;
  next_steps : string
}.

Definition WAIT_VIX : string :=
  "⚠️ WAIT - VIX too high, volatility elevated".
Definition CAUTION_NEWS : string :=
  "⚠️ CAUTION - Multiple negative catalysts present".
Definition WAIT_SELLOFF : string :=
  "⚠️ WAIT - Market selling off, avoid new trades".
Definition ENTER_TRADE : string :=
  "✅ ENTER TRADE - Market conditions favorable".

(** [d.get(key, default)] on a dict kept as a list of items. *)
Definition dict_get {V} (d : list (string * V)) (key : string) : option V :=
  match find (fun kv => String.eqb (fst kv) key) d with
  | Some kv => Some (snd kv)
  | None => None
  end.

(** [generate_trading_decision] (lines 438-466); only the number of
    negative catalysts is used. *)
Definition generate_trading_decision {C}
  (market_data : list (string * index_data)) (vix : vix_data)
  (negative_catalysts : list C) : decision :=
  let sp500_trend :=
    match dict_get market_data "S&P 500" with
    | Some entry => match change entry with Some c => c | None => 0 end
    | None => 0
    end in
  let vix_level := match current vix with Some v => v | None => 20 end in
  let '(action, next_steps) :=
    if 25 <? vix_level then
      (WAIT_VIX,
       ("• Skip today or use very conservative strikes (25%+ OTM)"
        ++ newline ++ "• Consider waiting for VIX to settle")%string)
    else if (5 <? length negative_catalysts)%nat then
      (CAUTION_NEWS,
       ("• Focus on stocks WITHOUT negative news"
        ++ newline ++ "• Use wider strikes and smaller position sizes")%string)
    else if sp500_trend <? -(15 # 10) then
      (WAIT_SELLOFF,
       ("• Wait for market stabilization"
        ++ newline ++ "• Review existing positions only")%string)
    else
      (ENTER_TRADE,
       ("• Run options screening bot"
        ++ newline ++ "• Select 2-3 CSP and 1 BPS from results"
        ++ newline ++ "• Execute trades with proper position sizing")%string)
  in
  mk_decision
    (if 0 <? sp500_trend then "UP"%string else "DOWN"%string,
     sp500_trend, vix_level)
    "See economic calendar section above"
    (length negative_catalysts)
    "Support/resistance levels identified above"
    action next_steps.

End Checklist.

(** * The screeners in binary64

    The same code of [trading_bot.py], with Python's [float] as the IEEE 754
    binary64 numbers of the kernel ([PrimFloat.float]): every operation is
    rounded to nearest as in Python, comparisons with a NaN are false, and a
    division by a zero float raises [ZeroDivisionError].  Nothing is assumed
    about [sort_values]: it is an answer of the environment, since pandas
    sorts with quicksort and leaves the order among equal strikes open. *)

Import PrimFloat.PrimFloatNotations.
Number Notation PrimFloat.float PrimFloat.parser PrimFloat.printer
  : float_scope.
Set Warnings "-inexact-float".

Module Binary64.

#[local] Open Scope float_scope.

Abbreviation float := PrimFloat.float.

(** The integer constants of lines 87-94 appear only in float arithmetic
    and comparisons, where Python converts them; all are exact. *)
Definition MIN_OTM_PERCENT : float := 5.
Definition MAX_OTM_PERCENT : float := 10.
Definition SPREAD_WIDTH : float := 5.00.
Definition MIN_RETURN_ON_RISK : float := 20.
Definition MIN_VOLUME : float := 10.
Definition MIN_OPEN_INTEREST : float := 50.

(** [float(z)] for an integer [z], rounded to nearest. *)
Definition of_int (z : Z) : float :=
  FloatOps.SF2Prim
    (SpecFloat.binary_normalize FloatOps.prec FloatOps.emax z 0 false).

(** Python's [x / y] on floats. *)
Definition py_div (x y : float) : result float :=
  if y =? 0 then Raised ZeroDivisionError else Ok (x / y).

(** Python's [x / y] on integers that are exact as floats (below 2^53), as
    365 and a number of days are: the rounded quotient. *)
Definition py_int_div (x y : Z) : result float :=
  if (y =? 0)%Z then Raised ZeroDivisionError else Ok (of_int x / of_int y).

(** ** Rows of an option chain *)

Record raw_put : Type := mk_raw_put {
  raw_strike : float;
  raw_bid : float;
  raw_ask : float;
  raw_volume : Z;
  raw_openInterest : Z
}.

Record put_row : Type := mk_put_row {
  strike : float;
  bid : float;
  ask : float;
  volume : Z;
  openInterest : Z;
  expiry : Z;
  expiry_str : string;
  dte : Z
}.

(** ** The environment *)

(** Answers of the outside world, as in [Env] above, and what
    [sort_values('strike', ascending=False)] returns for a frame. *)
Record Env : Type := mk_Env {
  yf_history : string -> nat -> result (list float);
  yf_options : string -> nat -> result (list string);
  yf_option_chain : string -> string -> nat -> result (list raw_put);
  datetime_now : nat -> Z;
  strptime : string -> result Z;
  sort_values : list put_row -> list put_row
}.

Section Fetchers.

Variable env : Env.

(** [OptionsScreener.get_current_price] (lines 171-180). *)
Definition get_current_price (symbol : string) : M (option float) :=
  try_except
    (data <- request (EvHistory symbol) (yf_history env symbol) ;;
     match data with
     | [] => ret None
     | c :: cs => ret (Some (last cs c))
     end)
    (fun _ => ret None).

(** Lines 201-204. *)
Definition tag_puts (exp_date : Z) (exp_str : string) (d : Z)
  (puts : list raw_put) : list put_row :=
  map (fun r => mk_put_row (raw_strike r) (raw_bid r) (raw_ask r)
                           (raw_volume r) (raw_openInterest r)
                           exp_date exp_str d) puts.

(** The loop over the expirations (lines 194-205). *)
Fixpoint collect_puts (symbol : string) (current_date : Z)
  (expirations : list string) (all_puts : list (list put_row))
  : M (list (list put_row)) :=
  match expirations with
  | [] => ret all_puts
  | exp_str :: rest =>
      exp_date <- lift (strptime env exp_str) ;;
      let d := timedelta_days exp_date current_date in
      if ((MIN_DTE <=? d)%Z && (d <=? MAX_DTE)%Z)%bool then
        puts <- request (EvOptionChain symbol exp_str)
                        (yf_option_chain env symbol exp_str) ;;
        collect_puts symbol current_date rest
                     (all_puts ++ [tag_puts exp_date exp_str d puts])
      else
        collect_puts symbol current_date rest all_puts
  end.

(** [OptionsScreener.get_options_chain] (lines 182-213). *)
Definition get_options_chain (symbol : string) : M (option (list put_row)) :=
  try_except
    (expirations <- request (EvOptions symbol) (yf_options env symbol) ;;
     match expirations with
     | [] => ret None
     | _ :: _ =>
         current_date <- request EvNow (fun t => Ok (datetime_now env t)) ;;
         all_puts <- collect_puts symbol current_date expirations [] ;;
         match all_puts with
         | [] => ret None
         | _ :: _ => ret (Some (concat all_puts))
         end
     end)
    (fun _ => ret None).

End Fetchers.

(** ** Candidates *)

Module Csp.
(** The dict appended by [screen_csp] (lines 260-280). *)
Record candidate : Type := mk {
  symbol : string;
  strategy : string;
  current_price : float;
  strike : float;
  short_strike : float;
  long_strike : option float;
  premium : float;
  bid : float;
  ask : float;
  credit : float;
  max_risk : float;
  otm_percent : float;
  return_on_risk : float;
  annualized_return : float;
  expiry : Z;
  expiry_str : string;
  dte : Z;
  volume : Z;
  open_interest : Z
}.
End Csp.

Module Bps.
(** The dict appended by [screen_bull_put_spread] (lines 359-378). *)
Record candidate : Type := mk {
  symbol : string;
  strategy : string;
  current_price : float;
  short_strike : float;
  long_strike : float;
  short_premium : float;
  long_premium : float;
  credit : float;
  spread_width : float;
  max_risk : float;
  otm_percent : float;
  return_on_risk : float;
  annualized_return : float;
  expiry : Z;
  expiry_str : string;
  dte : Z;
  short_volume : Z;
  long_volume : Z
}.
End Bps.

(** ** The screeners *)

(** Lines 229-230 and 298-299. *)
Definition strike_window (current_price : float) : float * float :=
  (current_price * (1 - MAX_OTM_PERCENT / 100),
   current_price * (1 - MIN_OTM_PERCENT / 100)).

(** Body of the loop over the filtered rows in [screen_csp]
    (lines 244-280). *)
Definition csp_body (symbol : string) (current_price : float)
  (candidates : list Csp.candidate) (row : put_row)
  : result (list Csp.candidate) :=
  let strike := strike row in
  let bid := bid row in
  let ask := ask row in
  let premium := (bid + ask) / 2 in
  otm <~ py_div (current_price - strike) current_price ;;
  let otm_percent := otm * 100 in
  ror <~ py_div premium strike ;;
  let return_on_risk := ror * 100 in
  let max_risk := strike * 100 in
  if MIN_RETURN_ON_RISK <=? return_on_risk then
    let dte := dte row in
    per_year <~ py_int_div 365 dte ;;
    let annualized_return := return_on_risk * per_year in
    Ok (candidates ++
        [Csp.mk symbol "CSP" current_price strike strike None premium bid ask
                premium max_risk otm_percent return_on_risk annualized_return
                (expiry row) (expiry_str row) dte (volume row)
                (openInterest row)])
  else Ok candidates.

(** The row filter of [screen_csp] (lines 234-241). *)
Definition csp_filter (min_strike max_strike : float) (r : put_row) : bool :=
  (min_strike <=? strike r) &&
  (strike r <=? max_strike) &&
  (MIN_VOLUME <=? of_int (volume r)) &&
  (MIN_OPEN_INTEREST <=? of_int (openInterest r)) &&
  (0 <? bid r) &&
  (0 <? ask r).

(** The row filter of [screen_bull_put_spread] (lines 303-310). *)
Definition bps_filter (min_strike max_strike : float) (r : put_row) : bool :=
  (min_strike - SPREAD_WIDTH <=? strike r) &&
  (strike r <=? max_strike) &&
  (MIN_VOLUME / 2 <=? of_int (volume r)) &&
  (MIN_OPEN_INTEREST / 2 <=? of_int (openInterest r)) &&
  (0 <? bid r) &&
  (0 <? ask r).

(** The rows admitted as long leg for a target strike (lines 328-331). *)
Definition long_window (long_strike : float) (r : put_row) : bool :=
  (long_strike - 0.50 <=? strike r) && (strike r <=? long_strike + 0.50).

(** Metrics of a pair of legs (lines 341-346). *)
Definition short_premium_of (short_row : put_row) : float :=
  (bid short_row + ask short_row) / 2.
Definition long_premium_of (long_row : put_row) : float :=
  (bid long_row + ask long_row) / 2.
Definition net_credit_of (short_row long_row : put_row) : float :=
  short_premium_of short_row - long_premium_of long_row.
Definition actual_width_of (short_row long_row : put_row) : float :=
  strike short_row - strike long_row.
Definition max_risk_of (short_row long_row : put_row) : float :=
  (actual_width_of short_row long_row - net_credit_of short_row long_row)
  * 100.

(** The guard of line 348: [true] when the pair is skipped. *)
Definition rejects (short_row long_row : put_row) : bool :=
  (max_risk_of short_row long_row <=? 0) ||
  (net_credit_of short_row long_row <=? 0).

(** From the chosen long leg to the append (lines 338-378). *)
Definition bps_pair (symbol : string) (current_price : float)
  (candidates : list Bps.candidate) (short_row long_row : put_row)
  : result (list Bps.candidate) :=
  let short_strike := strike short_row in
  let actual_long_strike := strike long_row in
  let short_premium := short_premium_of short_row in
  let long_premium := long_premium_of long_row in
  let net_credit := net_credit_of short_row long_row in
  let actual_width := actual_width_of short_row long_row in
  let max_risk := max_risk_of short_row long_row in
  if rejects short_row long_row then Ok candidates
  else
    ror <~ py_div net_credit actual_width ;;
    let return_on_risk := ror * 100 in
    if MIN_RETURN_ON_RISK <=? return_on_risk then
      otm <~ py_div (current_price - short_strike) current_price ;;
      let otm_percent := otm * 100 in
      let dte := dte short_row in
      per_year <~ py_int_div 365 dte ;;
      let annualized_return := return_on_risk * per_year in
      Ok (candidates ++
          [Bps.mk symbol "BPS" current_price short_strike actual_long_strike
                  short_premium long_premium net_credit actual_width max_risk
                  otm_percent return_on_risk annualized_return
                  (expiry short_row) (expiry_str short_row) dte
                  (volume short_row) (volume long_row)])
    else Ok candidates.

(** Body of the loop over the short legs of one expiry (lines 318-378). *)
Definition bps_body (symbol : string) (current_price : float)
  (min_strike max_strike : float) (expiry_chain : list put_row)
  (candidates : list Bps.candidate) (short_row : put_row)
  : result (list Bps.candidate) :=
  let short_strike := strike short_row in
  if (short_strike <? min_strike) || (max_strike <? short_strike) then
    Ok candidates
  else
    let long_strike := short_strike - SPREAD_WIDTH in
    let long_options := filter (long_window long_strike) expiry_chain in
    match long_options with
    | [] => Ok candidates
    | long_row :: _ =>
        bps_pair symbol current_price candidates short_row long_row
    end.

Section Screeners.

Variable env : Env.

(** The rows of one expiry as [sort_values] orders them (lines 314-315). *)
Definition expiry_group (chain : list put_row) (e : Z) : list put_row :=
  sort_values env (filter (fun r => (expiry r =? e)%Z) chain).

(** Body of the loop over the expiries (lines 313-378). *)
Definition bps_expiry (symbol : string) (current_price : float)
  (min_strike max_strike : float) (chain : list put_row)
  (candidates : list Bps.candidate) (e : Z)
  : result (list Bps.candidate) :=
  let expiry_chain := expiry_group chain e in
  for_each (bps_body symbol current_price min_strike max_strike expiry_chain)
           candidates expiry_chain.

(** [OptionsScreener.screen_csp] (lines 215-282). *)
Definition screen_csp (symbol : string) : M (list Csp.candidate) :=
  let candidates := [] in
  current_price <- get_current_price env symbol ;;
  match current_price with
  | None => ret candidates
  | Some current_price =>
      if current_price =? 0 then ret candidates
      else
        chain <- get_options_chain env symbol ;;
        match chain with
        | None => ret candidates
        | Some chain =>
            if (length chain =? 0)%nat then ret candidates
            else
              let (min_strike, max_strike) := strike_window current_price in
              let chain := filter (csp_filter min_strike max_strike) chain in
              lift (for_each (csp_body symbol current_price) candidates chain)
        end
  end.

(** [OptionsScreener.screen_bull_put_spread] (lines 284-380). *)
Definition screen_bull_put_spread (symbol : string)
  : M (list Bps.candidate) :=
  let candidates := [] in
  current_price <- get_current_price env symbol ;;
  match current_price with
  | None => ret candidates
  | Some current_price =>
      if current_price =? 0 then ret candidates
      else
        chain <- get_options_chain env symbol ;;
        match chain with
        | None => ret candidates
        | Some chain =>
            if (length chain =? 0)%nat then ret candidates
            else
              let (min_strike, max_strike) := strike_window current_price in
              let chain := filter (bps_filter min_strike max_strike) chain in
              lift (for_each
                      (bps_expiry symbol current_price min_strike max_strike
                                  chain)
                      candidates (unique (map expiry chain)))
        end
  end.

End Screeners.

End Binary64.

(** * Vocabulary of the properties *)

(** ** Requests and the window of days to expiration *)

(** Number of spot-price requests for [symbol] in a log. *)
Fixpoint price_fetches (symbol : string) (w : World) : nat :=
  match w with
  | [] => 0
  | EvHistory s :: w' =>
      (if String.eqb s symbol then 1 else 0) + price_fetches symbol w'
  | _ :: w' => price_fetches symbol w'
  end.

Definition in_dte_window (d : Z) : Prop := (MIN_DTE <= d <= MAX_DTE)%Z.

Definition rows_in_dte_window (chain : list put_row) : Prop :=
  Forall (fun r => in_dte_window (dte r)) chain.

(** ** Ranking *)

Section RankingVocabulary.

Context {A : Type}.
Variable key : A -> Q.

(** The order of the result: keys never increase. *)
Definition key_ge (a b : A) : Prop := key b <= key a.

(** The elements of [l] whose key equals [k], in their order in [l]. *)
Definition with_key (k : Q) (l : list A) : list A :=
  filter (fun a => Qeq_bool (key a) k) l.

End RankingVocabulary.

(** ** Candidates *)

Definition in_strike_window (spot k : Q) : Prop :=
  spot * (1 - MAX_OTM_PERCENT / 100) <= k
  <= spot * (1 - MIN_OTM_PERCENT / 100).

(** A CSP candidate emitted for [symbol] at spot price [p]. *)
Definition csp_inv (symbol : string) (p : Q) (c : Csp.candidate) : Prop :=
  Csp.symbol c = symbol /\
  Csp.current_price c = p /\
  Csp.short_strike c = Csp.strike c /\
  in_strike_window p (Csp.strike c) /\
  in_dte_window (Csp.dte c) /\
  MIN_RETURN_ON_RISK <= Csp.return_on_risk c.

(** A BPS candidate emitted for [symbol] at spot price [p]. *)
Definition bps_inv (symbol : string) (p : Q) (c : Bps.candidate) : Prop :=
  Bps.symbol c = symbol /\
  Bps.current_price c = p /\
  in_strike_window p (Bps.short_strike c) /\
  in_dte_window (Bps.dte c) /\
  MIN_RETURN_ON_RISK <= Bps.return_on_risk c /\
  Bps.long_strike c < Bps.short_strike c /\
  0 < Bps.credit c /\
  0 < Bps.max_risk c /\
  Qabs (Bps.short_strike c - Bps.long_strike c - SPREAD_WIDTH) <= 0.50.

(** An accumulator grows by at most one candidate, which satisfies [I]. *)
Definition grows_by {C} (I : C -> Prop) (old new : list C) : Prop :=
  new = old \/ exists c, new = old ++ [c] /\ I c.

(** [c] was emitted for [symbol] by a screener started in world [w]: the
    spot price it records is the one that screener fetched. *)
Definition csp_emitted (env : Env) (symbol : string) (w : World)
  (c : Csp.candidate) : Prop :=
  fst (get_current_price env symbol w) = Ok (Some (Csp.current_price c)) /\
  csp_inv symbol (Csp.current_price c) c.

Definition bps_emitted (env : Env) (symbol : string) (w : World)
  (c : Bps.candidate) : Prop :=
  fst (get_current_price env symbol w) = Ok (Some (Bps.current_price c)) /\
  bps_inv symbol (Bps.current_price c) c.

(** What one screener call adds to the count of spot-price requests. *)
Definition one_price_fetch (symbol : string) (w w' : World) : Prop :=
  forall s, price_fetches s w' =
            ((if String.eqb symbol s then 1 else 0) + price_fetches s w)%nat.

(** ** Results and the wording of the claims *)

Definition no_results : results := mk_results [] [].

Definition merge (r1 r2 : results) : results :=
  mk_results (CSP r1 ++ CSP r2) (BPS r1 ++ BPS r2).

(** The candidates in arrival order, before the final sorts. *)
Definition arrival (env : Env) (tickers : list string) (w : World)
  : results :=
  fst (scan (screen_csp env) (screen_bull_put_spread env) tickers
            no_results w).

(** The validity of a spread as the claim C2 words it. *)
Definition spread_valid (c : Bps.candidate) : Prop :=
  Bps.long_strike c < Bps.short_strike c /\
  0 < Bps.credit c /\
  0 < Bps.max_risk c /\
  Qabs (Bps.short_strike c - Bps.long_strike c - SPREAD_WIDTH) <= 0.50.

(** What holds of the days to expiration of a row or candidate: inside the
    window, positive, and a divisor on which [365 / dte] does not raise. *)
Definition dte_safe (d : Z) : Prop :=
  in_dte_window d /\ (0 < d)%Z /\
  py_div 365 (inject_Z d) = Ok (365 / inject_Z d).

(** ** Concrete markets and rows *)

(** A market that answers every request the same way: one closing price,
    one expiration [d] days ahead, one chain. *)
Definition steady_market (spot : Q) (d : Z) (puts : list raw_put) : Env :=
  mk_Env (fun _ _ => Ok [spot])
         (fun _ _ => Ok ["2026-01-16"%string])
         (fun _ _ _ => Ok puts)
         (fun _ => 0%Z)
         (fun _ => Ok (d * MICROSECONDS_PER_DAY)%Z).

(** Scenario A: one leg at strike 92 with a thin premium. *)
Definition scenario_A : Env :=
  steady_market 100 5 [mk_raw_put 92 1.0 1.2 100 100].

(** Scenario B: the same leg with a premium of 18.4. *)
Definition scenario_B : Env :=
  steady_market 100 5 [mk_raw_put 92 17.5 19.3 100 100].

(** Scenario C: a short leg at 95 and a long leg at 90.2. *)
Definition scenario_C : Env :=
  steady_market 100 5
    [mk_raw_put 95 2.0 2.2 100 100; mk_raw_put 90.2 0.5 0.7 100 100].

(** Scenario D: the short leg of scenario C and no leg near 90. *)
Definition scenario_D : Env :=
  steady_market 100 5
    [mk_raw_put 95 2.0 2.2 100 100; mk_raw_put 88 0.5 0.7 100 100].

(** A group in which the first admitted long leg (90.4) is farther from the
    target 90 than a later one (90.0). *)
Definition two_long_legs : list put_row :=
  [mk_put_row 95 2.0 2.2 100 100 0 "2026-01-16" 5;
   mk_put_row 90.4 0.5 0.7 100 100 0 "2026-01-16" 5;
   mk_put_row 90 0.5 0.7 100 100 0 "2026-01-16" 5].

(** The claim C9 as worded: one spot-price request per listed symbol in a
    scan started on an empty log. *)
Definition quote_fetched_once (env : Env) (tickers : list string) : Prop :=
  forall s, In s tickers ->
            price_fetches s (snd (screen_all_stocks env tickers [])) = 1%nat.

(** A market whose closing price is 100 at the first request and 101 from
    then on. *)
Definition moving_market : Env :=
  mk_Env (fun _ t => if (t =? 0)%nat then Ok [100] else Ok [101])
         (fun _ _ => Ok ["2026-01-16"%string])
         (fun _ _ _ => Ok [mk_raw_put 95 2.0 2.2 100 100;
                           mk_raw_put 92 17.5 19.3 100 100;
                           mk_raw_put 90.2 0.5 0.7 100 100])
         (fun _ => 0%Z)
         (fun _ => Ok (5 * MICROSECONDS_PER_DAY)%Z).

(** A market on which the first closing-price request is answered with 100
    and every later one fails; the chain is the one of scenario B. *)
Definition flaky_market : Env :=
  mk_Env (fun _ t => if (t =? 0)%nat then Ok [100] else Raised RemoteError)
         (fun _ _ => Ok ["2026-01-16"%string])
         (fun _ _ _ => Ok [mk_raw_put 92 17.5 19.3 100 100])
         (fun _ => 0%Z)
         (fun _ => Ok (5 * MICROSECONDS_PER_DAY)%Z).

(** A market on which the first closing-price request fails and every
    later one is answered with 100; the chain is the one of scenario C. *)
Definition recovering_market : Env :=
  mk_Env (fun _ t => if (t =? 0)%nat then Raised RemoteError else Ok [100])
         (fun _ _ => Ok ["2026-01-16"%string])
         (fun _ _ _ => Ok [mk_raw_put 95 2.0 2.2 100 100;
                           mk_raw_put 90.2 0.5 0.7 100 100])
         (fun _ => 0%Z)
         (fun _ => Ok (5 * MICROSECONDS_PER_DAY)%Z).

(** A market with a price and no expirations. *)
Definition no_chain_market : Env :=
  mk_Env (fun _ _ => Ok [100])
         (fun _ _ => Ok [])
         (fun _ _ _ => Ok [mk_raw_put 92 17.5 19.3 100 100])
         (fun _ => 0%Z)
         (fun _ => Ok (5 * MICROSECONDS_PER_DAY)%Z).

(** The claim C4 as worded, for a scan of the single ticker [x] started on
    an empty log: if one of the two spot-price requests made for [x] fails,
    [x] contributes no candidate. *)
Definition failed_symbol_contributes_nothing (env : Env) (x : string) : Prop :=
  (fst (get_current_price env x []) = Ok None \/
   fst (get_current_price env x (snd (screen_csp env x []))) = Ok None) ->
  fst (screen_all_stocks env [x] []) = no_results.

(** ** Requests of the chain fetcher *)

(** The instant [get_options_chain] reads from the clock when started on
    the log [w]: its second request. *)
Definition chain_clock (env : Env) (w : World) : Z :=
  datetime_now env (S (length w)).

(** [exp_str] parses to a date whose distance from [now] is inside the
    window of days to expiration. *)
Definition expiration_in_window (env : Env) (now : Z) (exp_str : string)
  : Prop :=
  exists exp_date,
    strptime env exp_str = Ok exp_date /\
    in_dte_window (timedelta_days exp_date now).

(** A row carries the three columns that [get_options_chain] computes for
    its expiration. *)
Definition row_tagged (env : Env) (now : Z) (expirations : list string)
  (r : put_row) : Prop :=
  In (expiry_str r) expirations /\
  strptime env (expiry_str r) = Ok (expiry r) /\
  dte r = timedelta_days (expiry r) now /\
  in_dte_window (dte r).

(** An event that [get_options_chain] may log for [symbol]. *)
Definition chain_event (env : Env) (now : Z) (symbol : string)
  (expirations : list string) (ev : event) : Prop :=
  match ev with
  | EvHistory _ => False
  | EvOptions s => s = symbol
  | EvNow => True
  | EvOptionChain s exp_str =>
      s = symbol /\ In exp_str expirations /\
      expiration_in_window env now exp_str
  end.

(** ** What the screeners return, as filters and maps *)

(** The candidate that [screen_csp] builds from a row (lines 245-280), its
    three divisions done. *)
Definition csp_of_row (symbol : string) (p : Q) (row : put_row)
  : Csp.candidate :=
  let premium := (bid row + ask row) / 2 in
  let return_on_risk := premium / strike row * 100 in
  Csp.mk symbol "CSP" p (strike row) (strike row) None premium
         (bid row) (ask row) premium (strike row * 100)
         ((p - strike row) / p * 100) return_on_risk
         (return_on_risk * (365 / inject_Z (dte row)))
         (expiry row) (expiry_str row) (dte row) (volume row)
         (openInterest row).

(** The test of line 256 on a row. *)
Definition csp_accepts (row : put_row) : bool :=
  MIN_RETURN_ON_RISK <=? (bid row + ask row) / 2 / strike row * 100.

(** The list [screen_csp] returns for the price and the chain it fetched. *)
Definition csp_outcome (symbol : string) (price : option Q)
  (chain : option (list put_row)) : list Csp.candidate :=
  match price, chain with
  | Some p, Some chain =>
      if Qeq_bool p 0 then []
      else map (csp_of_row symbol p)
               (filter csp_accepts
                  (filter (csp_filter (fst (strike_window p))
                                      (snd (strike_window p))) chain))
  | _, _ => []
  end.

(** The candidate that [screen_bull_put_spread] builds from a pair of legs
    (lines 341-378), its three divisions done. *)
Definition bps_of_pair (symbol : string) (p : Q) (short_row long_row : put_row)
  : Bps.candidate :=
  let net_credit := net_credit_of short_row long_row in
  let actual_width := actual_width_of short_row long_row in
  let return_on_risk := net_credit / actual_width * 100 in
  Bps.mk symbol "BPS" p (strike short_row) (strike long_row)
         (short_premium_of short_row) (long_premium_of long_row)
         net_credit actual_width (max_risk_of short_row long_row)
         ((p - strike short_row) / p * 100) return_on_risk
         (return_on_risk * (365 / inject_Z (dte short_row)))
         (expiry short_row) (expiry_str short_row) (dte short_row)
         (volume short_row) (volume long_row).

(** The tests of lines 348 and 354 on a pair of legs. *)
Definition bps_accepts (short_row long_row : put_row) : bool :=
  negb (rejects short_row long_row) &&
  (MIN_RETURN_ON_RISK <=?
   net_credit_of short_row long_row / actual_width_of short_row long_row
   * 100).

(** What one short leg adds to the candidates of its expiry group. *)
Definition bps_emit (symbol : string) (p min_strike max_strike : Q)
  (expiry_chain : list put_row) (short_row : put_row) : list Bps.candidate :=
  if (strike short_row <? min_strike) || (max_strike <? strike short_row)
  then []
  else match find (long_window (strike short_row - SPREAD_WIDTH))
                  expiry_chain with
       | None => []
       | Some long_row =>
           if bps_accepts short_row long_row
           then [bps_of_pair symbol p short_row long_row]
           else []
       end.

(** The list [screen_bull_put_spread] returns for the price and the chain
    it fetched. *)
Definition bps_outcome (symbol : string) (price : option Q)
  (chain : option (list put_row)) : list Bps.candidate :=
  match price, chain with
  | Some p, Some chain =>
      if Qeq_bool p 0 then []
      else
        let min_strike := fst (strike_window p) in
        let max_strike := snd (strike_window p) in
        let chain' := filter (bps_filter min_strike max_strike) chain in
        flat_map
          (fun e =>
             flat_map (bps_emit symbol p min_strike max_strike
                                (expiry_group chain' e))
                      (expiry_group chain' e))
          (unique (map expiry chain'))
  | _, _ => []
  end.

(** ** Where a candidate comes from *)

(** The row [row] yields a CSP candidate at the non-zero spot price [p]. *)
Definition csp_row_ok (p : Q) (row : put_row) : Prop :=
  ~ p == 0 /\
  csp_filter (fst (strike_window p)) (snd (strike_window p)) row = true /\
  csp_accepts row = true /\
  in_dte_window (dte row).

(** The legs [short_row] and [long_row] yield a BPS candidate at the
    non-zero spot price [p]. *)
Definition bps_pair_ok (p : Q) (short_row long_row : put_row) : Prop :=
  ~ p == 0 /\
  bps_filter (fst (strike_window p)) (snd (strike_window p)) short_row
    = true /\
  bps_filter (fst (strike_window p)) (snd (strike_window p)) long_row
    = true /\
  in_strike_window p (strike short_row) /\
  long_window (strike short_row - SPREAD_WIDTH) long_row = true /\
  bps_accepts short_row long_row = true /\
  in_dte_window (dte short_row) /\
  expiry long_row = expiry short_row.

(** [c] is the candidate of a row of the chain fetched for [symbol]. *)
Definition csp_from_chain (symbol : string) (c : Csp.candidate) : Prop :=
  exists p row, csp_row_ok p row /\ c = csp_of_row symbol p row.

(** [c] is the candidate of two rows of the chain fetched for [symbol]. *)
Definition bps_from_chain (symbol : string) (c : Bps.candidate) : Prop :=
  exists p short_row long_row,
    bps_pair_ok p short_row long_row /\
    c = bps_of_pair symbol p short_row long_row.

(** ** Requests of a scan *)

(** The event concerns one of [symbols], or is a reading of the clock. *)
Definition event_about (symbols : list string) (ev : event) : Prop :=
  match ev with
  | EvHistory s => In s symbols
  | EvOptions s => In s symbols
  | EvOptionChain s _ => In s symbols
  | EvNow => True
  end.

(** ** Reading a report *)

(** The CSP trades of a report, with their ranks. *)
Definition shown_csp (out : list line) : list (nat * Csp.candidate) :=
  flat_map (fun l => match l with CspEntry i t => [(i, t)] | _ => [] end) out.

(** The BPS trades of a report, with their ranks. *)
Definition shown_bps (out : list line) : list (nat * Bps.candidate) :=
  flat_map (fun l => match l with BpsEntry i t => [(i, t)] | _ => [] end) out.

(** The averages of a report. *)
Definition shown_averages (out : list line) : list line :=
  filter (fun l => match l with
                   | AverageCsp _ => true
                   | AverageBps _ => true
                   | _ => false
                   end) out.

(** The average of a list of returns, when it has one. *)
Definition average_of (l : list Q) : list Q :=
  match l with
  | [] => []
  | _ :: _ => [py_sum l / py_len l]
  end.

(** ** The bracket order script *)

(** The colour of the candles the script looks for when it trades in the
    direction [act]. *)
Definition wanted_color (act : Bracket.action) : Bracket.color :=
  match act with
  | Bracket.BUY => Bracket.green
  | Bracket.SELL => Bracket.red
  end.

(** ** The checklist *)

(** The volatility that [generate_trading_decision] reads from a dict. *)
Definition vix_level_of (vix : Checklist.vix_data) : Q :=
  match Checklist.current vix with
  | Some v => v
  | None => 20
  end.

(** The S&P 500 change that [generate_trading_decision] reads from the
    market overview. *)
Definition sp500_trend_of (market_data : list (string * Checklist.index_data))
  : Q :=
  match Checklist.dict_get market_data "S&P 500" with
  | Some entry =>
      match Checklist.change entry with
      | Some c => c
      | None => 0
      end
  | None => 0
  end.

(** The history of the index could not be used: the request raised, or the
    frame is empty. *)
Definition vix_unavailable (hist : result (list Q)) : Prop :=
  match hist with
  | Ok (_ :: _) => False
  | _ => True
  end.

(** ** More concrete inputs *)

(** A market whose expirations request raises. *)
Definition closed_market : Env :=
  mk_Env (fun _ _ => Ok [100])
         (fun _ _ => Raised RemoteError)
         (fun _ _ _ => Ok [mk_raw_put 92 17.5 19.3 100 100])
         (fun _ => 0%Z)
         (fun _ => Ok (5 * MICROSECONDS_PER_DAY)%Z).

(** A market that lists a second expiration which is not a date. *)
Definition malformed_market : Env :=
  mk_Env (fun _ _ => Ok [100])
         (fun _ _ => Ok ["2026-01-16"%string; "soon"%string])
         (fun _ _ _ => Ok [mk_raw_put 92 17.5 19.3 100 100])
         (fun _ => 0%Z)
         (fun exp_str =>
            if String.eqb exp_str "soon" then Raised ValueError
            else Ok (5 * MICROSECONDS_PER_DAY)%Z).

(** A market whose only expiration is thirty days ahead. *)
Definition far_market : Env :=
  steady_market 100 30 [mk_raw_put 92 17.5 19.3 100 100].

(** Two daily bars, the first of which closed below its open, and five
    intraday bars of which the last two are green. *)
Definition falling_days : list Bracket.bar :=
  [Bracket.mk_bar 101 102 98 99 1000; Bracket.mk_bar 99 100 97 98 1200].

Definition five_candles : list Bracket.bar :=
  [Bracket.mk_bar 98 99 97 98.5 500;
   Bracket.mk_bar 98.5 99 98 98.2 400;
   Bracket.mk_bar 98.2 98.6 97.9 98.4 300;
   Bracket.mk_bar 98.4 99.2 98.3 99 250;
   Bracket.mk_bar 99 99.5 98.8 99.3 200].

(** ** Binary64: orders, markets and the distance to a decimal *)

(** [sorted] holds the rows of [rows], strikes not increasing: what
    [sort_values('strike', ascending=False)] guarantees of its result. *)
Definition descending_permutation (rows sorted : list Binary64.put_row)
  : Prop :=
  Permutation rows sorted /\
  StronglySorted
    (fun a b => (Binary64.strike b <=? Binary64.strike a)%float = true)
    sorted.

(** One such order: a stable insertion sort. *)
Fixpoint b64_insert_desc (x : Binary64.put_row) (l : list Binary64.put_row)
  : list Binary64.put_row :=
  match l with
  | [] => [x]
  | y :: l' =>
      if (Binary64.strike x <? Binary64.strike y)%float
      then y :: b64_insert_desc x l'
      else x :: y :: l'
  end.

Fixpoint b64_sort_desc (l : list Binary64.put_row) : list Binary64.put_row :=
  match l with
  | [] => []
  | x :: l' => b64_insert_desc x (b64_sort_desc l')
  end.

(** Another: the same sort, fed the rows in reverse. *)
Definition b64_sort_desc_rev (l : list Binary64.put_row)
  : list Binary64.put_row :=
  b64_sort_desc (rev l).

(** A market that answers every request the same way, as [steady_market],
    and sorts frames with [sort_values]. *)
Definition b64_steady_market
  (sort_values : list Binary64.put_row -> list Binary64.put_row)
  (spot : PrimFloat.float) (d : Z) (puts : list Binary64.raw_put)
  : Binary64.Env :=
  Binary64.mk_Env (fun _ _ => Ok [spot])
                  (fun _ _ => Ok ["2026-01-16"%string])
                  (fun _ _ _ => Ok puts)
                  (fun _ => 0%Z)
                  (fun _ => Ok (d * MICROSECONDS_PER_DAY)%Z)
                  sort_values.

(** Scenario C in binary64. *)
Definition b64_legs_C : list Binary64.raw_put :=
  [Binary64.mk_raw_put 95 2.0 2.2 100 100;
   Binary64.mk_raw_put 90.2 0.5 0.7 100 100].

Definition b64_scenario_C
  (sort_values : list Binary64.put_row -> list Binary64.put_row)
  : Binary64.Env :=
  b64_steady_market sort_values 100 5 b64_legs_C.

(** The frame of scenario C that [screen_bull_put_spread] sorts. *)
Definition b64_group_C : list Binary64.put_row :=
  Binary64.tag_puts (5 * MICROSECONDS_PER_DAY) "2026-01-16" 5 b64_legs_C.

(** The rational that a finite float is. *)
Definition b64_to_Q (f : PrimFloat.float) : option Q :=
  match FloatOps.Prim2SF f with
  | SpecFloat.S754_zero _ => Some 0
  | SpecFloat.S754_finite s m e =>
      let v := if (0 <=? e)%Z
               then inject_Z (Z.pos m * 2 ^ e)
               else Z.pos m # Z.to_pos (2 ^ (- e)) in
      Some (if s then - v else v)
  | _ => None
  end.

(** The float [f] is finite and within [eps] of [q]. *)
Definition b64_within (f : PrimFloat.float) (q eps : Q) : Prop :=
  match b64_to_Q f with
  | Some v => Qabs (v - q) <= eps
  | None => False
  end.

(** The claim C7 as worded, the numbers compared as Python's [==] does. *)
Definition scenario_C_as_stated
  (r : result (list Binary64.Bps.candidate)) : Prop :=
  exists c,
    r = Ok [c] /\
    (Binary64.Bps.credit c =? 1.5)%float = true /\
    (Binary64.Bps.spread_width c =? 4.8)%float = true /\
    (Binary64.Bps.max_risk c =? 330)%float = true /\
    (Binary64.Bps.return_on_risk c =? 31.25)%float = true.

(** ** Binary64: what the screeners return, as filters and maps *)

(** The rows that pass the filter of [screen_csp] at the spot price [p]. *)
Definition b64_csp_rows (p : PrimFloat.float) (chain : list Binary64.put_row)
  : list Binary64.put_row :=
  filter (Binary64.csp_filter (fst (Binary64.strike_window p))
                              (snd (Binary64.strike_window p))) chain.

(** The candidate that [screen_csp] builds from a row (lines 245-280). *)
Definition b64_csp_of_row (symbol : string) (p : PrimFloat.float)
  (row : Binary64.put_row) : Binary64.Csp.candidate :=
  let strike := Binary64.strike row in
  let premium := ((Binary64.bid row + Binary64.ask row) / 2)%float in
  let return_on_risk := (premium / strike * 100)%float in
  Binary64.Csp.mk symbol "CSP" p strike strike None premium
    (Binary64.bid row) (Binary64.ask row) premium (strike * 100)%float
    ((p - strike) / p * 100)%float return_on_risk
    (return_on_risk
     * (Binary64.of_int 365 / Binary64.of_int (Binary64.dte row)))%float
    (Binary64.expiry row) (Binary64.expiry_str row) (Binary64.dte row)
    (Binary64.volume row) (Binary64.openInterest row).

(** The test of line 256 on a row. *)
Definition b64_csp_accepts (row : Binary64.put_row) : bool :=
  (Binary64.MIN_RETURN_ON_RISK <=?
   (Binary64.bid row + Binary64.ask row) / 2 / Binary64.strike row * 100)%float.

(** The division of line 251 has a zero divisor. *)
Definition b64_zero_strike (row : Binary64.put_row) : bool :=
  (Binary64.strike row =? 0)%float.

(** What [screen_csp] does for the price and the chain it fetched. *)
Definition b64_csp_outcome (symbol : string) (price : option PrimFloat.float)
  (chain : option (list Binary64.put_row))
  : result (list Binary64.Csp.candidate) :=
  match price, chain with
  | Some p, Some chain =>
      if (p =? 0)%float then Ok []
      else if existsb b64_zero_strike (b64_csp_rows p chain)
           then Raised ZeroDivisionError
           else Ok (map (b64_csp_of_row symbol p)
                        (filter b64_csp_accepts (b64_csp_rows p chain)))
  | _, _ => Ok []
  end.

(** The candidate that [screen_bull_put_spread] builds from a pair of legs
    (lines 341-378). *)
Definition b64_bps_of_pair (symbol : string) (p : PrimFloat.float)
  (short_row long_row : Binary64.put_row) : Binary64.Bps.candidate :=
  let net_credit := Binary64.net_credit_of short_row long_row in
  let actual_width := Binary64.actual_width_of short_row long_row in
  let return_on_risk := (net_credit / actual_width * 100)%float in
  Binary64.Bps.mk symbol "BPS" p (Binary64.strike short_row)
    (Binary64.strike long_row)
    (Binary64.short_premium_of short_row)
    (Binary64.long_premium_of long_row)
    net_credit actual_width (Binary64.max_risk_of short_row long_row)
    ((p - Binary64.strike short_row) / p * 100)%float return_on_risk
    (return_on_risk
     * (Binary64.of_int 365 / Binary64.of_int (Binary64.dte short_row)))%float
    (Binary64.expiry short_row) (Binary64.expiry_str short_row)
    (Binary64.dte short_row)
    (Binary64.volume short_row) (Binary64.volume long_row).

(** The long leg taken for a short leg of the group [expiry_chain]: none
    for a short leg outside the strike window, else the first row of the
    group inside the width window (lines 322-337). *)
Definition b64_long_leg (min_strike max_strike : PrimFloat.float)
  (expiry_chain : list Binary64.put_row) (short_row : Binary64.put_row)
  : option Binary64.put_row :=
  if ((Binary64.strike short_row <? min_strike)
      || (max_strike <? Binary64.strike short_row))%float
  then None
  else find (Binary64.long_window
               (Binary64.strike short_row - Binary64.SPREAD_WIDTH)%float)
            expiry_chain.

(** The pair passes the guard of line 348 and the division of line 351 has
    a zero divisor. *)
Definition b64_zero_width (min_strike max_strike : PrimFloat.float)
  (expiry_chain : list Binary64.put_row) (short_row : Binary64.put_row)
  : bool :=
  match b64_long_leg min_strike max_strike expiry_chain short_row with
  | None => false
  | Some long_row =>
      negb (Binary64.rejects short_row long_row) &&
      (Binary64.actual_width_of short_row long_row =? 0)%float
  end.

(** The tests of lines 348 and 354 on a pair of legs. *)
Definition b64_bps_accepts (short_row long_row : Binary64.put_row) : bool :=
  negb (Binary64.rejects short_row long_row) &&
  (Binary64.MIN_RETURN_ON_RISK <=?
   Binary64.net_credit_of short_row long_row
   / Binary64.actual_width_of short_row long_row * 100)%float.

(** What one short leg adds to the candidates of its expiry group. *)
Definition b64_bps_emit (symbol : string) (p : PrimFloat.float)
  (min_strike max_strike : PrimFloat.float)
  (expiry_chain : list Binary64.put_row) (short_row : Binary64.put_row)
  : list Binary64.Bps.candidate :=
  match b64_long_leg min_strike max_strike expiry_chain short_row with
  | None => []
  | Some long_row =>
      if b64_bps_accepts short_row long_row
      then [b64_bps_of_pair symbol p short_row long_row]
      else []
  end.

(** What [screen_bull_put_spread] does for the price and the chain it
    fetched. *)
Definition b64_bps_outcome (env : Binary64.Env) (symbol : string)
  (price : option PrimFloat.float) (chain : option (list Binary64.put_row))
  : result (list Binary64.Bps.candidate) :=
  match price, chain with
  | Some p, Some chain =>
      if (p =? 0)%float then Ok []
      else
        let min_strike := fst (Binary64.strike_window p) in
        let max_strike := snd (Binary64.strike_window p) in
        let chain' :=
          filter (Binary64.bps_filter min_strike max_strike) chain in
        let group := Binary64.expiry_group env chain' in
        let expiries := unique (map Binary64.expiry chain') in
        if existsb (fun e => existsb (b64_zero_width min_strike max_strike
                                                     (group e))
                                     (group e)) expiries
        then Raised ZeroDivisionError
        else Ok (flat_map
                   (fun e => flat_map (b64_bps_emit symbol p min_strike
                                                    max_strike (group e))
                                      (group e))
                   expiries)
  | _, _ => Ok []
  end.

(** [sort_values] returns the rows it is given, in some order. *)
Definition reorders (env : Binary64.Env) : Prop :=
  forall rows, Permutation rows (Binary64.sort_values env rows).

(** ** Binary64: the tests a candidate has passed *)

(** The tests of [screen_csp] and the formulas of lines 248-250, on the
    values that a CSP candidate stores. *)
Definition b64_csp_checked (c : Binary64.Csp.candidate) : Prop :=
  let p := Binary64.Csp.current_price c in
  let k := Binary64.Csp.strike c in
  (p =? 0)%float = false /\
  (fst (Binary64.strike_window p) <=? k)%float = true /\
  (k <=? snd (Binary64.strike_window p))%float = true /\
  (k =? 0)%float = false /\
  Binary64.Csp.otm_percent c = ((p - k) / p * 100)%float /\
  Binary64.Csp.return_on_risk c
  = (Binary64.Csp.premium c / k * 100)%float /\
  (Binary64.MIN_RETURN_ON_RISK <=? Binary64.Csp.return_on_risk c)%float
  = true.

(** The tests of lines 304-305, 322 and 354 and the formulas of lines 351
    and 355, on the values that a BPS candidate stores. *)
Definition b64_bps_checked (c : Binary64.Bps.candidate) : Prop :=
  let p := Binary64.Bps.current_price c in
  let k := Binary64.Bps.short_strike c in
  (p =? 0)%float = false /\
  (fst (Binary64.strike_window p) - Binary64.SPREAD_WIDTH <=? k)%float
  = true /\
  (k <? fst (Binary64.strike_window p))%float = false /\
  (k <=? snd (Binary64.strike_window p))%float = true /\
  Binary64.Bps.otm_percent c = ((p - k) / p * 100)%float /\
  Binary64.Bps.return_on_risk c
  = (Binary64.Bps.credit c / Binary64.Bps.spread_width c * 100)%float /\
  (Binary64.MIN_RETURN_ON_RISK <=? Binary64.Bps.return_on_risk c)%float
  = true.

(** The tests of lines 329-330 and 348 and the formulas of lines 343-346,
    on the values that a BPS candidate stores. *)
Definition b64_spread_checked (c : Binary64.Bps.candidate) : Prop :=
  let target :=
    (Binary64.Bps.short_strike c - Binary64.SPREAD_WIDTH)%float in
  (target - 0.50 <=? Binary64.Bps.long_strike c)%float = true /\
  (Binary64.Bps.long_strike c <=? target + 0.50)%float = true /\
  Binary64.Bps.spread_width c
  = (Binary64.Bps.short_strike c - Binary64.Bps.long_strike c)%float /\
  (Binary64.Bps.spread_width c =? 0)%float = false /\
  Binary64.Bps.credit c
  = (Binary64.Bps.short_premium c - Binary64.Bps.long_premium c)%float /\
  Binary64.Bps.max_risk c
  = ((Binary64.Bps.spread_width c - Binary64.Bps.credit c) * 100)%float /\
  (Binary64.Bps.max_risk c <=? 0)%float = false /\
  (Binary64.Bps.credit c <=? 0)%float = false.

(** What a screener ends with: candidates that all satisfy [I], or the one
    exception that a division raises. *)
Definition b64_all {C} (I : C -> Prop) (r : result (list C)) : Prop :=
  match r with
  | Ok cs => Forall I cs
  | Raised e => e = ZeroDivisionError
  end.

(** Markets on which rounding shows. *)
Definition b64_market_38 : Binary64.Env :=
  b64_steady_market b64_sort_desc 38 5
    [Binary64.mk_raw_put 36.1 20 20 100 100].

Definition b64_market_23 : Binary64.Env :=
  b64_steady_market b64_sort_desc 23 5
    [Binary64.mk_raw_put 20.7 20 20 100 100].

Definition b64_market_thin_credit : Binary64.Env :=
  b64_steady_market b64_sort_desc 100 5
    [Binary64.mk_raw_put 95 1.9 1.9 100 100;
     Binary64.mk_raw_put 90.5 1.0 1.0 100 100].

Definition b64_market_wide : Binary64.Env :=
  b64_steady_market b64_sort_desc 100 5
    [Binary64.mk_raw_put 95 1.6 1.6 100 100;
     Binary64.mk_raw_put 89.5 0.5 0.5 100 100].

(** A spot of 12 and one row at 11.4, the upper end of the strike window in
    exact arithmetic; and a short leg with two rows of strike 90 below it. *)
Definition b64_market_12 : Binary64.Env :=
  b64_steady_market b64_sort_desc 12 5
    [Binary64.mk_raw_put 11.4 5 5 100 100].

Definition b64_tied_legs : list Binary64.raw_put :=
  [Binary64.mk_raw_put 95 2.0 2.5 100 100;
   Binary64.mk_raw_put 90 0.5 0.5 100 100;
   Binary64.mk_raw_put 90 0.25 0.25 100 100].

(** * Properties *)

(** ** Numbers *)

#[local] Arguments Qplus : simpl never.
#[local] Arguments Qminus : simpl never.
#[local] Arguments Qmult : simpl never.
#[local] Arguments Qdiv : simpl never.
#[local] Arguments Qinv : simpl never.
#[local] Arguments Qopp : simpl never.
#[local] Arguments inject_Z : simpl never.
#[local] Arguments Qabs : simpl never.

(** Linear arithmetic with the divisions by the literals 2 and 100 turned
    into multiplications. *)
Ltac qlra :=
  unfold Qdiv in *;
  change (/ 2) with (1 # 2) in *;
  change (/ 100) with (1 # 100) in *;
  lra.

Lemma Qleb_le (x y : Q) : (x <=? y) = true <-> x <= y.
Proof. apply Qle_bool_iff. Qed.

Lemma Qltb_lt (x y : Q) : (x <? y) = true <-> x < y.
Proof.
  unfold Qltb. rewrite negb_true_iff. split; intro H.
  - apply Qnot_le_lt. intro Hle. apply Qle_bool_iff in Hle. congruence.
  - destruct (Qle_bool y x) eqn:E; [|reflexivity].
    apply Qle_bool_iff in E. exfalso. exact (Qlt_not_le _ _ H E).
Qed.

Lemma Qltb_ge (x y : Q) : (x <? y) = false <-> y <= x.
Proof.
  unfold Qltb. rewrite negb_false_iff. apply Qle_bool_iff.
Qed.

Lemma Qleb_gt (x y : Q) : (x <=? y) = false <-> y < x.
Proof.
  rewrite <- Qltb_lt. unfold Qltb, Qleb.
  destruct (Qle_bool x y); simpl; intuition congruence.
Qed.

Lemma py_div_nonzero (x y : Q) : ~ y == 0 -> py_div x y = Ok (x / y).
Proof.
  intro H. unfold py_div. destruct (Qeq_bool y 0) eqn:E; [|reflexivity].
  apply Qeq_bool_iff in E. contradiction.
Qed.

(** ** Loops *)

(** A loop whose body keeps an invariant on every row it meets returns,
    and the invariant holds of what it returns. *)
Lemma for_each_invariant {A B} (body : A -> B -> result A)
  (I : A -> Prop) (R : B -> Prop) :
  (forall acc x, I acc -> R x -> exists acc', body acc x = Ok acc' /\ I acc') ->
  forall xs acc, I acc -> Forall R xs ->
  exists acc', for_each body acc xs = Ok acc' /\ I acc'.
Proof.
  intros Hbody xs. induction xs as [|x xs IH]; intros acc Hacc Hxs; simpl.
  - eauto.
  - inversion Hxs as [|? ? Hx Hrest]; subst.
    destruct (Hbody acc x Hacc Hx) as [acc1 [E1 H1]].
    rewrite E1. simpl. apply IH; assumption.
Qed.

(** ** The fetchers *)

Section FetcherFacts.

Variable env : Env.

Lemma get_current_price_run (symbol : string) (w : World) :
  exists p, get_current_price env symbol w = (Ok p, EvHistory symbol :: w).
Proof.
  unfold get_current_price, try_except, bind, request, ret.
  destruct (yf_history env symbol (length w)) as [[|c cs]|e]; eauto.
Qed.

Lemma tag_puts_dte exp_date exp_str d puts :
  in_dte_window d -> rows_in_dte_window (tag_puts exp_date exp_str d puts).
Proof.
  intro Hd. unfold rows_in_dte_window, tag_puts.
  apply Forall_forall. intros r Hr. apply in_map_iff in Hr.
  destruct Hr as [raw [<- _]]. exact Hd.
Qed.

Lemma collect_puts_run symbol current_date expirations :
  forall all_puts w,
    Forall rows_in_dte_window all_puts ->
    exists r w',
      collect_puts env symbol current_date expirations all_puts w = (r, w') /\
      (forall s, price_fetches s w' = price_fetches s w) /\
      (forall ap, r = Ok ap -> Forall rows_in_dte_window ap).
Proof.
  induction expirations as [|exp_str rest IH]; intros all_puts w Hall; simpl.
  - exists (Ok all_puts), w. repeat split; trivial.
    intros ap [= <-]. exact Hall.
  - unfold bind at 1, lift. destruct (strptime env exp_str) as [exp_date|e].
    + destruct ((MIN_DTE <=? timedelta_days exp_date current_date)%Z &&
                (timedelta_days exp_date current_date <=? MAX_DTE)%Z)%bool
        eqn:Hd.
      * unfold bind at 1, request.
        destruct (yf_option_chain env symbol exp_str (length w)) as [puts|e].
        -- apply andb_true_iff in Hd. destruct Hd as [H1 H2].
           apply Z.leb_le in H1, H2.
           destruct (IH (all_puts ++
                         [tag_puts exp_date exp_str
                            (timedelta_days exp_date current_date) puts])
                        (EvOptionChain symbol exp_str :: w))
             as [r [w' [E [Hp Hr]]]].
           { apply Forall_app. split; [exact Hall|].
             constructor; [|constructor].
             apply tag_puts_dte. split; assumption. }
           exists r, w'. repeat split; assumption.
        -- exists (Raised e), (EvOptionChain symbol exp_str :: w).
           repeat split; trivial. intros ap [=].
      * apply IH. exact Hall.
    + exists (Raised e), w. repeat split; trivial. intros ap [=].
Qed.

Lemma get_options_chain_run (symbol : string) (w : World) :
  exists r w',
    get_options_chain env symbol w = (Ok r, w') /\
    (forall s, price_fetches s w' = price_fetches s w) /\
    (forall chain, r = Some chain -> rows_in_dte_window chain).
Proof.
  unfold get_options_chain, try_except.
  unfold bind at 1, request.
  destruct (yf_options env symbol (length w)) as [[|e0 es]|e].
  - exists None, (EvOptions symbol :: w). repeat split; trivial. intros c [=].
  - unfold bind at 1.
    destruct (collect_puts_run symbol
                (datetime_now env (length (EvOptions symbol :: w)))
                (e0 :: es) [] (EvNow :: EvOptions symbol :: w))
      as [r [w' [E [Hp Hr]]]]; [constructor|].
    assert (Hp' : forall s, price_fetches s w' =
                            price_fetches s (EvOptions symbol :: w))
      by (intro s; rewrite Hp; reflexivity).
    unfold bind. rewrite E. destruct r as [[|f fs]|e].
    + exists None, w'. repeat split; trivial. intros c [=].
    + exists (Some (concat (f :: fs))), w'. repeat split; trivial.
      intros chain [= <-]. specialize (Hr _ eq_refl).
      apply Forall_concat in Hr. exact Hr.
    + exists None, w'. repeat split; trivial. intros c [=].
  - exists None, (EvOptions symbol :: w). repeat split; trivial. intros c [=].
Qed.

End FetcherFacts.

(** ** Sorting *)

Section SortingFacts.

Context {A : Type}.
Variable key : A -> Q.

Lemma insert_desc_perm (x : A) (l : list A) :
  Permutation (x :: l) (insert_desc key x l).
Proof.
  induction l as [|y l IH]; simpl; [reflexivity|].
  destruct (key x <? key y).
  - rewrite perm_swap. now apply perm_skip.
  - reflexivity.
Qed.

Lemma sort_desc_perm (l : list A) : Permutation l (sort_desc key l).
Proof.
  induction l as [|x l IH]; simpl; [reflexivity|].
  rewrite <- insert_desc_perm. now apply perm_skip.
Qed.

Lemma sort_desc_Forall (P : A -> Prop) (l : list A) :
  Forall P l -> Forall P (sort_desc key l).
Proof. apply Permutation_Forall, sort_desc_perm. Qed.

Lemma sort_desc_In (x : A) (l : list A) : In x (sort_desc key l) <-> In x l.
Proof.
  split; apply Permutation_in;
    [apply Permutation_sym|]; apply sort_desc_perm.
Qed.

Lemma insert_desc_sorted (x : A) (l : list A) :
  StronglySorted (key_ge key) l -> StronglySorted (key_ge key) (insert_desc key x l).
Proof.
  induction l as [|y l IH]; intro Hs; simpl.
  - repeat constructor.
  - inversion Hs as [|? ? Hl Hy]; subst.
    destruct (key x <? key y) eqn:E.
    + apply Qltb_lt in E. constructor; [now apply IH|].
      apply (Permutation_Forall (insert_desc_perm x l)).
      constructor; [|exact Hy]. unfold key_ge. now apply Qlt_le_weak.
    + apply Qltb_ge in E. constructor; [exact Hs|].
      constructor; [exact E|].
      eapply Forall_impl; [|exact Hy].
      intros z Hz. unfold key_ge in *. eapply Qle_trans; eassumption.
Qed.

Lemma sort_desc_sorted (l : list A) : StronglySorted (key_ge key) (sort_desc key l).
Proof.
  induction l as [|x l IH]; simpl; [constructor|].
  now apply insert_desc_sorted.
Qed.

(** Insertion moves [x] only past elements of strictly greater key. *)
Lemma insert_desc_with_key (k : Q) (x : A) (l : list A) :
  with_key key k (insert_desc key x l) = with_key key k (x :: l).
Proof.
  induction l as [|y l IH]; [reflexivity|].
  simpl insert_desc. destruct (key x <? key y) eqn:E; [|reflexivity].
  apply Qltb_lt in E.
  unfold with_key in *. simpl in *. rewrite IH.
  destruct (Qeq_bool (key x) k) eqn:Ex, (Qeq_bool (key y) k) eqn:Ey;
    try reflexivity.
  apply Qeq_bool_iff in Ex, Ey. exfalso.
  rewrite Ex, Ey in E. exact (Qlt_irrefl _ E).
Qed.

Lemma sort_desc_stable (k : Q) (l : list A) :
  with_key key k (sort_desc key l) = with_key key k l.
Proof.
  induction l as [|x l IH]; [reflexivity|].
  simpl sort_desc. rewrite insert_desc_with_key.
  simpl. now rewrite IH.
Qed.

End SortingFacts.

(** ** The loop bodies *)

Lemma strike_window_spec (p : Q) (r : put_row) :
  (fst (strike_window p) <=? strike r) = true ->
  (strike r <=? snd (strike_window p)) = true ->
  in_strike_window p (strike r).
Proof.
  intros H1 H2. apply Qleb_le in H1, H2. split; assumption.
Qed.

Lemma nonzero_cases (p : Q) : ~ p == 0 -> p < 0 \/ 0 < p.
Proof.
  intro H. destruct (Q_dec p 0) as [[Hlt|Hgt]|Heq]; auto. contradiction.
Qed.

Lemma window_strike_nonzero (p k : Q) :
  ~ p == 0 -> in_strike_window p k -> ~ k == 0.
Proof.
  unfold in_strike_window, MAX_OTM_PERCENT, MIN_OTM_PERCENT.
  intros Hp [H1 H2] Hk. destruct (nonzero_cases p Hp); qlra.
Qed.

Lemma dte_nonzero (d : Z) : in_dte_window d -> ~ inject_Z d == 0.
Proof.
  unfold in_dte_window, MIN_DTE. intros [H _] E.
  unfold Qeq in E. simpl in E. lia.
Qed.

Lemma grows_by_Forall {C} (I : C -> Prop) (old new : list C) :
  grows_by I old new -> Forall I old -> Forall I new.
Proof.
  intros [->|[c [-> Hc]]] Hold; [exact Hold|].
  apply Forall_app. split; [exact Hold|]. constructor; [exact Hc|constructor].
Qed.

Lemma csp_body_run symbol p candidates row :
  ~ p == 0 ->
  csp_filter (fst (strike_window p)) (snd (strike_window p)) row = true ->
  in_dte_window (dte row) ->
  exists cands',
    csp_body symbol p candidates row = Ok cands' /\
    grows_by (csp_inv symbol p) candidates cands'.
Proof.
  intros Hp Hf Hd. unfold csp_filter in Hf.
  repeat (apply andb_true_iff in Hf; destruct Hf as [Hf ?]).
  assert (Hw : in_strike_window p (strike row))
    by (apply strike_window_spec; assumption).
  unfold csp_body.
  rewrite (py_div_nonzero _ p Hp). simpl.
  rewrite (py_div_nonzero _ (strike row) (window_strike_nonzero _ _ Hp Hw)).
  simpl.
  destruct (MIN_RETURN_ON_RISK <=? _) eqn:Hror.
  - rewrite (py_div_nonzero _ _ (dte_nonzero _ Hd)). simpl.
    eexists. split; [reflexivity|]. right. eexists. split; [reflexivity|].
    apply Qleb_le in Hror.
    unfold csp_inv; simpl. repeat split; try assumption; apply Hw || apply Hd.
  - eexists. split; [reflexivity|]. now left.
Qed.

Lemma rejects_false short_row long_row :
  rejects short_row long_row = false ->
  0 < max_risk_of short_row long_row /\ 0 < net_credit_of short_row long_row.
Proof.
  unfold rejects. intro H. apply orb_false_iff in H. destruct H as [H1 H2].
  apply Qleb_gt in H1, H2. split; assumption.
Qed.

(** Past the guard of line 348 the width is above the credit, hence
    positive. *)
Lemma rejects_false_width short_row long_row :
  rejects short_row long_row = false ->
  net_credit_of short_row long_row < actual_width_of short_row long_row /\
  0 < actual_width_of short_row long_row.
Proof.
  intro H. apply rejects_false in H. destruct H as [H1 H2].
  unfold max_risk_of in H1. split; qlra.
Qed.

Lemma long_window_spec (target : Q) (r : put_row) :
  long_window target r = true ->
  target - 0.50 <= strike r /\ strike r <= target + 0.50.
Proof.
  unfold long_window. intro H. apply andb_true_iff in H.
  destruct H as [H1 H2]. apply Qleb_le in H1, H2. split; assumption.
Qed.

Lemma bps_pair_run symbol p candidates short_row long_row :
  ~ p == 0 ->
  in_strike_window p (strike short_row) ->
  in_dte_window (dte short_row) ->
  long_window (strike short_row - SPREAD_WIDTH) long_row = true ->
  exists cands',
    bps_pair symbol p candidates short_row long_row = Ok cands' /\
    grows_by (fun c => bps_inv symbol p c /\
                       Bps.short_strike c = strike short_row /\
                       Bps.long_strike c = strike long_row)
             candidates cands'.
Proof.
  intros Hp Hw Hd Hl. unfold bps_pair.
  destruct (rejects short_row long_row) eqn:Hrej.
  - eexists. split; [reflexivity|]. now left.
  - destruct (rejects_false_width _ _ Hrej) as [Hnc Haw].
    destruct (rejects_false _ _ Hrej) as [Hmr Hcr].
    rewrite (py_div_nonzero _ (actual_width_of short_row long_row)).
    2:{ intro E. rewrite E in Haw. exact (Qlt_irrefl _ Haw). }
    simpl. destruct (MIN_RETURN_ON_RISK <=? _) eqn:Hror.
    + rewrite (py_div_nonzero _ p Hp). simpl.
      rewrite (py_div_nonzero _ _ (dte_nonzero _ Hd)). simpl.
      eexists. split; [reflexivity|]. right. eexists. split; [reflexivity|].
      apply Qleb_le in Hror. apply long_window_spec in Hl.
      unfold bps_inv; simpl.
      repeat split; try assumption; try apply Hw; try apply Hd.
      * unfold actual_width_of in Haw. qlra.
      * apply Qabs_Qle_condition. unfold SPREAD_WIDTH in *.
        destruct Hl as [Hl1 Hl2]. split; qlra.
    + eexists. split; [reflexivity|]. now left.
Qed.

Lemma bps_body_run symbol p expiry_chain candidates short_row :
  ~ p == 0 ->
  in_dte_window (dte short_row) ->
  exists cands',
    bps_body symbol p (fst (strike_window p)) (snd (strike_window p))
             expiry_chain candidates short_row = Ok cands' /\
    grows_by (bps_inv symbol p) candidates cands'.
Proof.
  intros Hp Hd. unfold bps_body.
  destruct ((strike short_row <? fst (strike_window p)) ||
            (snd (strike_window p) <? strike short_row)) eqn:Hout.
  { eexists. split; [reflexivity|]. now left. }
  apply orb_false_iff in Hout. destruct Hout as [H1 H2].
  apply Qltb_ge in H1, H2.
  destruct (filter (long_window (strike short_row - SPREAD_WIDTH))
                   expiry_chain) as [|long_row others] eqn:Hlong.
  { eexists. split; [reflexivity|]. now left. }
  assert (Hl : long_window (strike short_row - SPREAD_WIDTH) long_row = true).
  { assert (Hin : In long_row (long_row :: others)) by now left.
    rewrite <- Hlong in Hin. apply filter_In in Hin. apply Hin. }
  destruct (bps_pair_run symbol p candidates short_row long_row Hp
              (conj H1 H2) Hd Hl) as [cands' [E G]].
  exists cands'. split; [exact E|].
  destruct G as [->|[c [-> [Hc _]]]]; [now left|].
  right. exists c. split; [reflexivity|exact Hc].
Qed.

Lemma expiry_group_In chain e r : In r (expiry_group chain e) -> In r chain.
Proof.
  unfold expiry_group. intro H. apply sort_desc_In in H.
  apply filter_In in H. apply H.
Qed.

Lemma bps_expiry_run symbol p chain candidates e :
  ~ p == 0 ->
  rows_in_dte_window chain ->
  Forall (bps_inv symbol p) candidates ->
  exists cands',
    bps_expiry symbol p (fst (strike_window p)) (snd (strike_window p))
               chain candidates e = Ok cands' /\
    Forall (bps_inv symbol p) cands'.
Proof.
  intros Hp Hchain Hc. unfold bps_expiry.
  apply for_each_invariant with (R := fun r => in_dte_window (dte r)).
  - intros acc x Hacc Hx.
    destruct (bps_body_run symbol p (expiry_group chain e) acc x Hp Hx)
      as [acc' [E G]].
    exists acc'. split; [exact E|]. eapply grows_by_Forall; eassumption.
  - exact Hc.
  - apply Forall_forall. intros r Hr. apply expiry_group_In in Hr.
    unfold rows_in_dte_window in Hchain.
    rewrite Forall_forall in Hchain. now apply Hchain.
Qed.

Lemma filter_rows_in_dte_window f chain :
  rows_in_dte_window chain -> rows_in_dte_window (filter f chain).
Proof.
  unfold rows_in_dte_window. rewrite !Forall_forall.
  intros H r Hr. apply filter_In in Hr. now apply H.
Qed.

(** ** The screeners never raise, and what they emit *)

Section ScreenerFacts.

Variable env : Env.

Lemma screen_csp_run (symbol : string) (w : World) :
  exists cs w',
    screen_csp env symbol w = (Ok cs, w') /\
    one_price_fetch symbol w w' /\
    Forall (csp_emitted env symbol w) cs.
Proof.
  unfold screen_csp. unfold bind at 1.
  destruct (get_current_price_run env symbol w) as [op E]. rewrite E.
  destruct op as [p|].
  2:{ exists [], (EvHistory symbol :: w). repeat split; trivial. }
  destruct (Qeq_bool p 0) eqn:Hp0.
  { exists [], (EvHistory symbol :: w). repeat split; trivial. }
  assert (Hp : ~ p == 0) by (apply Qeq_bool_neq; exact Hp0).
  unfold bind.
  destruct (get_options_chain_run env symbol (EvHistory symbol :: w))
    as [r [w' [E2 [Hpf Hr]]]]. rewrite E2.
  assert (Hone : one_price_fetch symbol w w')
    by (intro s; rewrite Hpf; reflexivity).
  destruct r as [chain|].
  2:{ exists [], w'. repeat split; trivial. }
  destruct (length chain =? 0)%nat.
  { exists [], w'. repeat split; trivial. }
  specialize (Hr _ eq_refl). unfold lift.
  destruct (for_each_invariant (csp_body symbol p)
              (Forall (fun c => csp_inv symbol p c))
              (fun r => csp_filter (fst (strike_window p))
                                   (snd (strike_window p)) r = true /\
                        in_dte_window (dte r)))
    with (xs := filter (csp_filter (fst (strike_window p))
                                   (snd (strike_window p))) chain)
         (acc := @nil Csp.candidate)
    as [cs [Ecs Hcs]].
  - intros acc x Hacc [Hf Hd].
    destruct (csp_body_run symbol p acc x Hp Hf Hd) as [acc' [Eb G]].
    exists acc'. split; [exact Eb|]. eapply grows_by_Forall; eassumption.
  - constructor.
  - apply Forall_forall. intros r Hin. apply filter_In in Hin.
    destruct Hin as [Hin Hf]. split; [exact Hf|].
    unfold rows_in_dte_window in Hr. rewrite Forall_forall in Hr.
    now apply Hr.
  - exists cs, w'. split; [|split].
    + simpl. simpl in Ecs. rewrite Ecs. reflexivity.
    + exact Hone.
    + eapply Forall_impl; [|exact Hcs]. intros c Hc.
      assert (Hcp : Csp.current_price c = p) by apply Hc.
      unfold csp_emitted. rewrite E, Hcp. split; [reflexivity|exact Hc].
Qed.

Lemma screen_bull_put_spread_run (symbol : string) (w : World) :
  exists bs w',
    screen_bull_put_spread env symbol w = (Ok bs, w') /\
    one_price_fetch symbol w w' /\
    Forall (bps_emitted env symbol w) bs.
Proof.
  unfold screen_bull_put_spread. unfold bind at 1.
  destruct (get_current_price_run env symbol w) as [op E]. rewrite E.
  destruct op as [p|].
  2:{ exists [], (EvHistory symbol :: w). repeat split; trivial. }
  destruct (Qeq_bool p 0) eqn:Hp0.
  { exists [], (EvHistory symbol :: w). repeat split; trivial. }
  assert (Hp : ~ p == 0) by (apply Qeq_bool_neq; exact Hp0).
  unfold bind.
  destruct (get_options_chain_run env symbol (EvHistory symbol :: w))
    as [r [w' [E2 [Hpf Hr]]]]. rewrite E2.
  assert (Hone : one_price_fetch symbol w w')
    by (intro s; rewrite Hpf; reflexivity).
  destruct r as [chain|].
  2:{ exists [], w'. repeat split; trivial. }
  destruct (length chain =? 0)%nat.
  { exists [], w'. repeat split; trivial. }
  specialize (Hr _ eq_refl). unfold lift.
  pose (chain' := filter (bps_filter (fst (strike_window p))
                                     (snd (strike_window p))) chain).
  destruct (for_each_invariant
              (bps_expiry symbol p (fst (strike_window p))
                          (snd (strike_window p)) chain')
              (Forall (fun c => bps_inv symbol p c))
              (fun _ => True))
    with (xs := unique (map expiry chain'))
         (acc := @nil Bps.candidate)
    as [bs [Ebs Hbs]].
  - intros acc e Hacc _. apply bps_expiry_run; trivial.
    now apply filter_rows_in_dte_window.
  - constructor.
  - apply Forall_forall. trivial.
  - exists bs, w'. split; [|split].
    + subst chain'. simpl. simpl in Ebs. rewrite Ebs. reflexivity.
    + exact Hone.
    + eapply Forall_impl; [|exact Hbs]. intros c Hc.
      assert (Hcp : Bps.current_price c = p) by apply Hc.
      unfold bps_emitted. rewrite E, Hcp. split; [reflexivity|exact Hc].
Qed.

End ScreenerFacts.

(** ** The orchestrator *)

Lemma merge_no_results_r r : merge r no_results = r.
Proof. destruct r; unfold merge; simpl; now rewrite !app_nil_r. Qed.

Lemma merge_assoc r1 r2 r3 : merge (merge r1 r2) r3 = merge r1 (merge r2 r3).
Proof. unfold merge; simpl; now rewrite !app_assoc. Qed.

Section OrchestratorFacts.

Variable csp_screener : string -> M (list Csp.candidate).
Variable bps_screener : string -> M (list Bps.candidate).

#[local] Abbreviation screen_symbol' :=
  (screen_symbol csp_screener bps_screener).
#[local] Abbreviation scan' := (scan csp_screener bps_screener).

(** What one symbol adds does not depend on what was collected before. *)
Lemma screen_symbol_acc res symbol w :
  screen_symbol' res symbol w =
  (merge res (fst (screen_symbol' no_results symbol w)),
   snd (screen_symbol' no_results symbol w)).
Proof.
  unfold screen_symbol.
  destruct (csp_screener symbol w) as [[cs|e] w1]; simpl.
  - destruct (bps_screener symbol w1) as [[bs|e] w2]; simpl;
      unfold merge; simpl; now rewrite ?app_nil_r.
  - now rewrite merge_no_results_r.
Qed.

Lemma scan_acc tickers : forall res w,
  scan' tickers res w =
  (merge res (fst (scan' tickers no_results w)),
   snd (scan' tickers no_results w)).
Proof.
  induction tickers as [|s rest IH]; intros res w; simpl.
  - now rewrite merge_no_results_r.
  - rewrite (screen_symbol_acc res s w).
    destruct (screen_symbol' no_results s w) as [r1 w1]; simpl.
    rewrite (IH (merge res r1) w1), (IH r1 w1). simpl.
    now rewrite merge_assoc.
Qed.

Lemma scan_app pre post : forall res w,
  scan' (pre ++ post) res w =
  scan' post (fst (scan' pre res w)) (snd (scan' pre res w)).
Proof.
  induction pre as [|s pre IH]; intros res w; simpl; [reflexivity|].
  destruct (screen_symbol' res s w) as [r1 w1]. apply IH.
Qed.

(** A property of everything the CSP screener returns holds of the whole
    CSP list, before and after ranking. *)
Lemma scan_CSP_Forall (P : Csp.candidate -> Prop) :
  (forall s w cs w', csp_screener s w = (Ok cs, w') -> Forall P cs) ->
  forall tickers res w,
    Forall P (CSP res) -> Forall P (CSP (fst (scan' tickers res w))).
Proof.
  intros H tickers. induction tickers as [|s rest IH]; intros res w Hres;
    simpl; [exact Hres|].
  destruct (screen_symbol' res s w) as [r1 w1] eqn:E. apply IH.
  unfold screen_symbol in E.
  destruct (csp_screener s w) as [[cs|e] w2] eqn:Ec.
  - assert (Hcs : Forall P (CSP res ++ cs))
      by (apply Forall_app; split; [exact Hres | eapply H; exact Ec]).
    destruct (bps_screener s w2) as [[bs|e] w3];
      injection E as <- <-; exact Hcs.
  - injection E as <- <-. exact Hres.
Qed.

Lemma scan_BPS_Forall (P : Bps.candidate -> Prop) :
  (forall s w bs w', bps_screener s w = (Ok bs, w') -> Forall P bs) ->
  forall tickers res w,
    Forall P (BPS res) -> Forall P (BPS (fst (scan' tickers res w))).
Proof.
  intros H tickers. induction tickers as [|s rest IH]; intros res w Hres;
    simpl; [exact Hres|].
  destruct (screen_symbol' res s w) as [r1 w1] eqn:E. apply IH.
  unfold screen_symbol in E.
  destruct (csp_screener s w) as [[cs|e] w2] eqn:Ec.
  - destruct (bps_screener s w2) as [[bs|e] w3] eqn:Eb;
      injection E as <- <-; simpl; [|exact Hres].
    apply Forall_app; split; [exact Hres | eapply H; exact Eb].
  - injection E as <- <-. exact Hres.
Qed.

Lemma screen_all_stocks_with_fst tickers w :
  fst (screen_all_stocks_with csp_screener bps_screener tickers w) =
  rank (fst (scan' tickers no_results w)).
Proof.
  unfold screen_all_stocks_with. fold no_results.
  now destruct (scan' tickers no_results w).
Qed.

Lemma screen_all_stocks_with_snd tickers w :
  snd (screen_all_stocks_with csp_screener bps_screener tickers w) =
  snd (scan' tickers no_results w).
Proof.
  unfold screen_all_stocks_with. fold no_results.
  now destruct (scan' tickers no_results w).
Qed.

End OrchestratorFacts.

(** ** The whole scan, on the screeners of the program *)

Section ScanFacts.

Variable env : Env.

Lemma screen_all_stocks_rank tickers w :
  fst (screen_all_stocks env tickers w) = rank (arrival env tickers w).
Proof. apply screen_all_stocks_with_fst. Qed.

Lemma arrival_CSP_emitted tickers w :
  Forall (fun c => exists s w0, csp_emitted env s w0 c)
         (CSP (arrival env tickers w)).
Proof.
  apply scan_CSP_Forall; [|constructor].
  intros s w0 cs w' E.
  destruct (screen_csp_run env s w0) as [cs' [w'' [E' [_ H]]]].
  rewrite E in E'. injection E' as -> ->.
  eapply Forall_impl; [|exact H]. intros c Hc. eauto.
Qed.

Lemma arrival_BPS_emitted tickers w :
  Forall (fun c => exists s w0, bps_emitted env s w0 c)
         (BPS (arrival env tickers w)).
Proof.
  apply scan_BPS_Forall; [|constructor].
  intros s w0 bs w' E.
  destruct (screen_bull_put_spread_run env s w0) as [bs' [w'' [E' [_ H]]]].
  rewrite E in E'. injection E' as -> ->.
  eapply Forall_impl; [|exact H]. intros c Hc. eauto.
Qed.

Lemma final_CSP_emitted tickers w :
  Forall (fun c => exists s w0, csp_emitted env s w0 c)
         (CSP (fst (screen_all_stocks env tickers w))).
Proof.
  rewrite screen_all_stocks_rank. simpl.
  apply sort_desc_Forall, arrival_CSP_emitted.
Qed.

Lemma final_BPS_emitted tickers w :
  Forall (fun c => exists s w0, bps_emitted env s w0 c)
         (BPS (fst (screen_all_stocks env tickers w))).
Proof.
  rewrite screen_all_stocks_rank. simpl.
  apply sort_desc_Forall, arrival_BPS_emitted.
Qed.

End ScanFacts.

(** * The claims *)

(** ** The scenarios of the specification *)

Example scenario_A_rejected : fst (screen_csp scenario_A "X" []) = Ok [].
Proof. vm_compute. reflexivity. Qed.

Example scenario_B_accepted :
  exists c,
    fst (screen_csp scenario_B "X" []) = Ok [c] /\
    Csp.premium c == 18.4 /\
    Csp.return_on_risk c == 20 /\
    Csp.annualized_return c == 1460.
Proof.
  eexists. split; [vm_compute; reflexivity|].
  repeat split; vm_compute; reflexivity.
Qed.

Example scenario_D_no_match :
  fst (screen_bull_put_spread scenario_D "X" []) = Ok [].
Proof. vm_compute. reflexivity. Qed.

(** ** Strike window, spread validity, threshold, days to expiration *)

(** C1. Every candidate emitted by [screen_csp] has its [strike], and every
    candidate emitted by [screen_bull_put_spread] its [short_strike], within
    [spot*(1-MAX_OTM_PERCENT/100), spot*(1-MIN_OTM_PERCENT/100)], where
    [spot] is the price that screener call fetched for the symbol and
    recorded in the candidate; the same holds of every candidate of the
    final result of [screen_all_stocks]. *)
Theorem C1_strike_window (env : Env) :
  (forall symbol w, exists cs w',
      screen_csp env symbol w = (Ok cs, w') /\
      Forall (fun c =>
                fst (get_current_price env symbol w)
                  = Ok (Some (Csp.current_price c)) /\
                in_strike_window (Csp.current_price c) (Csp.strike c)) cs) /\
  (forall symbol w, exists bs w',
      screen_bull_put_spread env symbol w = (Ok bs, w') /\
      Forall (fun c =>
                fst (get_current_price env symbol w)
                  = Ok (Some (Bps.current_price c)) /\
                in_strike_window (Bps.current_price c) (Bps.short_strike c))
             bs) /\
  (forall tickers w,
      Forall (fun c => in_strike_window (Csp.current_price c) (Csp.strike c))
             (CSP (fst (screen_all_stocks env tickers w))) /\
      Forall (fun c =>
                in_strike_window (Bps.current_price c) (Bps.short_strike c))
             (BPS (fst (screen_all_stocks env tickers w)))).
Proof.
  split; [|split].
  - intros symbol w.
    destruct (screen_csp_run env symbol w) as [cs [w' [E [_ H]]]].
    exists cs, w'. split; [exact E|].
    eapply Forall_impl; [|exact H]. intros c [Hp Hc]. split; [exact Hp|].
    apply Hc.
  - intros symbol w.
    destruct (screen_bull_put_spread_run env symbol w) as [bs [w' [E [_ H]]]].
    exists bs, w'. split; [exact E|].
    eapply Forall_impl; [|exact H]. intros c [Hp Hc]. split; [exact Hp|].
    apply Hc.
  - intros tickers w. split.
    + eapply Forall_impl; [|apply final_CSP_emitted].
      intros c [s [w0 [_ Hc]]]. apply Hc.
    + eapply Forall_impl; [|apply final_BPS_emitted].
      intros c [s [w0 [_ Hc]]]. apply Hc.
Qed.

(** C2. Every emitted BPS candidate has [long_strike < short_strike], a
    positive net credit, a positive [max_risk], and a width that deviates
    from [SPREAD_WIDTH] by at most 0.50; this holds of what
    [screen_bull_put_spread] returns and of the final BPS list. *)
Theorem C2_spread_validity (env : Env) :
  (forall symbol w, exists bs w',
      screen_bull_put_spread env symbol w = (Ok bs, w') /\
      Forall spread_valid bs) /\
  (forall tickers w,
      Forall spread_valid (BPS (fst (screen_all_stocks env tickers w)))).
Proof.
  assert (Himp : forall s w c, bps_emitted env s w c -> spread_valid c).
  { intros s w c [_ Hc]. unfold spread_valid. unfold bps_inv in Hc. tauto. }
  split.
  - intros symbol w.
    destruct (screen_bull_put_spread_run env symbol w) as [bs [w' [E [_ H]]]].
    exists bs, w'. split; [exact E|].
    eapply Forall_impl; [|exact H]. intros c. apply Himp.
  - intros tickers w. eapply Forall_impl; [|apply final_BPS_emitted].
    intros c [s [w0 Hc]]. eapply Himp, Hc.
Qed.

(** C5. Every candidate that either screener returns, and every candidate
    of the final result, has [return_on_risk >= MIN_RETURN_ON_RISK]; a leg
    ([csp_body]) or a pair of legs ([bps_pair]) whose return on risk is below
    the threshold leaves the candidate list as it was. *)
Theorem C5_return_threshold (env : Env) :
  (forall symbol w, exists cs w',
      screen_csp env symbol w = (Ok cs, w') /\
      Forall (fun c => MIN_RETURN_ON_RISK <= Csp.return_on_risk c) cs) /\
  (forall symbol w, exists bs w',
      screen_bull_put_spread env symbol w = (Ok bs, w') /\
      Forall (fun c => MIN_RETURN_ON_RISK <= Bps.return_on_risk c) bs) /\
  (forall tickers w,
      Forall (fun c => MIN_RETURN_ON_RISK <= Csp.return_on_risk c)
             (CSP (fst (screen_all_stocks env tickers w))) /\
      Forall (fun c => MIN_RETURN_ON_RISK <= Bps.return_on_risk c)
             (BPS (fst (screen_all_stocks env tickers w)))) /\
  (forall symbol p candidates row cands',
      csp_body symbol p candidates row = Ok cands' ->
      (bid row + ask row) / 2 / strike row * 100 < MIN_RETURN_ON_RISK ->
      cands' = candidates) /\
  (forall symbol p candidates short_row long_row cands',
      bps_pair symbol p candidates short_row long_row = Ok cands' ->
      net_credit_of short_row long_row / actual_width_of short_row long_row
        * 100 < MIN_RETURN_ON_RISK ->
      cands' = candidates).
Proof.
  split; [|split; [|split; [|split]]].
  - intros symbol w.
    destruct (screen_csp_run env symbol w) as [cs [w' [E [_ H]]]].
    exists cs, w'. split; [exact E|].
    eapply Forall_impl; [|exact H]. intros c [_ Hc]. apply Hc.
  - intros symbol w.
    destruct (screen_bull_put_spread_run env symbol w) as [bs [w' [E [_ H]]]].
    exists bs, w'. split; [exact E|].
    eapply Forall_impl; [|exact H]. intros c [_ Hc]. apply Hc.
  - intros tickers w. split.
    + eapply Forall_impl; [|apply final_CSP_emitted].
      intros c [s [w0 [_ Hc]]]. apply Hc.
    + eapply Forall_impl; [|apply final_BPS_emitted].
      intros c [s [w0 [_ Hc]]]. apply Hc.
  - intros symbol p candidates row cands' E Hlow. unfold csp_body in E.
    unfold py_div at 1 2 in E.
    destruct (Qeq_bool p 0); [discriminate|].
    destruct (Qeq_bool (strike row) 0); [discriminate|].
    cbn [rbind] in E. apply Qleb_gt in Hlow. rewrite Hlow in E.
    now injection E.
  - intros symbol p candidates short_row long_row cands' E Hlow.
    unfold bps_pair in E.
    destruct (rejects short_row long_row); [now injection E|].
    unfold py_div at 1 in E.
    destruct (Qeq_bool (actual_width_of short_row long_row) 0);
      [discriminate|].
    cbn [rbind] in E. apply Qleb_gt in Hlow. rewrite Hlow in E.
    now injection E.
Qed.

(** Scenario A: the leg at strike 92 with premium 1.1 returns 1.196 percent
    on risk and is not emitted; a spread of width 5 with a net credit of 0.5
    returns 10 percent and is not emitted. *)
Lemma C5_return_threshold_witness :
  let row := mk_put_row 92 1.0 1.2 100 100 0 "2026-01-16" 5 in
  let short_row := mk_put_row 95 2.0 2.2 100 100 0 "2026-01-16" 5 in
  let long_row := mk_put_row 90 1.5 1.7 100 100 0 "2026-01-16" 5 in
  (csp_body "X" 100 [] row = Ok [] /\
   (bid row + ask row) / 2 / strike row * 100 < MIN_RETURN_ON_RISK /\
   @nil Csp.candidate = []) /\
  (bps_pair "X" 100 [] short_row long_row = Ok [] /\
   net_credit_of short_row long_row / actual_width_of short_row long_row
     * 100 < MIN_RETURN_ON_RISK /\
   @nil Bps.candidate = []).
Proof.
  intros row short_row long_row.
  assert (E : csp_body "X" 100 [] row = Ok []) by (vm_compute; reflexivity).
  assert (L : (bid row + ask row) / 2 / strike row * 100 < MIN_RETURN_ON_RISK)
    by (vm_compute; reflexivity).
  assert (E' : bps_pair "X" 100 [] short_row long_row = Ok [])
    by (vm_compute; reflexivity).
  assert (L' : net_credit_of short_row long_row
               / actual_width_of short_row long_row * 100
               < MIN_RETURN_ON_RISK)
    by (vm_compute; reflexivity).
  pose proof (C5_return_threshold scenario_A) as [_ [_ [_ [Hleg Hpair]]]].
  split.
  - split; [exact E|]. split; [exact L|].
    exact (Hleg "X"%string 100 [] row [] E L).
  - split; [exact E'|]. split; [exact L'|].
    exact (Hpair "X"%string 100 [] short_row long_row [] E' L').
Defined.

Lemma in_dte_window_safe (d : Z) : in_dte_window d -> dte_safe d.
Proof.
  intro H. split; [exact H|]. split.
  - unfold in_dte_window, MIN_DTE in H. lia.
  - apply py_div_nonzero, dte_nonzero, H.
Qed.

(** C8. Every row of a chain returned by [get_options_chain] has its [dte]
    in [MIN_DTE, MAX_DTE]; both screeners return without raising, so no
    [365 / dte] is evaluated on a zero divisor; every candidate they return,
    and every candidate of the final result, has [MIN_DTE <= dte <= MAX_DTE]
    and [dte > 0]. *)
Theorem C8_dte_window (env : Env) :
  (forall symbol w, exists r w',
      get_options_chain env symbol w = (Ok r, w') /\
      match r with
      | Some chain => Forall (fun row => dte_safe (dte row)) chain
      | None => True
      end) /\
  (forall symbol w, exists cs w',
      screen_csp env symbol w = (Ok cs, w') /\
      Forall (fun c => dte_safe (Csp.dte c)) cs) /\
  (forall symbol w, exists bs w',
      screen_bull_put_spread env symbol w = (Ok bs, w') /\
      Forall (fun c => dte_safe (Bps.dte c)) bs) /\
  (forall tickers w,
      Forall (fun c => dte_safe (Csp.dte c))
             (CSP (fst (screen_all_stocks env tickers w))) /\
      Forall (fun c => dte_safe (Bps.dte c))
             (BPS (fst (screen_all_stocks env tickers w)))).
Proof.
  split; [|split; [|split]].
  - intros symbol w.
    destruct (get_options_chain_run env symbol w) as [r [w' [E [_ H]]]].
    exists r, w'. split; [exact E|]. destruct r as [chain|]; [|exact I].
    eapply Forall_impl; [|exact (H _ eq_refl)].
    intros row. apply in_dte_window_safe.
  - intros symbol w.
    destruct (screen_csp_run env symbol w) as [cs [w' [E [_ H]]]].
    exists cs, w'. split; [exact E|].
    eapply Forall_impl; [|exact H]. intros c [_ Hc].
    apply in_dte_window_safe, Hc.
  - intros symbol w.
    destruct (screen_bull_put_spread_run env symbol w) as [bs [w' [E [_ H]]]].
    exists bs, w'. split; [exact E|].
    eapply Forall_impl; [|exact H]. intros c [_ Hc].
    apply in_dte_window_safe, Hc.
  - intros tickers w. split.
    + eapply Forall_impl; [|apply final_CSP_emitted].
      intros c [s [w0 [_ Hc]]]. apply in_dte_window_safe, Hc.
    + eapply Forall_impl; [|apply final_BPS_emitted].
      intros c [s [w0 [_ Hc]]]. apply in_dte_window_safe, Hc.
Qed.

(** ** The spread matcher *)

Lemma filter_head_find {A} (f : A -> bool) (l : list A) :
  find f l = hd_error (filter f l).
Proof.
  induction l as [|x l IH]; simpl; [reflexivity|].
  destruct (f x); [reflexivity | exact IH].
Qed.

(** The body of the short-leg loop, read off the first row of the expiry
    group that the long-leg window admits. *)
Lemma bps_body_find symbol p min_strike max_strike expiry_chain candidates
  short_row :
  bps_body symbol p min_strike max_strike expiry_chain candidates short_row =
  if (strike short_row <? min_strike) || (max_strike <? strike short_row)
  then Ok candidates
  else match find (long_window (strike short_row - SPREAD_WIDTH))
                  expiry_chain with
       | None => Ok candidates
       | Some long_row =>
           bps_pair symbol p candidates short_row long_row
       end.
Proof.
  unfold bps_body. rewrite filter_head_find.
  destruct (filter _ expiry_chain); reflexivity.
Qed.

Lemma bps_pair_grows symbol p candidates short_row long_row cands' :
  bps_pair symbol p candidates short_row long_row = Ok cands' ->
  cands' = candidates \/
  exists c, cands' = candidates ++ [c] /\
            Bps.short_strike c = strike short_row /\
            Bps.long_strike c = strike long_row.
Proof.
  unfold bps_pair. intro E.
  destruct (rejects short_row long_row); [left; now injection E|].
  destruct (py_div _ (actual_width_of short_row long_row)) as [ror|e];
    [|discriminate].
  cbn [rbind] in E. destruct (MIN_RETURN_ON_RISK <=? _).
  - destruct (py_div _ p) as [otm|e]; [|discriminate]. cbn [rbind] in E.
    destruct (py_div 365 _) as [per_year|e]; [|discriminate].
    cbn [rbind] in E. injection E as <-. right. eexists.
    split; [reflexivity|]. split; reflexivity.
  - left. now injection E.
Qed.

(** C3. For a short leg handed to the body of the matcher's loop
    ([bps_body]) the candidate list stays as it was or grows by exactly one
    candidate, whose long leg is the first row, in the order of the expiry
    group, with a strike in
    [short_strike - SPREAD_WIDTH - 0.5, short_strike - SPREAD_WIDTH + 0.5];
    when the group has no such row the body returns the list unchanged
    without raising.  The loop over an expiry runs this body on the rows of
    the filtered chain with that expiry, ordered by decreasing strike, and
    searches the long leg in that same ordered group.  The chosen row need
    not be the one closest to the target, as the group [two_long_legs]
    shows. *)
Theorem C3_first_match :
  (forall symbol p min_strike max_strike expiry_chain candidates short_row,
      (find (long_window (strike short_row - SPREAD_WIDTH)) expiry_chain
         = None ->
       bps_body symbol p min_strike max_strike expiry_chain candidates
                short_row = Ok candidates) /\
      (forall cands',
          bps_body symbol p min_strike max_strike expiry_chain candidates
                   short_row = Ok cands' ->
          cands' = candidates \/
          exists long_row c,
            find (long_window (strike short_row - SPREAD_WIDTH)) expiry_chain
              = Some long_row /\
            cands' = candidates ++ [c] /\
            Bps.short_strike c = strike short_row /\
            Bps.long_strike c = strike long_row)) /\
  (forall symbol p min_strike max_strike chain candidates e,
      bps_expiry symbol p min_strike max_strike chain candidates e =
      for_each (bps_body symbol p min_strike max_strike
                         (expiry_group chain e))
               candidates (expiry_group chain e) /\
      StronglySorted (key_ge strike) (expiry_group chain e)) /\
  (exists short_row c other,
      bps_body "X" 100 (fst (strike_window 100)) (snd (strike_window 100))
               two_long_legs [] short_row = Ok [c] /\
      In other two_long_legs /\
      long_window (strike short_row - SPREAD_WIDTH) other = true /\
      Qabs (strike other - (strike short_row - SPREAD_WIDTH)) <
      Qabs (Bps.long_strike c - (strike short_row - SPREAD_WIDTH))).
Proof.
  split; [|split].
  - intros symbol p min_strike max_strike expiry_chain candidates short_row.
    rewrite bps_body_find. split.
    + intros ->. now destruct (_ || _).
    + intros cands' E. destruct (_ || _); [left; now injection E|].
      destruct (find _ expiry_chain) as [long_row|];
        [|left; now injection E].
      destruct (bps_pair_grows _ _ _ _ _ _ E) as [->|[c [-> [Hs Hl]]]];
        [now left|].
      right. exists long_row, c. repeat split; assumption.
  - intros symbol p min_strike max_strike chain candidates e.
    split; [reflexivity|]. apply sort_desc_sorted.
  - exists (mk_put_row 95 2.0 2.2 100 100 0 "2026-01-16" 5).
    eexists. exists (mk_put_row 90 0.5 0.7 100 100 0 "2026-01-16" 5).
    split; [vm_compute; reflexivity|].
    split; [simpl; tauto|].
    split; vm_compute; reflexivity.
Qed.

(** Scenario D (no leg within 0.5 of 90: nothing emitted, nothing raised)
    and scenario C (the leg at 90.2 is the first match). *)
Lemma C3_first_match_witness :
  let short_row := mk_put_row 95 2.0 2.2 100 100 0 "2026-01-16" 5 in
  let group_D := [short_row; mk_put_row 88 0.5 0.7 100 100 0 "2026-01-16" 5] in
  let group_C :=
    [short_row; mk_put_row 90.2 0.5 0.7 100 100 0 "2026-01-16" 5] in
  let out_C :=
    match bps_body "X" 100 90 95 group_C [] short_row with
    | Ok cands => cands
    | Raised _ => []
    end in
  bps_body "X" 100 90 95 group_D [] short_row = Ok [] /\
  (out_C = [] \/
   exists long_row c,
     find (long_window (strike short_row - SPREAD_WIDTH)) group_C
       = Some long_row /\
     out_C = [] ++ [c] /\
     Bps.short_strike c = strike short_row /\
     Bps.long_strike c = strike long_row).
Proof.
  intros short_row group_D group_C out_C. split.
  - apply (proj1 (proj1 C3_first_match "X"%string 100 90 95 group_D []
                        short_row)).
    vm_compute. reflexivity.
  - apply (proj2 (proj1 C3_first_match "X"%string 100 90 95 group_C []
                        short_row)).
    vm_compute. reflexivity.
Defined.

(** C10. In [bps_pair] the division [net_credit / actual_width] sits behind
    the guard of line 348: a pair with [actual_width <= net_credit], and any
    pair with [actual_width = 0], is rejected and the candidate list
    returned unchanged; past the guard [actual_width > 0] and the division
    returns the quotient without raising. *)
Theorem C10_width_division symbol p candidates short_row long_row :
  (actual_width_of short_row long_row <= net_credit_of short_row long_row ->
   rejects short_row long_row = true) /\
  (actual_width_of short_row long_row == 0 ->
   rejects short_row long_row = true) /\
  (rejects short_row long_row = true ->
   bps_pair symbol p candidates short_row long_row = Ok candidates) /\
  (rejects short_row long_row = false ->
   0 < actual_width_of short_row long_row /\
   py_div (net_credit_of short_row long_row)
          (actual_width_of short_row long_row)
   = Ok (net_credit_of short_row long_row /
         actual_width_of short_row long_row)).
Proof.
  split; [|split; [|split]].
  - intro H. unfold rejects. apply orb_true_iff. left.
    apply Qleb_le. unfold max_risk_of. qlra.
  - intro H. unfold rejects. apply orb_true_iff.
    destruct (Qlt_le_dec 0 (net_credit_of short_row long_row)) as [Hpos|Hneg].
    + left. apply Qleb_le. unfold max_risk_of. qlra.
    + right. apply Qleb_le. exact Hneg.
  - intro H. unfold bps_pair. now rewrite H.
  - intro H. destruct (rejects_false_width _ _ H) as [_ Haw].
    split; [exact Haw|]. apply py_div_nonzero.
    intro E. rewrite E in Haw. exact (Qlt_irrefl _ Haw).
Qed.

(** A row paired with itself (width 0), and the pair of scenario C. *)
Lemma C10_width_division_witness :
  let short_row := mk_put_row 95 2.0 2.2 100 100 0 "2026-01-16" 5 in
  let long_row := mk_put_row 90.2 0.5 0.7 100 100 0 "2026-01-16" 5 in
  rejects short_row short_row = true /\
  bps_pair "X" 100 [] short_row short_row = Ok [] /\
  0 < actual_width_of short_row long_row /\
  py_div (net_credit_of short_row long_row)
         (actual_width_of short_row long_row)
  = Ok (net_credit_of short_row long_row / actual_width_of short_row long_row).
Proof.
  intros short_row long_row.
  assert (Hle : actual_width_of short_row short_row
                <= net_credit_of short_row short_row)
    by (vm_compute; discriminate).
  assert (Hz : actual_width_of short_row short_row == 0)
    by (vm_compute; reflexivity).
  pose proof (C10_width_division "X" 100 [] short_row short_row)
    as [H1 [H2 [H3 _]]].
  pose proof (C10_width_division "X" 100 [] short_row long_row)
    as [_ [_ [_ H4]]].
  split; [exact (H1 Hle)|]. split; [exact (H3 (H2 Hz))|].
  apply H4. vm_compute. reflexivity.
Defined.

(** Scenario C in exact arithmetic: with the spot at 100, a short leg at 95
    (bid 2.0, ask 2.2) and a long leg at 90.2 (bid 0.5, ask 0.7), the
    screener over the rationals returns exactly one candidate, with net
    credit 1.5, spread width 4.8, max risk 330 and return on risk 31.25.
    What the code computes, in binary64, is stated with the properties of
    [Binary64]. *)
Lemma scenario_C_exact_arithmetic :
  exists c w',
    screen_bull_put_spread scenario_C "X" [] = (Ok [c], w') /\
    Bps.current_price c == 100 /\
    Bps.short_strike c == 95 /\
    Bps.long_strike c == 90.2 /\
    Bps.short_premium c == 2.1 /\
    Bps.long_premium c == 0.6 /\
    Bps.credit c == 1.5 /\
    Bps.spread_width c == 4.8 /\
    Bps.max_risk c == 330 /\
    Bps.return_on_risk c == 31.25 /\
    MIN_RETURN_ON_RISK <= Bps.return_on_risk c.
Proof.
  eexists. eexists. split; [vm_compute; reflexivity|].
  repeat split; vm_compute; reflexivity || discriminate.
Qed.

(** ** Ranking *)

Lemma arrival_cons (env : Env) symbol rest w :
  exists cs w1 bs w2,
    screen_csp env symbol w = (Ok cs, w1) /\
    screen_bull_put_spread env symbol w1 = (Ok bs, w2) /\
    arrival env (symbol :: rest) w =
    merge (mk_results cs bs) (arrival env rest w2).
Proof.
  destruct (screen_csp_run env symbol w) as [cs [w1 [E1 _]]].
  destruct (screen_bull_put_spread_run env symbol w1) as [bs [w2 [E2 _]]].
  exists cs, w1, bs, w2. split; [exact E1|]. split; [exact E2|].
  unfold arrival. simpl scan. unfold screen_symbol. rewrite E1, E2.
  rewrite scan_acc. reflexivity.
Qed.

(** C6. The CSP list and the BPS list of the final result are each the
    arrival sequence reordered so that [annualized_return] never increases,
    and the sort is stable: for every value [k] the candidates whose
    annualized return equals [k] appear in the result in the order in which
    they arrived.  The arrival sequence is what the first ticker's screener
    calls returned, in emission order, followed by the arrival sequence of
    the remaining tickers. *)
Theorem C6_stable_ranking (env : Env) (tickers : list string) (w : World) :
  let res := fst (screen_all_stocks env tickers w) in
  (StronglySorted (key_ge Csp.annualized_return) (CSP res) /\
   Permutation (CSP (arrival env tickers w)) (CSP res) /\
   forall k, with_key Csp.annualized_return k (CSP res) =
             with_key Csp.annualized_return k (CSP (arrival env tickers w)))
  /\
  (StronglySorted (key_ge Bps.annualized_return) (BPS res) /\
   Permutation (BPS (arrival env tickers w)) (BPS res) /\
   forall k, with_key Bps.annualized_return k (BPS res) =
             with_key Bps.annualized_return k (BPS (arrival env tickers w)))
  /\
  arrival env [] w = no_results /\
  (forall symbol rest w0, exists cs w1 bs w2,
      screen_csp env symbol w0 = (Ok cs, w1) /\
      screen_bull_put_spread env symbol w1 = (Ok bs, w2) /\
      CSP (arrival env (symbol :: rest) w0) = cs ++ CSP (arrival env rest w2)
      /\
      BPS (arrival env (symbol :: rest) w0) = bs ++ BPS (arrival env rest w2)).
Proof.
  intro res. subst res. rewrite screen_all_stocks_rank. unfold rank.
  cbn [CSP BPS]. split; [|split; [|split]].
  - split; [apply sort_desc_sorted|]. split; [apply sort_desc_perm|].
    intro k. apply sort_desc_stable.
  - split; [apply sort_desc_sorted|]. split; [apply sort_desc_perm|].
    intro k. apply sort_desc_stable.
  - reflexivity.
  - intros symbol rest w0.
    destruct (arrival_cons env symbol rest w0)
      as [cs [w1 [bs [w2 [E1 [E2 E]]]]]].
    exists cs, w1, bs, w2. rewrite E. repeat split; assumption.
Qed.

(** ** Spot-price requests *)

Lemma count_occ_eqb (tickers : list string) (symbol s : string) :
  count_occ string_dec (symbol :: tickers) s =
  ((if String.eqb symbol s then 1 else 0) + count_occ string_dec tickers s)%nat.
Proof.
  simpl. destruct (string_dec symbol s) as [->|Hne].
  - now rewrite String.eqb_refl.
  - apply String.eqb_neq in Hne. now rewrite Hne.
Qed.

Lemma scan_price_fetches (env : Env) (tickers : list string) :
  forall res w s,
    price_fetches s
      (snd (scan (screen_csp env) (screen_bull_put_spread env) tickers res w))
    = (2 * count_occ string_dec tickers s + price_fetches s w)%nat.
Proof.
  induction tickers as [|symbol rest IH]; intros res w s; [reflexivity|].
  rewrite count_occ_eqb. simpl scan. unfold screen_symbol.
  destruct (screen_csp_run env symbol w) as [cs [w1 [E1 [H1 _]]]].
  destruct (screen_bull_put_spread_run env symbol w1) as [bs [w2 [E2 [H2 _]]]].
  rewrite E1, E2, IH, (H2 s), (H1 s). lia.
Qed.

(** C9, refuted as worded: scanning the single ticker X requests its spot
    price twice, and on a moving market the CSP candidate and the BPS
    candidate of one scan record different spot prices. *)
Lemma C9_counterexample :
  price_fetches "X" (snd (screen_all_stocks scenario_C ["X"%string] []))
    = 2%nat /\
  ~ quote_fetched_once scenario_C ["X"%string] /\
  exists c b,
    CSP (fst (screen_all_stocks moving_market ["X"%string] [])) = [c] /\
    BPS (fst (screen_all_stocks moving_market ["X"%string] [])) = [b] /\
    Csp.current_price c == 100 /\
    Bps.current_price b == 101.
Proof.
  split; [vm_compute; reflexivity|]. split.
  - intro H. specialize (H "X"%string (or_introl eq_refl)).
    vm_compute in H. discriminate.
  - eexists. eexists. split; [vm_compute; reflexivity|].
    split; [vm_compute; reflexivity|]. split; vm_compute; reflexivity.
Qed.

(** C9, amended. Each call of [screen_csp] and each call of
    [screen_bull_put_spread] requests the spot price of its symbol exactly
    once, so a scan requests the spot price of a symbol twice for each time
    the symbol is listed. *)
Theorem C9_quote_fetched_per_screener (env : Env) :
  (forall symbol w, exists cs w',
      screen_csp env symbol w = (Ok cs, w') /\
      price_fetches symbol w' = S (price_fetches symbol w)) /\
  (forall symbol w, exists bs w',
      screen_bull_put_spread env symbol w = (Ok bs, w') /\
      price_fetches symbol w' = S (price_fetches symbol w)) /\
  (forall tickers w s,
      price_fetches s (snd (screen_all_stocks env tickers w)) =
      (2 * count_occ string_dec tickers s + price_fetches s w)%nat).
Proof.
  split; [|split].
  - intros symbol w.
    destruct (screen_csp_run env symbol w) as [cs [w' [E [H _]]]].
    exists cs, w'. split; [exact E|].
    rewrite (H symbol), String.eqb_refl. reflexivity.
  - intros symbol w.
    destruct (screen_bull_put_spread_run env symbol w) as [bs [w' [E [H _]]]].
    exists bs, w'. split; [exact E|].
    rewrite (H symbol), String.eqb_refl. reflexivity.
  - intros tickers w s. unfold screen_all_stocks.
    rewrite screen_all_stocks_with_snd. apply scan_price_fetches.
Qed.

(** ** Failure isolation *)

(** C4, refuted as worded: on [flaky_market] the spot-price request made by
    [screen_bull_put_spread] for X fails, and the final result still holds
    the CSP candidate that [screen_csp] had appended for X; on
    [recovering_market] the request made by [screen_csp] fails, and the
    final result holds the BPS candidate of X. *)
Lemma C4_counterexample :
  (fst (get_current_price flaky_market "X"
          (snd (screen_csp flaky_market "X" []))) = Ok None /\
   exists c,
     CSP (fst (screen_all_stocks flaky_market ["X"%string] [])) = [c] /\
     Csp.symbol c = "X"%string) /\
  (fst (get_current_price recovering_market "X" []) = Ok None /\
   exists b,
     BPS (fst (screen_all_stocks recovering_market ["X"%string] [])) = [b] /\
     Bps.symbol b = "X"%string) /\
  ~ failed_symbol_contributes_nothing flaky_market "X" /\
  ~ failed_symbol_contributes_nothing recovering_market "X".
Proof.
  split; [|split; [|split]].
  - split; [vm_compute; reflexivity|].
    eexists. split; vm_compute; reflexivity.
  - split; [vm_compute; reflexivity|].
    eexists. split; vm_compute; reflexivity.
  - intro H.
    assert (E : fst (screen_all_stocks flaky_market ["X"%string] [])
                = no_results)
      by (apply H; right; vm_compute; reflexivity).
    vm_compute in E. discriminate.
  - intro H.
    assert (E : fst (screen_all_stocks recovering_market ["X"%string] [])
                = no_results)
      by (apply H; left; vm_compute; reflexivity).
    vm_compute in E. discriminate.
Qed.

Lemma screener_without_price (env : Env) symbol w :
  fst (get_current_price env symbol w) = Ok None ->
  fst (screen_csp env symbol w) = Ok [] /\
  fst (screen_bull_put_spread env symbol w) = Ok [].
Proof.
  intro H. unfold screen_csp, screen_bull_put_spread, bind.
  destruct (get_current_price env symbol w) as [r w1]. simpl in H. subst r.
  split; reflexivity.
Qed.

Lemma screener_without_chain (env : Env) symbol w :
  let r := fst (get_options_chain env symbol
                  (snd (get_current_price env symbol w))) in
  r = Ok None \/ r = Ok (Some []) ->
  fst (screen_csp env symbol w) = Ok [] /\
  fst (screen_bull_put_spread env symbol w) = Ok [].
Proof.
  intros r H. subst r. unfold screen_csp, screen_bull_put_spread, bind.
  destruct (get_current_price_run env symbol w) as [op E]. rewrite E in *.
  simpl in H. destruct op as [p|]; [|split; reflexivity].
  destruct (Qeq_bool p 0); [split; reflexivity|].
  destruct (get_options_chain env symbol (EvHistory symbol :: w)) as [r w1].
  simpl in H. destruct H as [->| ->]; split; reflexivity.
Qed.

(** C4, amended. The scan returns a result for every universe.  For a
    universe [pre ++ x :: post] and any two screeners: if [screen_csp]
    raises for [x], the result is the ranking of what [pre] and [post]
    contribute, and [x] contributes nothing; if [screen_csp] returns and
    [screen_bull_put_spread] raises for [x], [x] contributes the CSP
    candidates already appended and no BPS candidate; in each case what
    [pre] and [post] contribute is what their own screener calls return.
    A screener call of the program whose price request yields nothing, or
    whose chain request yields nothing or an empty chain, returns no
    candidate; the other screener call of the symbol makes its own
    requests. *)
Theorem C4_failure_isolation :
  (forall (csp_screener : string -> M (list Csp.candidate))
          (bps_screener : string -> M (list Bps.candidate))
          (pre : list string) (x : string) (post : list string) (w : World),
      let before := scan csp_screener bps_screener pre no_results w in
      let after := fun w' =>
        fst (scan csp_screener bps_screener post no_results w') in
      let final :=
        fst (screen_all_stocks_with csp_screener bps_screener
                                    (pre ++ x :: post) w) in
      match csp_screener x (snd before) with
      | (Raised _, w1) => final = rank (merge (fst before) (after w1))
      | (Ok cs, w1) =>
          match bps_screener x w1 with
          | (Raised _, w2) =>
              final = rank (merge (fst before)
                                  (merge (mk_results cs []) (after w2)))
          | (Ok bs, w2) =>
              final = rank (merge (fst before)
                                  (merge (mk_results cs bs) (after w2)))
          end
      end) /\
  (forall env symbol w,
      fst (get_current_price env symbol w) = Ok None ->
      fst (screen_csp env symbol w) = Ok [] /\
      fst (screen_bull_put_spread env symbol w) = Ok []) /\
  (forall env symbol w,
      let r := fst (get_options_chain env symbol
                      (snd (get_current_price env symbol w))) in
      r = Ok None \/ r = Ok (Some []) ->
      fst (screen_csp env symbol w) = Ok [] /\
      fst (screen_bull_put_spread env symbol w) = Ok []).
Proof.
  split; [|split].
  - intros csp_screener bps_screener pre x post w before after final.
    subst before after final.
    rewrite screen_all_stocks_with_fst, scan_app.
    destruct (scan csp_screener bps_screener pre no_results w) as [r1 w0].
    cbn [fst snd]. simpl scan. unfold screen_symbol.
    destruct (csp_screener x w0) as [[cs|e] w1].
    + destruct (bps_screener x w1) as [[bs|e] w2];
        rewrite scan_acc; cbn [fst CSP BPS]; f_equal;
        rewrite <- merge_assoc; f_equal;
        unfold merge; cbn [CSP BPS]; now rewrite ?app_nil_r.
    + rewrite scan_acc. reflexivity.
  - apply screener_without_price.
  - apply screener_without_chain.
Qed.

(** On [flaky_market] the second price request for X fails and both
    screeners started there return nothing; on [no_chain_market] there is no
    chain and both return nothing. *)
Lemma C4_failure_isolation_witness :
  let w1 := snd (screen_csp flaky_market "X" []) in
  (fst (screen_csp flaky_market "X" w1) = Ok [] /\
   fst (screen_bull_put_spread flaky_market "X" w1) = Ok []) /\
  (fst (screen_csp no_chain_market "X" []) = Ok [] /\
   fst (screen_bull_put_spread no_chain_market "X" []) = Ok []).
Proof.
  intro w1. split.
  - apply (proj1 (proj2 C4_failure_isolation) flaky_market "X"%string w1).
    vm_compute. reflexivity.
  - apply (proj2 (proj2 C4_failure_isolation) no_chain_market "X"%string []).
    left. vm_compute. reflexivity.
Defined.

(** * Further properties of the program *)

(** ** The fetchers *)

Lemma last_cons_default {A} (c d : A) (cs : list A) :
  last (c :: cs) d = last cs c.
Proof.
  revert c d. induction cs as [|x xs IH]; intros c d; [reflexivity|].
  change (last (c :: x :: xs) d) with (last (x :: xs) d).
  now rewrite !IH.
Qed.

(** X1. [get_current_price] never raises and makes exactly one request: it
    returns the last closing price of a non-empty history, and [None] when
    the history is empty or the request raises. *)
Theorem X1_get_current_price_edges (env : Env) (symbol : string) (w : World) :
  snd (get_current_price env symbol w) = EvHistory symbol :: w /\
  fst (get_current_price env symbol w) =
  match yf_history env symbol (length w) with
  | Ok [] => Ok None
  | Ok (c :: cs) => Ok (Some (last (c :: cs) 0))
  | Raised _ => Ok None
  end.
Proof.
  unfold get_current_price, try_except, bind, request, ret.
  destruct (yf_history env symbol (length w)) as [[|c cs]|e];
    cbn [fst snd]; split; try reflexivity.
  now rewrite last_cons_default.
Qed.

(** One turn of the loop over the expirations. *)
Lemma collect_puts_cons (env : Env) symbol now x rest all_puts w :
  collect_puts env symbol now (x :: rest) all_puts w =
  match strptime env x with
  | Raised e => (Raised e, w)
  | Ok d =>
      if ((MIN_DTE <=? timedelta_days d now)%Z &&
          (timedelta_days d now <=? MAX_DTE)%Z)%bool
      then match yf_option_chain env symbol x (length w) with
           | Ok puts =>
               collect_puts env symbol now rest
                 (all_puts ++ [tag_puts d x (timedelta_days d now) puts])
                 (EvOptionChain symbol x :: w)
           | Raised e => (Raised e, EvOptionChain symbol x :: w)
           end
      else collect_puts env symbol now rest all_puts w
  end.
Proof.
  simpl. unfold bind at 1, lift.
  destruct (strptime env x) as [d|e]; [|reflexivity].
  destruct (_ && _)%bool; [|reflexivity].
  unfold bind, request.
  destruct (yf_option_chain env symbol x (length w)); reflexivity.
Qed.

Lemma window_test (d now : Z) :
  ((MIN_DTE <=? timedelta_days d now)%Z &&
   (timedelta_days d now <=? MAX_DTE)%Z)%bool = true <->
  in_dte_window (timedelta_days d now).
Proof.
  unfold in_dte_window. rewrite andb_true_iff, !Z.leb_le. tauto.
Qed.

Lemma collect_puts_malformed (env : Env) symbol now expirations e err :
  In e expirations ->
  strptime env e = Raised err ->
  forall all_puts w, exists err' w',
    collect_puts env symbol now expirations all_puts w = (Raised err', w').
Proof.
  intros Hin He.
  induction expirations as [|x rest IH]; [contradiction|].
  intros all_puts w. rewrite collect_puts_cons.
  destruct (strptime env x) as [d|ex] eqn:Ex; [|eauto].
  assert (Hrest : In e rest).
  { destruct Hin as [->|H]; [congruence|exact H]. }
  destruct (_ && _)%bool; [|now apply IH].
  destruct (yf_option_chain env symbol x (length w)) as [puts|ec]; [|eauto].
  now apply IH.
Qed.

Lemma collect_puts_no_window (env : Env) symbol now expirations :
  (forall e, In e expirations -> ~ expiration_in_window env now e) ->
  forall all_puts w,
    collect_puts env symbol now expirations all_puts w = (Ok all_puts, w) \/
    exists err,
      collect_puts env symbol now expirations all_puts w = (Raised err, w).
Proof.
  induction expirations as [|x rest IH]; intros Hout all_puts w.
  - now left.
  - rewrite collect_puts_cons.
    destruct (strptime env x) as [d|ex] eqn:Ex; [|right; eauto].
    destruct ((MIN_DTE <=? timedelta_days d now)%Z &&
              (timedelta_days d now <=? MAX_DTE)%Z)%bool eqn:Hw.
    + exfalso. apply (Hout x (or_introl eq_refl)).
      exists d. split; [exact Ex|]. now apply window_test.
    + apply IH. intros e He. apply Hout. now right.
Qed.

(** X2. [get_options_chain] never raises, and returns [None] when the
    expirations request raises or lists nothing, when one listed expiration
    does not parse as a date (also after other expirations were fetched),
    and when no listed expiration falls in the window of days to
    expiration. *)
Theorem X2_get_options_chain_none (env : Env) (symbol : string) (w : World) :
  (exists r w', get_options_chain env symbol w = (Ok r, w')) /\
  (forall err, yf_options env symbol (length w) = Raised err ->
               get_options_chain env symbol w
               = (Ok None, EvOptions symbol :: w)) /\
  (yf_options env symbol (length w) = Ok [] ->
   get_options_chain env symbol w = (Ok None, EvOptions symbol :: w)) /\
  (forall expirations e err,
      yf_options env symbol (length w) = Ok expirations ->
      In e expirations ->
      strptime env e = Raised err ->
      fst (get_options_chain env symbol w) = Ok None) /\
  (forall expirations,
      yf_options env symbol (length w) = Ok expirations ->
      (forall e, In e expirations ->
                 ~ expiration_in_window env (chain_clock env w) e) ->
      fst (get_options_chain env symbol w) = Ok None).
Proof.
  split; [|split; [|split; [|split]]].
  - destruct (get_options_chain_run env symbol w) as [r [w' [E _]]]. eauto.
  - intros err E. unfold get_options_chain, try_except, bind, request.
    now rewrite E.
  - intros E. unfold get_options_chain, try_except, bind, request.
    now rewrite E.
  - intros expirations e err E Hin He.
    unfold get_options_chain, try_except. unfold bind at 1, request.
    rewrite E. destruct expirations as [|x rest]; [contradiction|].
    unfold bind at 1.
    destruct (collect_puts_malformed env symbol
                (datetime_now env (length (EvOptions symbol :: w)))
                (x :: rest) e err Hin He []
                (EvNow :: EvOptions symbol :: w)) as [err' [w' Ec]].
    unfold bind. rewrite Ec. reflexivity.
  - intros expirations E Hout.
    unfold get_options_chain, try_except. unfold bind at 1, request.
    rewrite E. destruct expirations as [|x rest]; [reflexivity|].
    unfold bind at 1.
    destruct (collect_puts_no_window env symbol
                (datetime_now env (length (EvOptions symbol :: w)))
                (x :: rest) Hout [] (EvNow :: EvOptions symbol :: w))
      as [Ec|[err Ec]]; unfold bind; rewrite Ec; reflexivity.
Qed.

(** [get_options_chain] read as one match on what the loop returns. *)
Lemma get_options_chain_eq (env : Env) (symbol : string) (w : World) :
  get_options_chain env symbol w =
  match yf_options env symbol (length w) with
  | Raised _ => (Ok None, EvOptions symbol :: w)
  | Ok [] => (Ok None, EvOptions symbol :: w)
  | Ok (x :: rest) =>
      match collect_puts env symbol (chain_clock env w) (x :: rest) []
                         (EvNow :: EvOptions symbol :: w) with
      | (Ok [], w') => (Ok None, w')
      | (Ok (f :: fs), w') => (Ok (Some (concat (f :: fs))), w')
      | (Raised _, w') => (Ok None, w')
      end
  end.
Proof.
  unfold get_options_chain, try_except. unfold bind at 1, request.
  destruct (yf_options env symbol (length w)) as [[|x rest]|e];
    try reflexivity.
  unfold bind at 1. unfold bind, chain_clock. cbn [length].
  destruct (collect_puts env symbol _ (x :: rest) [] _) as [[[|f fs]|e] w'];
    reflexivity.
Qed.

Lemma collect_puts_tagged (env : Env) symbol now listed expirations :
  incl expirations listed ->
  forall all_puts w r w',
    Forall (Forall (row_tagged env now listed)) all_puts ->
    collect_puts env symbol now expirations all_puts w = (r, w') ->
    (exists new, w' = new ++ w /\
                 Forall (chain_event env now symbol listed) new) /\
    (forall frames, r = Ok frames ->
                    Forall (Forall (row_tagged env now listed)) frames).
Proof.
  induction expirations as [|x rest IH]; intros Hincl all_puts w r w' Hall E.
  - injection E as <- <-. split.
    + exists []. split; [reflexivity|constructor].
    + intros frames [= <-]. exact Hall.
  - assert (Hx : In x listed) by (apply Hincl; now left).
    assert (Hrest : incl rest listed)
      by (intros e He; apply Hincl; now right).
    rewrite collect_puts_cons in E.
    destruct (strptime env x) as [d|ex] eqn:Ex.
    2:{ injection E as <- <-. split.
        - exists []. split; [reflexivity|constructor].
        - intros frames [=]. }
    destruct ((MIN_DTE <=? timedelta_days d now)%Z &&
              (timedelta_days d now <=? MAX_DTE)%Z)%bool eqn:Hw.
    2:{ exact (IH Hrest _ _ _ _ Hall E). }
    apply window_test in Hw.
    assert (Hev : chain_event env now symbol listed (EvOptionChain symbol x)).
    { split; [reflexivity|]. split; [exact Hx|]. exists d. now split. }
    destruct (yf_option_chain env symbol x (length w)) as [puts|ec].
    + assert (Htag : Forall (row_tagged env now listed)
                       (tag_puts d x (timedelta_days d now) puts)).
      { apply Forall_forall. intros r0 Hr0. unfold tag_puts in Hr0.
        apply in_map_iff in Hr0. destruct Hr0 as [raw [<- _]].
        unfold row_tagged. cbn [expiry_str expiry dte]. auto. }
      destruct (IH Hrest _ _ _ _
                  (proj2 (Forall_app _ _ _)
                     (conj Hall (Forall_cons _ Htag (Forall_nil _))))
                  E) as [[new [-> Hnew]] Hframes].
      split; [|exact Hframes].
      exists (new ++ [EvOptionChain symbol x]). split.
      * now rewrite <- app_assoc.
      * apply Forall_app. split; [exact Hnew|]. now constructor.
    + injection E as <- <-. split.
      * exists [EvOptionChain symbol x]. split; [reflexivity|].
        now constructor.
      * intros frames [=].
Qed.

(** X3. Every row of a chain returned by [get_options_chain] belongs to a
    listed expiration: its [expiry_str] is one of the listed strings, its
    [expiry] is that string parsed, and its [dte] is the whole number of
    days from the instant read from the clock to that date, inside
    [MIN_DTE, MAX_DTE]. *)
Theorem X3_chain_rows_tagged (env : Env) (symbol : string) (w : World)
  (expirations : list string) (chain : list put_row) :
  yf_options env symbol (length w) = Ok expirations ->
  fst (get_options_chain env symbol w) = Ok (Some chain) ->
  Forall (row_tagged env (chain_clock env w) expirations) chain.
Proof.
  intros E H. rewrite get_options_chain_eq, E in H.
  destruct expirations as [|x rest]; [discriminate|].
  destruct (collect_puts env symbol (chain_clock env w) (x :: rest) []
                         (EvNow :: EvOptions symbol :: w))
    as [r w'] eqn:Ec.
  destruct (collect_puts_tagged env symbol (chain_clock env w) (x :: rest)
              (x :: rest) (incl_refl _) [] _ r w' (Forall_nil _) Ec)
    as [_ Hframes].
  destruct r as [[|f fs]|e]; try discriminate.
  injection H as <-.
  apply (proj2 (Forall_concat _ (f :: fs))). now apply Hframes.
Qed.

Lemma chain_requests_listed (env : Env) symbol (w : World) expirations :
  yf_options env symbol (length w) = Ok expirations ->
  exists new,
    snd (get_options_chain env symbol w) = new ++ w /\
    Forall (chain_event env (chain_clock env w) symbol expirations) new.
Proof.
  intro E. rewrite get_options_chain_eq, E.
  assert (Hhead : Forall (chain_event env (chain_clock env w) symbol
                            expirations) [EvNow; EvOptions symbol])
    by (repeat constructor).
  destruct expirations as [|x rest].
  { exists [EvOptions symbol]. split; [reflexivity|]. repeat constructor. }
  destruct (collect_puts env symbol (chain_clock env w) (x :: rest) []
                         (EvNow :: EvOptions symbol :: w))
    as [r w'] eqn:Ec.
  destruct (collect_puts_tagged env symbol (chain_clock env w) (x :: rest)
              (x :: rest) (incl_refl _) [] _ r w' (Forall_nil _) Ec)
    as [[new [-> Hnew]] _].
  exists (new ++ [EvNow; EvOptions symbol]). split.
  - destruct r as [[|f fs]|e]; cbn [snd]; now rewrite <- app_assoc.
  - apply Forall_app. split; assumption.
Qed.

Lemma chain_requests (env : Env) (symbol : string) (w : World) :
  exists new,
    snd (get_options_chain env symbol w) = new ++ w /\
    Forall (chain_event env (chain_clock env w) symbol
              match yf_options env symbol (length w) with
              | Ok expirations => expirations
              | Raised _ => []
              end) new.
Proof.
  destruct (yf_options env symbol (length w)) as [expirations|e] eqn:E.
  - now apply chain_requests_listed.
  - rewrite get_options_chain_eq, E. exists [EvOptions symbol].
    split; [reflexivity|]. repeat constructor.
Qed.

(** X4. [get_options_chain] only adds to the log: the expirations request
    of its symbol, the clock, and chain requests for listed expirations of
    that symbol whose days to expiration are inside the window.  It requests
    no price and no chain of an expiration outside the window. *)
Theorem X4_chain_requests (env : Env) (symbol : string) (w : World) :
  exists new,
    snd (get_options_chain env symbol w) = new ++ w /\
    Forall (chain_event env (chain_clock env w) symbol
              match yf_options env symbol (length w) with
              | Ok expirations => expirations
              | Raised _ => []
              end) new.
Proof. apply chain_requests. Qed.

(** ** The screeners as filters and maps *)

(** A loop whose body appends what [emit] gives for each row returns the
    accumulator followed by the [flat_map] of [emit]. *)
Lemma for_each_flat_map {C B} (body : list C -> B -> result (list C))
  (emit : B -> list C) (R : B -> Prop) :
  (forall acc x, R x -> body acc x = Ok (acc ++ emit x)) ->
  forall xs acc, Forall R xs ->
                 for_each body acc xs = Ok (acc ++ flat_map emit xs).
Proof.
  intros Hbody xs. induction xs as [|x xs IH]; intros acc Hxs; simpl.
  - now rewrite app_nil_r.
  - inversion Hxs as [|? ? Hx Hrest]; subst.
    rewrite (Hbody acc x Hx). simpl. rewrite (IH _ Hrest).
    now rewrite app_assoc.
Qed.

Lemma flat_map_filter_map {A B} (f : A -> B) (keep : A -> bool) (l : list A) :
  flat_map (fun x => if keep x then [f x] else []) l = map f (filter keep l).
Proof.
  induction l as [|x l IH]; simpl; [reflexivity|].
  destruct (keep x); simpl; now rewrite IH.
Qed.

Lemma csp_body_eq symbol p candidates row :
  ~ p == 0 ->
  csp_filter (fst (strike_window p)) (snd (strike_window p)) row = true ->
  in_dte_window (dte row) ->
  csp_body symbol p candidates row =
  Ok (candidates ++
      if csp_accepts row then [csp_of_row symbol p row] else []).
Proof.
  intros Hp Hf Hd.
  assert (Hw : in_strike_window p (strike row)).
  { unfold csp_filter in Hf.
    repeat (apply andb_true_iff in Hf; destruct Hf as [Hf ?]).
    now apply strike_window_spec. }
  unfold csp_body, csp_accepts.
  rewrite (py_div_nonzero _ p Hp). cbn [rbind].
  rewrite (py_div_nonzero _ (strike row) (window_strike_nonzero _ _ Hp Hw)).
  cbn [rbind]. destruct (MIN_RETURN_ON_RISK <=? _).
  - rewrite (py_div_nonzero _ _ (dte_nonzero _ Hd)). reflexivity.
  - now rewrite app_nil_r.
Qed.

Lemma bps_body_eq symbol p min_strike max_strike expiry_chain candidates
  short_row :
  ~ p == 0 ->
  in_dte_window (dte short_row) ->
  bps_body symbol p min_strike max_strike expiry_chain candidates short_row =
  Ok (candidates ++
      bps_emit symbol p min_strike max_strike expiry_chain short_row).
Proof.
  intros Hp Hd. rewrite bps_body_find. unfold bps_emit.
  destruct (_ || _); [now rewrite app_nil_r|].
  destruct (find _ expiry_chain) as [long_row|]; [|now rewrite app_nil_r].
  unfold bps_pair, bps_accepts.
  destruct (rejects short_row long_row) eqn:Hrej;
    [now rewrite app_nil_r|].
  destruct (rejects_false_width _ _ Hrej) as [_ Haw].
  rewrite (py_div_nonzero _ (actual_width_of short_row long_row)).
  2:{ intro E. rewrite E in Haw. exact (Qlt_irrefl _ Haw). }
  cbn [rbind negb andb]. destruct (MIN_RETURN_ON_RISK <=? _).
  - rewrite (py_div_nonzero _ p Hp). cbn [rbind].
    rewrite (py_div_nonzero _ _ (dte_nonzero _ Hd)). reflexivity.
  - now rewrite app_nil_r.
Qed.

Lemma bps_expiry_eq symbol p min_strike max_strike chain candidates e :
  ~ p == 0 ->
  rows_in_dte_window chain ->
  bps_expiry symbol p min_strike max_strike chain candidates e =
  Ok (candidates ++
      flat_map (bps_emit symbol p min_strike max_strike
                         (expiry_group chain e))
               (expiry_group chain e)).
Proof.
  intros Hp Hchain. unfold bps_expiry.
  apply for_each_flat_map with (R := fun r => in_dte_window (dte r)).
  - intros acc x Hx. now apply bps_body_eq.
  - apply Forall_forall. intros r Hr. apply expiry_group_In in Hr.
    unfold rows_in_dte_window in Hchain.
    rewrite Forall_forall in Hchain. now apply Hchain.
Qed.

Lemma screen_csp_outcome (env : Env) (symbol : string) (w : World) :
  exists price chain,
    fst (get_current_price env symbol w) = Ok price /\
    fst (get_options_chain env symbol (EvHistory symbol :: w)) = Ok chain /\
    fst (screen_csp env symbol w) = Ok (csp_outcome symbol price chain).
Proof.
  destruct (get_current_price_run env symbol w) as [price E].
  destruct (get_options_chain_run env symbol (EvHistory symbol :: w))
    as [chain [w' [E2 [_ Hr]]]].
  exists price, chain. rewrite E, E2. split; [reflexivity|].
  split; [reflexivity|].
  unfold screen_csp, bind. rewrite E.
  destruct price as [p|]; [|reflexivity]. unfold csp_outcome.
  destruct (Qeq_bool p 0) eqn:Hp0; [now destruct chain|].
  assert (Hp : ~ p == 0) by (apply Qeq_bool_neq; exact Hp0).
  rewrite E2. destruct chain as [chain|]; [|reflexivity].
  specialize (Hr _ eq_refl).
  destruct (length chain =? 0)%nat eqn:Hlen.
  { apply Nat.eqb_eq in Hlen. apply length_zero_iff_nil in Hlen.
    subst chain. reflexivity. }
  unfold lift. cbn [fst strike_window].
  rewrite <- flat_map_filter_map.
  change (@nil Csp.candidate) with (@nil Csp.candidate ++ []) at 2.
  erewrite for_each_flat_map
    with (R := fun r => csp_filter (fst (strike_window p))
                                   (snd (strike_window p)) r = true /\
                        in_dte_window (dte r)).
  - reflexivity.
  - intros acc x [Hf Hd]. now apply csp_body_eq.
  - apply Forall_forall. intros r Hin. apply filter_In in Hin.
    destruct Hin as [Hin Hf]. split; [exact Hf|].
    unfold rows_in_dte_window in Hr. rewrite Forall_forall in Hr.
    now apply Hr.
Qed.

Lemma screen_bull_put_spread_outcome (env : Env) (symbol : string)
  (w : World) :
  exists price chain,
    fst (get_current_price env symbol w) = Ok price /\
    fst (get_options_chain env symbol (EvHistory symbol :: w)) = Ok chain /\
    fst (screen_bull_put_spread env symbol w)
    = Ok (bps_outcome symbol price chain).
Proof.
  destruct (get_current_price_run env symbol w) as [price E].
  destruct (get_options_chain_run env symbol (EvHistory symbol :: w))
    as [chain [w' [E2 [_ Hr]]]].
  exists price, chain. rewrite E, E2. split; [reflexivity|].
  split; [reflexivity|].
  unfold screen_bull_put_spread, bind. rewrite E.
  destruct price as [p|]; [|reflexivity]. unfold bps_outcome.
  destruct (Qeq_bool p 0) eqn:Hp0; [now destruct chain|].
  assert (Hp : ~ p == 0) by (apply Qeq_bool_neq; exact Hp0).
  rewrite E2. destruct chain as [chain|]; [|reflexivity].
  specialize (Hr _ eq_refl).
  destruct (length chain =? 0)%nat eqn:Hlen.
  { apply Nat.eqb_eq in Hlen. apply length_zero_iff_nil in Hlen.
    subst chain. reflexivity. }
  unfold lift. cbn [fst strike_window].
  cbv zeta.
  erewrite for_each_flat_map with (R := fun _ => True).
  - reflexivity.
  - intros acc e _. apply bps_expiry_eq; [exact Hp|].
    now apply filter_rows_in_dte_window.
  - apply Forall_forall. trivial.
Qed.

(** ** Where a candidate comes from *)

Lemma expiry_group_expiry chain e r :
  In r (expiry_group chain e) -> expiry r = e.
Proof.
  unfold expiry_group. intro H. apply sort_desc_In in H.
  apply filter_In in H. destruct H as [_ H]. now apply Z.eqb_eq in H.
Qed.

Lemma csp_outcome_from_chain symbol price chain c :
  (forall rows, chain = Some rows -> rows_in_dte_window rows) ->
  In c (csp_outcome symbol price chain) ->
  exists p rows row,
    price = Some p /\ chain = Some rows /\ In row rows /\
    csp_row_ok p row /\ c = csp_of_row symbol p row.
Proof.
  intro Hdte. unfold csp_outcome. destruct price as [p|]; [|contradiction].
  destruct chain as [rows|]; [|contradiction].
  destruct (Qeq_bool p 0) eqn:Hp0; [contradiction|].
  intro H. apply in_map_iff in H. destruct H as [row [<- Hrow]].
  apply filter_In in Hrow. destruct Hrow as [Hrow Hacc].
  apply filter_In in Hrow. destruct Hrow as [Hrow Hf].
  assert (Hp : ~ p == 0) by now apply Qeq_bool_neq.
  assert (Hd : in_dte_window (dte row)).
  { specialize (Hdte _ eq_refl). unfold rows_in_dte_window in Hdte.
    rewrite Forall_forall in Hdte. now apply Hdte. }
  exists p, rows, row. unfold csp_row_ok. auto 10.
Qed.

Lemma bps_emit_from_group symbol p chain e short_row c :
  ~ p == 0 ->
  rows_in_dte_window chain ->
  In short_row (expiry_group chain e) ->
  In c (bps_emit symbol p (fst (strike_window p)) (snd (strike_window p))
                 (expiry_group chain e) short_row) ->
  exists long_row,
    In long_row chain /\ In short_row chain /\
    in_strike_window p (strike short_row) /\
    long_window (strike short_row - SPREAD_WIDTH) long_row = true /\
    bps_accepts short_row long_row = true /\
    in_dte_window (dte short_row) /\
    expiry long_row = expiry short_row /\
    c = bps_of_pair symbol p short_row long_row.
Proof.
  intros Hp Hchain Hshort. unfold bps_emit.
  destruct ((strike short_row <? fst (strike_window p)) ||
            (snd (strike_window p) <? strike short_row)) eqn:Hout;
    [contradiction|].
  apply orb_false_iff in Hout. destruct Hout as [H1 H2].
  apply Qltb_ge in H1, H2.
  destruct (find _ (expiry_group chain e)) as [long_row|] eqn:Hfind;
    [|contradiction].
  apply find_some in Hfind. destruct Hfind as [Hlong Hwin].
  destruct (bps_accepts short_row long_row) eqn:Hacc; [|contradiction].
  intros [<-|[]]. exists long_row.
  unfold rows_in_dte_window in Hchain. rewrite Forall_forall in Hchain.
  pose proof (expiry_group_In _ _ _ Hlong) as Hl.
  pose proof (expiry_group_In _ _ _ Hshort) as Hs.
  apply expiry_group_expiry in Hlong, Hshort.
  split; [exact Hl|]. split; [exact Hs|]. split; [split; assumption|].
  split; [exact Hwin|]. split; [exact Hacc|].
  split; [now apply Hchain|]. split; [congruence|reflexivity].
Qed.

Lemma bps_outcome_from_chain symbol price chain c :
  (forall rows, chain = Some rows -> rows_in_dte_window rows) ->
  In c (bps_outcome symbol price chain) ->
  exists p rows short_row long_row,
    price = Some p /\ chain = Some rows /\
    In short_row rows /\ In long_row rows /\
    bps_pair_ok p short_row long_row /\
    c = bps_of_pair symbol p short_row long_row.
Proof.
  intro Hdte. unfold bps_outcome. destruct price as [p|]; [|contradiction].
  destruct chain as [rows|]; [|contradiction].
  destruct (Qeq_bool p 0) eqn:Hp0; [contradiction|].
  assert (Hp : ~ p == 0) by now apply Qeq_bool_neq.
  cbv zeta. intro H. apply in_flat_map in H. destruct H as [e [_ H]].
  apply in_flat_map in H. destruct H as [short_row [Hshort H]].
  destruct (bps_emit_from_group symbol p _ e short_row c Hp
              (filter_rows_in_dte_window _ _ (Hdte _ eq_refl)) Hshort H)
    as [long_row [Hl [Hs [Hw [Hlw [Hacc [Hd [He ->]]]]]]]].
  apply filter_In in Hl, Hs. destruct Hl as [Hl Hlf], Hs as [Hs Hsf].
  exists p, rows, short_row, long_row. unfold bps_pair_ok. auto 15.
Qed.

Section Provenance.

Variable env : Env.

Lemma screen_csp_from_chain symbol w :
  exists cs, fst (screen_csp env symbol w) = Ok cs /\
             Forall (csp_from_chain symbol) cs.
Proof.
  destruct (screen_csp_outcome env symbol w) as [price [chain [_ [Ec E]]]].
  eexists. split; [exact E|]. apply Forall_forall. intros c Hc.
  destruct (get_options_chain_run env symbol (EvHistory symbol :: w))
    as [r [w' [E2 [_ Hr]]]].
  rewrite E2 in Ec. cbn [fst] in Ec. injection Ec as ->.
  destruct (csp_outcome_from_chain _ _ _ _ Hr Hc)
    as [p [rows [row [_ [_ [_ [Hok ->]]]]]]].
  now exists p, row.
Qed.

Lemma screen_bull_put_spread_from_chain symbol w :
  exists bs, fst (screen_bull_put_spread env symbol w) = Ok bs /\
             Forall (bps_from_chain symbol) bs.
Proof.
  destruct (screen_bull_put_spread_outcome env symbol w)
    as [price [chain [_ [Ec E]]]].
  eexists. split; [exact E|]. apply Forall_forall. intros c Hc.
  destruct (get_options_chain_run env symbol (EvHistory symbol :: w))
    as [r [w' [E2 [_ Hr]]]].
  rewrite E2 in Ec. cbn [fst] in Ec. injection Ec as ->.
  destruct (bps_outcome_from_chain _ _ _ _ Hr Hc)
    as [p [rows [s [l [_ [_ [_ [_ [Hok ->]]]]]]]]].
  now exists p, s, l.
Qed.

End Provenance.

(** Every candidate of a scan was returned by a screener call for a listed
    ticker. *)
Lemma scan_CSP_In csp_screener bps_screener tickers : forall res w c,
  In c (CSP (fst (scan csp_screener bps_screener tickers res w))) ->
  In c (CSP res) \/
  exists s w0 cs w1,
    In s tickers /\ csp_screener s w0 = (Ok cs, w1) /\ In c cs.
Proof.
  induction tickers as [|s rest IH]; intros res w c H; [now left|].
  simpl in H. destruct (screen_symbol _ _ res s w) as [r1 w1] eqn:E.
  destruct (IH _ _ _ H) as [Hr1|[s' [w0 [cs [w2 [Hs' [E' Hc]]]]]]].
  - unfold screen_symbol in E.
    destruct (csp_screener s w) as [[cs|e] w2] eqn:Ec.
    + assert (Hin : In c (CSP res ++ cs)).
      { destruct (bps_screener s w2) as [[bs|e] w3];
          injection E as <- <-; exact Hr1. }
      apply in_app_or in Hin. destruct Hin as [Hin|Hin]; [now left|].
      right. exists s, w, cs, w2. repeat split; trivial. now left.
    + injection E as <- <-. now left.
  - right. exists s', w0, cs, w2. repeat split; trivial. now right.
Qed.

Lemma scan_BPS_In csp_screener bps_screener tickers : forall res w c,
  In c (BPS (fst (scan csp_screener bps_screener tickers res w))) ->
  In c (BPS res) \/
  exists s w0 bs w1,
    In s tickers /\ bps_screener s w0 = (Ok bs, w1) /\ In c bs.
Proof.
  induction tickers as [|s rest IH]; intros res w c H; [now left|].
  simpl in H. destruct (screen_symbol _ _ res s w) as [r1 w1] eqn:E.
  destruct (IH _ _ _ H) as [Hr1|[s' [w0 [bs [w2 [Hs' [E' Hc]]]]]]].
  - unfold screen_symbol in E.
    destruct (csp_screener s w) as [[cs|e] w2] eqn:Ec.
    + destruct (bps_screener s w2) as [[bs|e] w3] eqn:Eb;
        injection E as <- <-; cbn [BPS] in Hr1; [|now left].
      apply in_app_or in Hr1. destruct Hr1 as [Hin|Hin]; [now left|].
      right. exists s, w2, bs, w3. repeat split; trivial. now left.
    + injection E as <- <-. now left.
  - right. exists s', w0, bs, w2. repeat split; trivial. now right.
Qed.

Section FinalProvenance.

Variable env : Env.

Lemma final_CSP_from_chain tickers w :
  Forall (fun c => exists s, In s tickers /\ csp_from_chain s c)
         (CSP (fst (screen_all_stocks env tickers w))).
Proof.
  rewrite screen_all_stocks_rank. cbn [rank CSP].
  apply sort_desc_Forall. apply Forall_forall. intros c Hc.
  unfold arrival in Hc. apply scan_CSP_In in Hc.
  destruct Hc as [[]|[s [w0 [cs [w1 [Hs [E Hin]]]]]]].
  exists s. split; [exact Hs|].
  destruct (screen_csp_from_chain env s w0) as [cs' [E' H]].
  rewrite E in E'. cbn [fst] in E'. injection E' as <-.
  rewrite Forall_forall in H. now apply H.
Qed.

Lemma final_BPS_from_chain tickers w :
  Forall (fun c => exists s, In s tickers /\ bps_from_chain s c)
         (BPS (fst (screen_all_stocks env tickers w))).
Proof.
  rewrite screen_all_stocks_rank. cbn [rank BPS].
  apply sort_desc_Forall. apply Forall_forall. intros c Hc.
  unfold arrival in Hc. apply scan_BPS_In in Hc.
  destruct Hc as [[]|[s [w0 [bs [w1 [Hs [E Hin]]]]]]].
  exists s. split; [exact Hs|].
  destruct (screen_bull_put_spread_from_chain env s w0) as [bs' [E' H]].
  rewrite E in E'. cbn [fst] in E'. injection E' as <-.
  rewrite Forall_forall in H. now apply H.
Qed.

(** A property of the candidate of every qualifying row holds of whatever
    [screen_csp] returns and of the final CSP list. *)
Lemma csp_everywhere (P : Csp.candidate -> Prop) :
  (forall symbol p row, csp_row_ok p row -> P (csp_of_row symbol p row)) ->
  (forall symbol w, exists cs,
      fst (screen_csp env symbol w) = Ok cs /\ Forall P cs) /\
  (forall tickers w,
      Forall P (CSP (fst (screen_all_stocks env tickers w)))).
Proof.
  intro H. split.
  - intros symbol w.
    destruct (screen_csp_from_chain env symbol w) as [cs [E Hcs]].
    exists cs. split; [exact E|]. eapply Forall_impl; [|exact Hcs].
    intros c [p [row [Hok ->]]]. now apply H.
  - intros tickers w. eapply Forall_impl; [|apply final_CSP_from_chain].
    intros c [s [_ [p [row [Hok ->]]]]]. now apply H.
Qed.

Lemma bps_everywhere (P : Bps.candidate -> Prop) :
  (forall symbol p short_row long_row,
      bps_pair_ok p short_row long_row ->
      P (bps_of_pair symbol p short_row long_row)) ->
  (forall symbol w, exists bs,
      fst (screen_bull_put_spread env symbol w) = Ok bs /\ Forall P bs) /\
  (forall tickers w,
      Forall P (BPS (fst (screen_all_stocks env tickers w)))).
Proof.
  intro H. split.
  - intros symbol w.
    destruct (screen_bull_put_spread_from_chain env symbol w)
      as [bs [E Hbs]].
    exists bs. split; [exact E|]. eapply Forall_impl; [|exact Hbs].
    intros c [p [s [l [Hok ->]]]]. now apply H.
  - intros tickers w. eapply Forall_impl; [|apply final_BPS_from_chain].
    intros c [s [_ [p [sr [l [Hok ->]]]]]]. now apply H.
Qed.

End FinalProvenance.

(** ** Bounds on the fields of a candidate *)




(** ** Liquidity and quotes *)

Lemma csp_filter_facts mn mx (r : put_row) :
  csp_filter mn mx r = true ->
  (10 <= volume r)%Z /\ (50 <= openInterest r)%Z /\ 0 < bid r /\ 0 < ask r.
Proof.
  unfold csp_filter, MIN_VOLUME, MIN_OPEN_INTEREST. intro Hf.
  repeat (apply andb_true_iff in Hf; destruct Hf as [Hf ?]).
  repeat match goal with
         | H : (_ <=? _) = true |- _ => apply Qleb_le in H
         | H : (_ <? _) = true |- _ => apply Qltb_lt in H
         end.
  repeat split; trivial.
  - match goal with H : 10 <= inject_Z _ |- _ =>
      unfold Qle, inject_Z in H; cbn in H; lia end.
  - match goal with H : 50 <= inject_Z _ |- _ =>
      unfold Qle, inject_Z in H; cbn in H; lia end.
Qed.

Lemma bps_filter_facts mn mx (r : put_row) :
  bps_filter mn mx r = true ->
  (5 <= volume r)%Z /\ (25 <= openInterest r)%Z /\ 0 < bid r /\ 0 < ask r.
Proof.
  unfold bps_filter, MIN_VOLUME, MIN_OPEN_INTEREST. intro Hf.
  repeat (apply andb_true_iff in Hf; destruct Hf as [Hf ?]).
  repeat match goal with
         | H : (_ <=? _) = true |- _ => apply Qleb_le in H
         | H : (_ <? _) = true |- _ => apply Qltb_lt in H
         end.
  repeat split; trivial.
  - match goal with H : 10 / 2 <= inject_Z _ |- _ =>
      unfold Qle, Qdiv, Qmult, Qinv, inject_Z in H; cbn in H; lia end.
  - match goal with H : 50 / 2 <= inject_Z _ |- _ =>
      unfold Qle, Qdiv, Qmult, Qinv, inject_Z in H; cbn in H; lia end.
Qed.

(** X9. Every CSP candidate comes from a row with volume at least
    [MIN_VOLUME], open interest at least [MIN_OPEN_INTEREST] and positive bid
    and ask, and its premium and credit are the positive midpoint of the
    two; every BPS candidate has both legs with volume at least half of
    [MIN_VOLUME], and a short premium above a positive long premium whose
    difference is its credit. *)
Theorem X9_liquidity_and_quotes (env : Env) :
  let csp_ok := fun c =>
    (10 <= Csp.volume c)%Z /\ (50 <= Csp.open_interest c)%Z /\
    0 < Csp.bid c /\ 0 < Csp.ask c /\
    Csp.premium c = (Csp.bid c + Csp.ask c) / 2 /\
    Csp.credit c = Csp.premium c /\ 0 < Csp.premium c in
  let bps_ok := fun c =>
    (5 <= Bps.short_volume c)%Z /\ (5 <= Bps.long_volume c)%Z /\
    0 < Bps.long_premium c /\ Bps.long_premium c < Bps.short_premium c /\
    Bps.credit c = Bps.short_premium c - Bps.long_premium c in
  ((forall symbol w, exists cs,
       fst (screen_csp env symbol w) = Ok cs /\ Forall csp_ok cs) /\
   (forall tickers w,
       Forall csp_ok (CSP (fst (screen_all_stocks env tickers w))))) /\
  ((forall symbol w, exists bs,
       fst (screen_bull_put_spread env symbol w) = Ok bs /\
       Forall bps_ok bs) /\
   (forall tickers w,
       Forall bps_ok (BPS (fst (screen_all_stocks env tickers w))))).
Proof.
  intros csp_ok bps_ok. split.
  - apply csp_everywhere. intros symbol p row [_ [Hf _]].
    destruct (csp_filter_facts _ _ _ Hf) as [Hv [Ho [Hb Ha]]].
    unfold csp_ok, csp_of_row; cbn.
    repeat split; trivial. qlra.
  - apply bps_everywhere. intros symbol p s l Hok.
    destruct Hok as [_ [Hfs [Hfl [_ [_ [Hacc _]]]]]].
    destruct (bps_filter_facts _ _ _ Hfs) as [Hvs _].
    destruct (bps_filter_facts _ _ _ Hfl) as [Hvl [_ [Hb Ha]]].
    unfold bps_accepts in Hacc. apply andb_true_iff in Hacc.
    destruct Hacc as [Hrej _]. apply negb_true_iff in Hrej.
    destruct (rejects_false _ _ Hrej) as [_ Hnc].
    unfold net_credit_of in Hnc.
    unfold bps_ok, bps_of_pair; cbn.
    repeat split; trivial.
    + unfold long_premium_of. qlra.
    + qlra.
Qed.

Lemma spread_numbers (nc aw : Q) :
  0 < nc -> nc < aw -> (45 # 10) <= aw <= (55 # 10) ->
  MIN_RETURN_ON_RISK <= nc / aw * 100 ->
  nc / aw * 100 < 100 /\ (9 # 10) <= nc /\ (aw - nc) * 100 <= 440.
Proof.
  unfold MIN_RETURN_ON_RISK. intros Hnc Hlt [Hlo Hhi] Hror.
  assert (Haw : ~ aw == 0) by (intro E; rewrite E in *; lra).
  pose proof (Qmult_div_r nc aw Haw) as Hy.
  remember (nc / aw) as y.
  assert (Hy1 : y < 1).
  { destruct (Qlt_le_dec y 1) as [H|H]; [exact H|]. exfalso. nra. }
  split; [lra|]. split; nra.
Qed.

(** ** Symbols and tags *)

(** X11. A candidate returned by a screener carries the screened symbol,
    and a candidate of the final result the symbol of a listed ticker.  A
    CSP candidate is tagged "CSP", has no long strike, a short strike equal
    to its strike, a max risk of 100 times the strike and a return on risk
    of [premium / strike * 100]; a BPS candidate is tagged "BPS". *)
Theorem X11_symbols_and_tags (env : Env) :
  let csp_ok := fun c =>
    Csp.strategy c = "CSP"%string /\ Csp.long_strike c = None /\
    Csp.short_strike c = Csp.strike c /\
    Csp.max_risk c = Csp.strike c * 100 /\
    Csp.return_on_risk c = Csp.premium c / Csp.strike c * 100 in
  (forall symbol w, exists cs,
      fst (screen_csp env symbol w) = Ok cs /\
      Forall (fun c => Csp.symbol c = symbol /\ csp_ok c) cs) /\
  (forall symbol w, exists bs,
      fst (screen_bull_put_spread env symbol w) = Ok bs /\
      Forall (fun c => Bps.symbol c = symbol /\
                       Bps.strategy c = "BPS"%string) bs) /\
  (forall tickers w,
      Forall (fun c => In (Csp.symbol c) tickers /\ csp_ok c)
             (CSP (fst (screen_all_stocks env tickers w))) /\
      Forall (fun c => In (Bps.symbol c) tickers /\
                       Bps.strategy c = "BPS"%string)
             (BPS (fst (screen_all_stocks env tickers w)))).
Proof.
  intro csp_ok. split; [|split].
  - intros symbol w.
    destruct (screen_csp_from_chain env symbol w) as [cs [E H]].
    exists cs. split; [exact E|]. eapply Forall_impl; [|exact H].
    intros c [p [row [_ ->]]]. unfold csp_ok, csp_of_row; cbn. auto 10.
  - intros symbol w.
    destruct (screen_bull_put_spread_from_chain env symbol w) as [bs [E H]].
    exists bs. split; [exact E|]. eapply Forall_impl; [|exact H].
    intros c [p [s [l [_ ->]]]]. unfold bps_of_pair; cbn. auto.
  - intros tickers w. split.
    + eapply Forall_impl; [|apply final_CSP_from_chain].
      intros c [s [Hs [p [row [_ ->]]]]].
      unfold csp_ok, csp_of_row; cbn. auto 10.
    + eapply Forall_impl; [|apply final_BPS_from_chain].
      intros c [s [Hs [p [sr [l [_ ->]]]]]]. unfold bps_of_pair; cbn. auto.
Qed.

(** ** Requests of the screeners and of a scan *)

Lemma screen_csp_world (env : Env) symbol w :
  snd (screen_csp env symbol w) =
  match fst (get_current_price env symbol w) with
  | Ok (Some p) =>
      if Qeq_bool p 0 then EvHistory symbol :: w
      else snd (get_options_chain env symbol (EvHistory symbol :: w))
  | _ => EvHistory symbol :: w
  end.
Proof.
  unfold screen_csp, bind.
  destruct (get_current_price_run env symbol w) as [price E]. rewrite E.
  cbn [fst]. destruct price as [p|]; [|reflexivity].
  destruct (Qeq_bool p 0); [reflexivity|].
  destruct (get_options_chain env symbol (EvHistory symbol :: w))
    as [[[chain|]|e] w']; try reflexivity.
  destruct (length chain =? 0)%nat; reflexivity.
Qed.

Lemma screen_bull_put_spread_world (env : Env) symbol w :
  snd (screen_bull_put_spread env symbol w) =
  match fst (get_current_price env symbol w) with
  | Ok (Some p) =>
      if Qeq_bool p 0 then EvHistory symbol :: w
      else snd (get_options_chain env symbol (EvHistory symbol :: w))
  | _ => EvHistory symbol :: w
  end.
Proof.
  unfold screen_bull_put_spread, bind.
  destruct (get_current_price_run env symbol w) as [price E]. rewrite E.
  cbn [fst]. destruct price as [p|]; [|reflexivity].
  destruct (Qeq_bool p 0); [reflexivity|].
  destruct (get_options_chain env symbol (EvHistory symbol :: w))
    as [[[chain|]|e] w']; try reflexivity.
  destruct (length chain =? 0)%nat; reflexivity.
Qed.

(** X13. A screener whose price request yields nothing, or a price of zero,
    returns no candidate and requests no chain: the price request is all it
    adds to the log.  With a non-zero price it goes on with exactly the
    requests of one call of [get_options_chain]. *)
Theorem X13_no_price_no_chain_request (env : Env) (symbol : string)
  (w : World) :
  match fst (get_current_price env symbol w) with
  | Ok (Some p) =>
      if Qeq_bool p 0 then
        screen_csp env symbol w = (Ok [], EvHistory symbol :: w) /\
        screen_bull_put_spread env symbol w = (Ok [], EvHistory symbol :: w)
      else
        snd (screen_csp env symbol w)
        = snd (get_options_chain env symbol (EvHistory symbol :: w)) /\
        snd (screen_bull_put_spread env symbol w)
        = snd (get_options_chain env symbol (EvHistory symbol :: w))
  | _ =>
      screen_csp env symbol w = (Ok [], EvHistory symbol :: w) /\
      screen_bull_put_spread env symbol w = (Ok [], EvHistory symbol :: w)
  end.
Proof.
  pose proof (screen_csp_world env symbol w) as Hc.
  pose proof (screen_bull_put_spread_world env symbol w) as Hb.
  destruct (get_current_price_run env symbol w) as [price E].
  rewrite E in *. cbn [fst] in *.
  destruct price as [p|].
  - destruct (Qeq_bool p 0) eqn:Hp0; [|split; assumption].
    unfold screen_csp, screen_bull_put_spread, bind.
    rewrite E, Hp0. split; reflexivity.
  - unfold screen_csp, screen_bull_put_spread, bind.
    rewrite E. split; reflexivity.
Qed.

Lemma chain_event_about env now symbol expirations ev :
  chain_event env now symbol expirations ev -> event_about [symbol] ev.
Proof.
  destruct ev as [s|s| |s e]; simpl; try tauto.
  - intros ->. now left.
  - intros [-> _]. now left.
Qed.

Lemma event_about_incl (l1 l2 : list string) ev :
  incl l1 l2 -> event_about l1 ev -> event_about l2 ev.
Proof. intro H. destruct ev; simpl; auto. Qed.

Lemma get_options_chain_log (env : Env) symbol w :
  exists new, snd (get_options_chain env symbol w) = new ++ w /\
              Forall (event_about [symbol]) new.
Proof.
  destruct (chain_requests env symbol w) as [new [E H]].
  exists new. split; [exact E|]. eapply Forall_impl; [|exact H].
  intro ev. apply chain_event_about.
Qed.

Lemma screener_log (env : Env) symbol w :
  (exists new, snd (screen_csp env symbol w) = new ++ w /\
               Forall (event_about [symbol]) new) /\
  (exists new, snd (screen_bull_put_spread env symbol w) = new ++ w /\
               Forall (event_about [symbol]) new).
Proof.
  assert (Hh : Forall (event_about [symbol]) [EvHistory symbol])
    by (constructor; [now left|constructor]).
  assert (H : exists new,
             match fst (get_current_price env symbol w) with
             | Ok (Some p) =>
                 if Qeq_bool p 0 then EvHistory symbol :: w
                 else snd (get_options_chain env symbol
                             (EvHistory symbol :: w))
             | _ => EvHistory symbol :: w
             end = new ++ w /\ Forall (event_about [symbol]) new).
  { destruct (fst (get_current_price env symbol w)) as [[p|]|e];
      try (exists [EvHistory symbol]; split; [reflexivity|exact Hh]).
    destruct (Qeq_bool p 0);
      [exists [EvHistory symbol]; split; [reflexivity|exact Hh]|].
    destruct (get_options_chain_log env symbol (EvHistory symbol :: w))
      as [new [E Hnew]].
    exists (new ++ [EvHistory symbol]). split.
    - rewrite E, <- app_assoc. reflexivity.
    - apply Forall_app. split; assumption. }
  rewrite screen_csp_world, screen_bull_put_spread_world. split; exact H.
Qed.

Lemma scan_log (env : Env) tickers : forall res w,
  exists new,
    snd (scan (screen_csp env) (screen_bull_put_spread env) tickers res w)
    = new ++ w /\
    Forall (event_about tickers) new.
Proof.
  induction tickers as [|s rest IH]; intros res w.
  - exists []. split; [reflexivity|constructor].
  - simpl scan. unfold screen_symbol.
    destruct (screen_csp_run env s w) as [cs [w1 [E1 _]]].
    destruct (screen_bull_put_spread_run env s w1) as [bs [w2 [E2 _]]].
    rewrite E1, E2.
    destruct (proj1 (screener_log env s w)) as [n1 [L1 H1]].
    destruct (proj2 (screener_log env s w1)) as [n2 [L2 H2]].
    rewrite E1 in L1. rewrite E2 in L2. cbn [snd] in L1, L2.
    destruct (IH (mk_results (CSP (mk_results (CSP res ++ cs) (BPS res)))
                             (BPS (mk_results (CSP res ++ cs) (BPS res))
                              ++ bs)) w2) as [n3 [L3 H3]].
    exists (n3 ++ n2 ++ n1). split.
    + rewrite L3, L2, L1, <- !app_assoc. reflexivity.
    + assert (Hs : incl [s] (s :: rest))
        by (intros x [<-|[]]; now left).
      assert (Hr : incl rest (s :: rest)) by (intros x Hx; now right).
      repeat (apply Forall_app; split).
      * eapply Forall_impl; [|exact H3].
        intro ev. now apply event_about_incl.
      * eapply Forall_impl; [|exact H2].
        intro ev. now apply event_about_incl.
      * eapply Forall_impl; [|exact H1].
        intro ev. now apply event_about_incl.
Qed.

(** X16. A scan only extends the log, and every request it adds is for a
    listed ticker (or a reading of the clock): no data is requested for a
    symbol outside the universe, and an empty universe requests nothing. *)
Theorem X16_scan_requests_listed_tickers (env : Env) (tickers : list string)
  (w : World) :
  (exists new,
      snd (screen_all_stocks env tickers w) = new ++ w /\
      Forall (event_about tickers) new) /\
  screen_all_stocks env [] w = (no_results, w).
Proof.
  split; [|reflexivity].
  unfold screen_all_stocks. rewrite screen_all_stocks_with_snd.
  apply scan_log.
Qed.

(** ** Number of candidates *)

Lemma filter_length_le' {A} (f : A -> bool) (l : list A) :
  (length (filter f l) <= length l)%nat.
Proof.
  induction l as [|x l IH]; simpl; [lia|].
  destruct (f x); simpl; lia.
Qed.

Lemma filter_split_length {A} (f : A -> bool) (l : list A) :
  (length (filter f l) + length (filter (fun x => negb (f x)) l)
   = length l)%nat.
Proof.
  induction l as [|x l IH]; simpl; [reflexivity|].
  destruct (f x); simpl; lia.
Qed.

Lemma flat_map_length_bound {A B C} (f : A -> list B) (g : A -> list C) ks :
  (forall e, (length (f e) <= length (g e))%nat) ->
  (length (flat_map f ks) <= length (flat_map g ks))%nat.
Proof.
  intro H. induction ks as [|e ks IH]; simpl; [lia|].
  rewrite !length_app. specialize (H e). lia.
Qed.

Lemma flat_map_at_most_one {A B} (f : A -> list B) (l : list A) :
  (forall x, (length (f x) <= 1)%nat) ->
  (length (flat_map f l) <= length l)%nat.
Proof.
  intro H. induction l as [|x l IH]; simpl; [lia|].
  rewrite length_app. specialize (H x). lia.
Qed.

Lemma unique_NoDup (l : list Z) : NoDup (unique l).
Proof.
  induction l as [|x l IH]; simpl; constructor.
  - intro H. apply filter_In in H. destruct H as [_ H].
    now rewrite Z.eqb_refl in H.
  - now apply NoDup_filter.
Qed.

(** The groups of distinct expiries take their rows from disjoint parts of
    the chain. *)
Lemma groups_length_le (ks : list Z) :
  NoDup ks ->
  forall l : list put_row,
    (length (flat_map (fun e => filter (fun r => (expiry r =? e)%Z) l) ks)
     <= length l)%nat.
Proof.
  induction ks as [|e ks IH]; intros Hnd l; simpl; [lia|].
  inversion Hnd as [|? ? Hnotin Hnd']; subst.
  rewrite length_app.
  assert (Hrest :
    flat_map (fun e' => filter (fun r => (expiry r =? e')%Z) l) ks =
    flat_map (fun e' => filter (fun r => (expiry r =? e')%Z)
                          (filter (fun r => negb (expiry r =? e)%Z) l)) ks).
  { clear IH Hnd' Hnd. induction ks as [|k ks IHk]; simpl; [reflexivity|].
    rewrite IHk by (intro H; apply Hnotin; now right). f_equal.
    assert (Hk : k <> e) by (intros ->; apply Hnotin; now left).
    clear -Hk. induction l as [|x l IHl]; simpl; [reflexivity|].
    destruct (expiry x =? e)%Z eqn:Ee; simpl.
    - apply Z.eqb_eq in Ee.
      destruct (expiry x =? k)%Z eqn:Ek; [|exact IHl].
      apply Z.eqb_eq in Ek. congruence.
    - destruct (expiry x =? k)%Z; [f_equal|]; exact IHl. }
  rewrite Hrest.
  specialize (IH Hnd' (filter (fun r => negb (expiry r =? e)%Z) l)).
  pose proof (filter_split_length (fun r => (expiry r =? e)%Z) l). lia.
Qed.

Lemma bps_emit_at_most_one symbol p mn mx group short_row :
  (length (bps_emit symbol p mn mx group short_row) <= 1)%nat.
Proof.
  unfold bps_emit. destruct (_ || _); [simpl; lia|].
  destruct (find _ group) as [l|]; [|simpl; lia].
  destruct (bps_accepts short_row l); simpl; lia.
Qed.

Lemma csp_outcome_length symbol price rows :
  (length (csp_outcome symbol price (Some rows)) <= length rows)%nat.
Proof.
  unfold csp_outcome. destruct price as [p|]; [|simpl; lia].
  destruct (Qeq_bool p 0); [simpl; lia|].
  rewrite length_map.
  eapply Nat.le_trans; [apply filter_length_le'|apply filter_length_le'].
Qed.

Lemma bps_outcome_length symbol price rows :
  (length (bps_outcome symbol price (Some rows)) <= length rows)%nat.
Proof.
  unfold bps_outcome. destruct price as [p|]; [|simpl; lia].
  destruct (Qeq_bool p 0); [simpl; lia|]. cbv zeta.
  set (chain' := filter _ rows).
  eapply Nat.le_trans;
    [|apply (filter_length_le' (bps_filter (fst (strike_window p))
                                           (snd (strike_window p))) rows)].
  fold chain'.
  eapply Nat.le_trans;
    [|apply (groups_length_le _ (unique_NoDup (map expiry chain')))].
  apply flat_map_length_bound. intro e.
  eapply Nat.le_trans;
    [apply flat_map_at_most_one; intro x; apply bps_emit_at_most_one|].
  unfold expiry_group.
  rewrite <- (Permutation_length (sort_desc_perm strike _)). lia.
Qed.

(** X12. A screener never returns more candidates than the fetched chain
    has rows: [screen_csp] gives at most one candidate per row, and
    [screen_bull_put_spread] at most one spread per row taken as short
    leg, over all expiries together. *)
Theorem X12_candidate_counts (env : Env) (symbol : string) (w : World) :
  let rows := fun chain : option (list put_row) =>
    match chain with Some r => length r | None => 0%nat end in
  exists chain cs bs,
    fst (get_options_chain env symbol (EvHistory symbol :: w)) = Ok chain /\
    fst (screen_csp env symbol w) = Ok cs /\
    fst (screen_bull_put_spread env symbol w) = Ok bs /\
    (length cs <= rows chain)%nat /\ (length bs <= rows chain)%nat.
Proof.
  intro rows.
  destruct (screen_csp_outcome env symbol w) as [price [chain [_ [Ec E1]]]].
  destruct (screen_bull_put_spread_outcome env symbol w)
    as [price' [chain' [_ [Ec' E2]]]].
  rewrite Ec in Ec'. injection Ec' as <-.
  exists chain, (csp_outcome symbol price chain),
         (bps_outcome symbol price' chain).
  split; [exact Ec|]. split; [exact E1|]. split; [exact E2|].
  destruct chain as [r|].
  - split; [apply csp_outcome_length | apply bps_outcome_length].
  - destruct price, price'; simpl; split; lia.
Qed.

(** ** The report *)

Lemma py_len_nonzero {A} (x : A) (l : list A) : ~ py_len (x :: l) == 0.
Proof.
  unfold py_len, inject_Z, Qeq. cbn [Qnum Qden length]. lia.
Qed.

Lemma shown_csp_app a b : shown_csp (a ++ b) = shown_csp a ++ shown_csp b.
Proof. apply flat_map_app. Qed.

Lemma shown_bps_app a b : shown_bps (a ++ b) = shown_bps a ++ shown_bps b.
Proof. apply flat_map_app. Qed.

Lemma shown_averages_app a b :
  shown_averages (a ++ b) = shown_averages a ++ shown_averages b.
Proof. apply filter_app. Qed.

Lemma shown_csp_entries l :
  shown_csp (map (fun it => CspEntry (fst it) (snd it)) l) = l /\
  shown_bps (map (fun it => CspEntry (fst it) (snd it)) l) = [] /\
  shown_averages (map (fun it => CspEntry (fst it) (snd it)) l) = [].
Proof.
  induction l as [|[i t] l [IH1 [IH2 IH3]]]; [repeat split|].
  unfold shown_csp, shown_bps, shown_averages in *. simpl.
  rewrite IH1. repeat split; assumption.
Qed.

Lemma shown_bps_entries l :
  shown_bps (map (fun it => BpsEntry (fst it) (snd it)) l) = l /\
  shown_csp (map (fun it => BpsEntry (fst it) (snd it)) l) = [] /\
  shown_averages (map (fun it => BpsEntry (fst it) (snd it)) l) = [].
Proof.
  induction l as [|[i t] l [IH1 [IH2 IH3]]]; [repeat split|].
  unfold shown_csp, shown_bps, shown_averages in *. simpl.
  rewrite IH1. repeat split; assumption.
Qed.

Lemma display_results_run (res : results) :
  exists out,
    display_results res = Ok out /\
    shown_csp out = enumerate 1 (firstn 15 (CSP res)) /\
    shown_bps out = enumerate 1 (firstn 15 (BPS res)) /\
    shown_averages out =
    map AverageCsp (average_of (map Csp.return_on_risk (CSP res))) ++
    map AverageBps (average_of (map Bps.return_on_risk (BPS res))).
Proof.
  unfold display_results.
  destruct res as [[|c cs] [|b bs]]; cbn [CSP BPS];
    rewrite ?py_div_nonzero by apply py_len_nonzero; cbn [rbind];
    (eexists; split; [reflexivity|]);
    try (destruct (shown_csp_entries (enumerate 1 (firstn 15 (c :: cs))))
          as [H1 [H2 H3]]);
    try (destruct (shown_bps_entries (enumerate 1 (firstn 15 (b :: bs))))
          as [H4 [H5 H6]]);
    rewrite !shown_csp_app, !shown_bps_app, !shown_averages_app,
      ?H1, ?H2, ?H3, ?H4, ?H5, ?H6;
    unfold shown_csp, shown_bps, shown_averages, average_of, py_len;
    cbn [flat_map filter app map length];
    rewrite ?length_map, ?app_nil_r; repeat split; reflexivity.
Qed.

Lemma enumerate_fst {A} (l : list A) : forall start,
  map fst (enumerate start l) = seq start (length l).
Proof.
  induction l as [|x l IH]; intro start; simpl; [reflexivity|].
  now rewrite IH.
Qed.

Lemma enumerate_snd {A} (l : list A) : forall start,
  map snd (enumerate start l) = l.
Proof.
  induction l as [|x l IH]; intro start; simpl; [reflexivity|].
  now rewrite IH.
Qed.

(** X14. [display_results] never raises, whatever the results.  For each
    strategy it shows the first 15 candidates of the list (all of them when
    there are fewer), in the order of the list and numbered from 1, and
    prints one average return on risk, the sum divided by the count, exactly
    when the list is not empty. *)
Theorem X14_display_results (res : results) :
  exists out,
    display_results res = Ok out /\
    (map snd (shown_csp out) = firstn 15 (CSP res) /\
     map fst (shown_csp out) = seq 1 (Nat.min 15 (length (CSP res)))) /\
    (map snd (shown_bps out) = firstn 15 (BPS res) /\
     map fst (shown_bps out) = seq 1 (Nat.min 15 (length (BPS res)))) /\
    shown_averages out =
    map AverageCsp (average_of (map Csp.return_on_risk (CSP res))) ++
    map AverageBps (average_of (map Bps.return_on_risk (BPS res))).
Proof.
  destruct (display_results_run res) as [out [E [Hc [Hb Ha]]]].
  exists out. split; [exact E|]. rewrite Hc, Hb.
  rewrite !enumerate_fst, !enumerate_snd, !length_firstn.
  repeat split. exact Ha.
Qed.

(** ** The report of a scan *)

Lemma sorted_prefix_dominates {A} (R : A -> A -> Prop) (l1 l2 : list A) :
  StronglySorted R (l1 ++ l2) ->
  forall x y, In x l1 -> In y l2 -> R x y.
Proof.
  induction l1 as [|a l1 IH]; intros Hs x y Hx Hy; [contradiction|].
  simpl in Hs. inversion Hs as [|? ? Hs' Hall]; subst.
  destruct Hx as [->|Hx].
  - rewrite Forall_forall in Hall. apply Hall, in_or_app. now right.
  - now apply IH.
Qed.

Lemma py_len_cons {A} (x : A) (l : list A) : py_len (x :: l) == py_len l + 1.
Proof.
  unfold py_len. cbn [length]. rewrite Nat2Z.inj_succ.
  unfold Z.succ. rewrite inject_Z_plus. reflexivity.
Qed.

Lemma py_len_nil {A} : py_len (@nil A) = 0.
Proof. reflexivity. Qed.

Lemma py_len_nonneg {A} (l : list A) : 0 <= py_len l.
Proof.
  unfold py_len, Qle, inject_Z. cbn [Qnum Qden]. lia.
Qed.

Lemma fold_sum_ge (lo : Q) (l : list Q) : forall a,
  Forall (fun x => lo <= x) l ->
  a + lo * py_len l <= fold_left Qplus l a.
Proof.
  induction l as [|x l IH]; intros a H.
  - simpl. rewrite py_len_nil. lra.
  - inversion H as [|? ? Hx Hl]; subst. cbn [fold_left].
    specialize (IH (a + x) Hl). rewrite py_len_cons. lra.
Qed.

Lemma fold_sum_lt (hi : Q) (l : list Q) : forall a,
  Forall (fun x => x < hi) l -> l <> [] ->
  fold_left Qplus l a < a + hi * py_len l.
Proof.
  induction l as [|x l IH]; intros a H Hne; [congruence|].
  inversion H as [|? ? Hx Hl]; subst. cbn [fold_left].
  rewrite py_len_cons. destruct l as [|y l'].
  - simpl. rewrite py_len_nil. lra.
  - specialize (IH (a + x) Hl ltac:(discriminate)). lra.
Qed.

Lemma average_ge (lo : Q) (l : list Q) :
  Forall (fun x => lo <= x) l ->
  Forall (fun avg => lo <= avg) (average_of l).
Proof.
  intro H. destruct l as [|x l]; [constructor|].
  constructor; [|constructor].
  assert (Hn : 0 < py_len (x :: l)).
  { pose proof (py_len_nonneg l). rewrite py_len_cons. lra. }
  apply Qle_shift_div_l; [exact Hn|].
  pose proof (fold_sum_ge lo (x :: l) 0 H) as Hs. unfold py_sum. lra.
Qed.

Lemma average_lt (hi : Q) (l : list Q) :
  Forall (fun x => x < hi) l ->
  Forall (fun avg => avg < hi) (average_of l).
Proof.
  intro H. destruct l as [|x l]; [constructor|].
  constructor; [|constructor].
  assert (Hn : 0 < py_len (x :: l)).
  { pose proof (py_len_nonneg l). rewrite py_len_cons. lra. }
  apply Qlt_shift_div_r; [exact Hn|].
  pose proof (fold_sum_lt hi (x :: l) 0 H ltac:(discriminate)) as Hs.
  unfold py_sum. lra.
Qed.

Lemma bps_pair_return_range (p : Q) (s l : put_row) :
  bps_pair_ok p s l ->
  MIN_RETURN_ON_RISK <= net_credit_of s l / actual_width_of s l * 100 /\
  net_credit_of s l / actual_width_of s l * 100 < 100.
Proof.
  intros [_ [_ [_ [_ [Hlw [Hacc _]]]]]].
  unfold bps_accepts in Hacc. apply andb_true_iff in Hacc.
  destruct Hacc as [Hrej Hror]. apply negb_true_iff in Hrej.
  apply Qleb_le in Hror.
  destruct (rejects_false _ _ Hrej) as [_ Hnc].
  destruct (rejects_false_width _ _ Hrej) as [Hlt _].
  apply long_window_spec in Hlw. destruct Hlw as [Hl1 Hl2].
  assert (Hwidth : (45 # 10) <= actual_width_of s l <= (55 # 10)).
  { unfold actual_width_of, SPREAD_WIDTH in *. split; qlra. }
  destruct (spread_numbers _ _ Hnc Hlt Hwidth Hror) as [H100 _].
  split; assumption.
Qed.

Lemma Forall_filter_rest {A} (P : A -> Prop) (f : A -> bool) (l : list A) :
  (forall x, f x = false -> P x) -> Forall P (filter f l) -> Forall P l.
Proof.
  intros Hrest H. apply Forall_forall. intros x Hx.
  destruct (f x) eqn:E; [|now apply Hrest].
  rewrite Forall_forall in H. apply H, filter_In. now split.
Qed.

Lemma final_lists_sorted (env : Env) tickers w :
  StronglySorted (key_ge Csp.annualized_return)
                 (CSP (fst (screen_all_stocks env tickers w))) /\
  StronglySorted (key_ge Bps.annualized_return)
                 (BPS (fst (screen_all_stocks env tickers w))).
Proof.
  rewrite screen_all_stocks_rank. unfold rank. cbn [CSP BPS].
  split; apply sort_desc_sorted.
Qed.

(** X15. The report of a scan never raises.  Every trade it shows has an
    annualized return at least as high as every candidate of the same
    strategy that it leaves out; the average return on risk it prints for
    CSP is at least [MIN_RETURN_ON_RISK], and the one for BPS is at least
    [MIN_RETURN_ON_RISK] and below 100. *)
Theorem X15_report_of_scan (env : Env) (tickers : list string) (w : World) :
  let res := fst (screen_all_stocks env tickers w) in
  exists out,
    display_results res = Ok out /\
    Forall (fun it =>
              Forall (fun left_out => Csp.annualized_return left_out
                                      <= Csp.annualized_return (snd it))
                     (skipn 15 (CSP res)))
           (shown_csp out) /\
    Forall (fun it =>
              Forall (fun left_out => Bps.annualized_return left_out
                                      <= Bps.annualized_return (snd it))
                     (skipn 15 (BPS res)))
           (shown_bps out) /\
    Forall (fun l => match l with
                     | AverageCsp avg => MIN_RETURN_ON_RISK <= avg
                     | AverageBps avg =>
                         MIN_RETURN_ON_RISK <= avg /\ avg < 100
                     | _ => True
                     end) out.
Proof.
  intro res.
  destruct (display_results_run res) as [out [E [Hc [Hb Ha]]]].
  exists out. split; [exact E|].
  pose proof (proj1 (final_lists_sorted env tickers w)) as Hsc.
  pose proof (proj2 (final_lists_sorted env tickers w)) as Hsb.
  fold res in Hsc, Hsb. split; [|split].
  - apply Forall_forall. intros [i t] Hin. apply Forall_forall.
    intros t' Ht'. cbn [snd].
    assert (Ht : In t (firstn 15 (CSP res))).
    { rewrite <- (enumerate_snd (firstn 15 (CSP res)) 1), <- Hc.
      apply in_map_iff. now exists (i, t). }
    rewrite <- (firstn_skipn 15 (CSP res)) in Hsc.
    exact (sorted_prefix_dominates _ _ _ Hsc t t' Ht Ht').
  - apply Forall_forall. intros [i t] Hin. apply Forall_forall.
    intros t' Ht'. cbn [snd].
    assert (Ht : In t (firstn 15 (BPS res))).
    { rewrite <- (enumerate_snd (firstn 15 (BPS res)) 1), <- Hb.
      apply in_map_iff. now exists (i, t). }
    rewrite <- (firstn_skipn 15 (BPS res)) in Hsb.
    exact (sorted_prefix_dominates _ _ _ Hsb t t' Ht Ht').
  - apply Forall_filter_rest
      with (f := fun l => match l with
                          | AverageCsp _ => true
                          | AverageBps _ => true
                          | _ => false
                          end).
    { intros [] H; trivial; discriminate. }
    fold (shown_averages out). rewrite Ha.
    apply Forall_app. split.
    + apply Forall_map. apply average_ge. apply Forall_map.
      eapply Forall_impl; [|apply (final_CSP_emitted env tickers w)].
      intros c [s [w0 [_ Hc0]]]. apply Hc0.
    + apply Forall_map.
      assert (Hr : Forall (fun x => MIN_RETURN_ON_RISK <= x /\ x < 100)
                          (map Bps.return_on_risk (BPS res))).
      { apply Forall_map.
        apply (proj2 (bps_everywhere env
                 (fun c => MIN_RETURN_ON_RISK <= Bps.return_on_risk c /\
                           Bps.return_on_risk c < 100)
                 (fun symbol p s l Hok => bps_pair_return_range p s l Hok))). }
      assert (H1 : Forall (fun avg => MIN_RETURN_ON_RISK <= avg)
                          (average_of (map Bps.return_on_risk (BPS res))))
        by (apply average_ge; eapply Forall_impl; [|exact Hr];
            intros a [? ?]; assumption).
      assert (H2 : Forall (fun avg => avg < 100)
                          (average_of (map Bps.return_on_risk (BPS res))))
        by (apply average_lt; eapply Forall_impl; [|exact Hr];
            intros a [? ?]; assumption).
      rewrite Forall_forall in *. intros avg Havg. split; auto.
Qed.

(** ** The intraday bracket order script *)

Lemma bracket_lowest_volume (best : Bracket.bar) (rest : list Bracket.bar) :
  let m := Bracket.lowest_volume best rest in
  (forall b, In b (best :: rest) -> Bracket.bar_volume m <= Bracket.bar_volume b)
  /\
  exists pre post,
    best :: rest = pre ++ m :: post /\
    forall b, In b pre -> Bracket.bar_volume m < Bracket.bar_volume b.
Proof.
  revert best. induction rest as [|x rest IH]; intro best; cbn zeta.
  - simpl. split.
    + intros b [<-|[]]. apply Qle_refl.
    + exists [], []. split; [reflexivity|]. intros b [].
  - simpl Bracket.lowest_volume.
    destruct (Bracket.bar_volume x <? Bracket.bar_volume best) eqn:E.
    + apply Qltb_lt in E. destruct (IH x) as [Hmin [pre [post [Hd Hpre]]]].
      cbn zeta in *. split.
      * intros b [<-|Hb]; [|now apply Hmin].
        apply Qlt_le_weak. eapply Qle_lt_trans; [|exact E].
        apply Hmin. now left.
      * exists (best :: pre), post. split; [now rewrite Hd|].
        intros b [<-|Hb]; [|now apply Hpre].
        eapply Qle_lt_trans; [|exact E]. apply Hmin. now left.
    + apply Qltb_ge in E. destruct (IH best) as [Hmin [pre [post [Hd Hpre]]]].
      cbn zeta in *. split.
      * intros b [<-|[<-|Hb]].
        -- apply Hmin. now left.
        -- eapply Qle_trans; [|exact E]. apply Hmin. now left.
        -- apply Hmin. now right.
      * destruct pre as [|p0 pre'].
        -- simpl in Hd. injection Hd as Hm Hrest.
           exists [], (x :: rest). split; [simpl; now rewrite <- Hm|].
           intros b [].
        -- simpl in Hd. injection Hd as Hp Hrest. subst p0.
           exists (best :: x :: pre'), post. split.
           ++ simpl. do 2 f_equal. exact Hrest.
           ++ intros b [<-|[<-|Hb]].
              ** apply Hpre. now left.
              ** eapply Qlt_le_trans; [|exact E]. apply Hpre. now left.
              ** apply Hpre. now right.
Qed.

(** What the script reads from its two inputs when it places an order. *)
Lemma bracket_script_placed yesterday_data intraday_bars act q limit tp sl :
  Bracket.script yesterday_data intraday_bars
  = inr (Bracket.Placed act q limit tp sl) ->
  exists prev_day wanted c cs,
    Bracket.iloc_second_last yesterday_data = inr prev_day /\
    (wanted, act) =
    match Bracket.market_bias_of prev_day with
    | Bracket.down => (Bracket.green, Bracket.BUY)
    | Bracket.up => (Bracket.red, Bracket.SELL)
    end /\
    filter (Bracket.is_color wanted) (skipn 3 intraday_bars) = c :: cs /\
    q = 10%Z /\
    (limit, sl, tp) =
    Bracket.prices act (Bracket.bar_low (Bracket.lowest_volume c cs))
                   (Bracket.bar_high (Bracket.lowest_volume c cs)).
Proof.
  unfold Bracket.script, Bracket.df. intro H.
  destruct yesterday_data as [|y ys]; [discriminate|].
  destruct (Bracket.iloc_second_last (y :: ys)) as [e|prev_day] eqn:Hprev;
    [discriminate|].
  destruct intraday_bars as [|b bs]; [discriminate|].
  destruct (Bracket.market_bias_of prev_day) eqn:Hbias;
    cbv zeta iota beta in H;
    match type of H with
    | context [filter ?f ?l] =>
        destruct (filter f l) as [|c cs] eqn:Hsig; [discriminate|]
    end;
    injection H as <- <- <- <- <-;
    eexists prev_day, _, c, cs;
    (split; [reflexivity|]); rewrite Hbias;
    (split; [reflexivity|]);
    (split; [exact Hsig|]); split; reflexivity.
Qed.

(** X17. When the script places a bracket order the quantity is 10, the
    limit price is the low and the stop-loss price the high of the signal
    candle, and the take-profit price is what lines 68-75 compute from the
    two: [entry + 2 * (entry - stop)] for a BUY and
    [entry - 2 * (stop - entry)] for a SELL.  So for a candle with
    [low <= high] the take-profit is at or below the limit price, for a BUY
    as for a SELL, and the stop-loss at or above it. *)
Theorem X17_bracket_prices yesterday_data intraday_bars act q limit tp sl :
  Bracket.script yesterday_data intraday_bars
  = inr (Bracket.Placed act q limit tp sl) ->
  q = 10%Z /\
  tp = match act with
       | Bracket.BUY => limit + 2 * (limit - sl)
       | Bracket.SELL => limit - 2 * (sl - limit)
       end /\
  exists candle,
    In candle (skipn 3 intraday_bars) /\
    limit = Bracket.bar_low candle /\ sl = Bracket.bar_high candle /\
    (Bracket.bar_low candle <= Bracket.bar_high candle ->
     tp <= limit /\ limit <= sl).
Proof.
  intro H.
  destruct (bracket_script_placed _ _ _ _ _ _ _ H)
    as [prev [wanted [c [cs [_ [_ [Hsig [Hq Hp]]]]]]]].
  assert (Hprices : limit = Bracket.bar_low (Bracket.lowest_volume c cs) /\
                    sl = Bracket.bar_high (Bracket.lowest_volume c cs) /\
                    tp = match act with
                         | Bracket.BUY => limit + 2 * (limit - sl)
                         | Bracket.SELL => limit - 2 * (sl - limit)
                         end).
  { destruct act; unfold Bracket.prices in Hp; injection Hp as -> -> ->;
      repeat split. }
  destruct Hprices as [Hl [Hs Ht]].
  split; [exact Hq|]. split; [exact Ht|].
  exists (Bracket.lowest_volume c cs).
  split; [|split; [exact Hl|split; [exact Hs|]]].
  - destruct (bracket_lowest_volume c cs) as [_ [pre [post [Hd _]]]].
    cbn zeta in Hd.
    assert (Hin : In (Bracket.lowest_volume c cs) (c :: cs))
      by (rewrite Hd; apply in_or_app; right; now left).
    rewrite <- Hsig in Hin. apply filter_In in Hin. apply Hin.
  - rewrite <- Hl, <- Hs. intro Hle. split; [|exact Hle].
    rewrite Ht. destruct act; lra.
Qed.

Lemma bracket_color_spec (c : Bracket.color) (x : Bracket.bar) :
  Bracket.is_color c x = true ->
  match c with
  | Bracket.green => Bracket.bar_open x < Bracket.bar_close x
  | Bracket.red => Bracket.bar_close x <= Bracket.bar_open x
  end.
Proof.
  unfold Bracket.is_color, Bracket.color_of.
  destruct (Bracket.bar_open x <? Bracket.bar_close x) eqn:E;
    destruct c; try discriminate; intros _.
  - now apply Qltb_lt.
  - now apply Qltb_ge.
Qed.

(** X18. When the script places an order, the direction follows the bar
    before the last of the daily history: SELL when it closed above its
    open, BUY otherwise.  The signal candle is taken among the intraday
    bars after the first three whose colour is green (close above open) for
    a BUY and red for a SELL; it has the least volume among them and is the
    first of them with that volume; its low is the limit price and its high
    the stop-loss price. *)
Theorem X18_bracket_signal yesterday_data intraday_bars act q limit tp sl :
  Bracket.script yesterday_data intraday_bars
  = inr (Bracket.Placed act q limit tp sl) ->
  (exists prev_day,
      Bracket.iloc_second_last yesterday_data = inr prev_day /\
      match act with
      | Bracket.SELL => Bracket.bar_open prev_day < Bracket.bar_close prev_day
      | Bracket.BUY => Bracket.bar_close prev_day <= Bracket.bar_open prev_day
      end) /\
  exists candle pre post,
    filter (Bracket.is_color (wanted_color act)) (skipn 3 intraday_bars)
    = pre ++ candle :: post /\
    (forall b, In b pre ->
               Bracket.bar_volume candle < Bracket.bar_volume b) /\
    (forall b, In b post ->
               Bracket.bar_volume candle <= Bracket.bar_volume b) /\
    match act with
    | Bracket.BUY => Bracket.bar_open candle < Bracket.bar_close candle
    | Bracket.SELL => Bracket.bar_close candle <= Bracket.bar_open candle
    end /\
    limit = Bracket.bar_low candle /\ sl = Bracket.bar_high candle.
Proof.
  intro H.
  destruct (bracket_script_placed _ _ _ _ _ _ _ H)
    as [prev [wanted [c [cs [Hprev [Hdir [Hsig [_ Hp]]]]]]]].
  assert (Hw : wanted = wanted_color act /\
               match act with
               | Bracket.SELL =>
                   Bracket.bar_open prev < Bracket.bar_close prev
               | Bracket.BUY =>
                   Bracket.bar_close prev <= Bracket.bar_open prev
               end).
  { unfold Bracket.market_bias_of in Hdir.
    destruct (Bracket.bar_open prev <? Bracket.bar_close prev) eqn:E;
      injection Hdir as -> ->; split; try reflexivity.
    - now apply Qltb_lt.
    - now apply Qltb_ge. }
  destruct Hw as [-> Hbias]. split; [exists prev; now split|].
  destruct (bracket_lowest_volume c cs) as [Hmin [pre [post [Hd Hpre]]]].
  cbn zeta in *. set (m := Bracket.lowest_volume c cs) in *.
  exists m, pre, post. rewrite Hsig.
  split; [exact Hd|]. split; [exact Hpre|]. split.
  - intros b Hb. apply Hmin. rewrite Hd. apply in_or_app. right. now right.
  - assert (Hin : In m (c :: cs))
      by (rewrite Hd; apply in_or_app; right; now left).
    rewrite <- Hsig in Hin. apply filter_In in Hin.
    destruct Hin as [_ Hcol]. apply bracket_color_spec in Hcol.
    split; [destruct act; exact Hcol|].
    destruct act; unfold Bracket.prices in Hp; injection Hp as -> -> _;
      split; reflexivity.
Qed.

Lemma bracket_second_last (b1 b2 : Bracket.bar) (bs : list Bracket.bar) :
  exists prev_day,
    Bracket.iloc_second_last (b1 :: b2 :: bs) = inr prev_day.
Proof.
  unfold Bracket.iloc_second_last.
  destruct (rev (b1 :: b2 :: bs)) as [|x [|y l]] eqn:E; eauto;
    apply (f_equal (@length _)) in E; rewrite length_rev in E;
    simpl in E; lia.
Qed.

(** X19. The script fails with [AttributeError] when the daily history is
    empty, with [IndexError] when it has a single bar, and with
    [AttributeError] when the intraday history is empty; in every other
    case it ends without failing, and with at most three intraday bars it
    places no order. *)
Theorem X19_bracket_failures :
  (forall intraday, Bracket.script [] intraday = inl Bracket.AttributeError) /\
  (forall b intraday,
      Bracket.script [b] intraday = inl Bracket.IndexError) /\
  (forall b1 b2 bs,
      Bracket.script (b1 :: b2 :: bs) [] = inl Bracket.AttributeError) /\
  (forall b1 b2 bs c cs, exists o,
      Bracket.script (b1 :: b2 :: bs) (c :: cs) = inr o /\
      ((length (c :: cs) <= 3)%nat -> o = Bracket.NoSignal)).
Proof.
  split; [reflexivity|]. split; [reflexivity|]. split.
  - intros b1 b2 bs. unfold Bracket.script. cbn [Bracket.df].
    destruct (bracket_second_last b1 b2 bs) as [prev E]. now rewrite E.
  - intros b1 b2 bs c cs. unfold Bracket.script. cbn [Bracket.df].
    destruct (bracket_second_last b1 b2 bs) as [prev E]. rewrite E.
    destruct (Bracket.market_bias_of prev); cbv zeta iota beta;
      match goal with
      | |- context [filter ?f ?l] =>
          destruct (filter f l) as [|x xs] eqn:Hsig
      end;
      eexists; (split; [reflexivity|]); intro Hlen; try reflexivity;
      exfalso;
      assert (Hnil : skipn 3 (c :: cs) = [])
        by (apply skipn_all2; exact Hlen);
      rewrite Hnil in Hsig; discriminate.
Qed.

(** ** The checklist: volatility and decision *)

Lemma checklist_actions_distinct :
  Checklist.WAIT_VIX <> Checklist.CAUTION_NEWS /\
  Checklist.WAIT_VIX <> Checklist.WAIT_SELLOFF /\
  Checklist.WAIT_VIX <> Checklist.ENTER_TRADE /\
  Checklist.CAUTION_NEWS <> Checklist.WAIT_SELLOFF /\
  Checklist.CAUTION_NEWS <> Checklist.ENTER_TRADE /\
  Checklist.WAIT_SELLOFF <> Checklist.ENTER_TRADE.
Proof. repeat split; apply String.eqb_neq; reflexivity. Qed.

(** The level that [check_vix] gives to a value. *)
Lemma check_vix_level (c : Q) (cs : list Q) :
  let v := last (c :: cs) 0 in
  Checklist.level (Checklist.check_vix (Ok (c :: cs))) =
  Some (if v <? 15 then "LOW (Complacent)"%string
        else if v <? 20 then "NORMAL"%string
        else if v <? 30 then "ELEVATED"%string
        else "HIGH (Fear)"%string) /\
  Checklist.current (Checklist.check_vix (Ok (c :: cs))) = Some v.
Proof.
  cbn zeta. unfold Checklist.check_vix.
  destruct (last (c :: cs) 0 <? 15); [split; reflexivity|].
  destruct (last (c :: cs) 0 <? 20); [split; reflexivity|].
  destruct (last (c :: cs) 0 <? 30); split; reflexivity.
Qed.

(** X20. [check_vix] never raises.  On a non-empty history the current value
    is the last close and the level is LOW below 15, NORMAL from 15 to below
    20, ELEVATED from 20 to below 30 and HIGH from 30 on; the previous value
    is the close before the last, or the last one itself when the history has
    a single row, and [rising] tells whether the current value is above it.
    When the request raises or the history is empty the dict holds a current
    value of 0 and the level UNKNOWN, and has no [previous] and no [rising]. *)
Theorem X20_check_vix (hist : result (list Q)) :
  let d := Checklist.check_vix hist in
  match hist with
  | Ok (c :: cs) =>
      let v := last (c :: cs) 0 in
      Checklist.current d = Some v /\
      (Checklist.level d = Some "LOW (Complacent)"%string <-> v < 15) /\
      (Checklist.level d = Some "NORMAL"%string <-> 15 <= v /\ v < 20) /\
      (Checklist.level d = Some "ELEVATED"%string <-> 20 <= v /\ v < 30) /\
      (Checklist.level d = Some "HIGH (Fear)"%string <-> 30 <= v) /\
      (exists pv,
          Checklist.previous d = Some pv /\
          pv = match cs with
               | [] => v
               | _ :: _ => nth (length cs - 1) (c :: cs) 0
               end /\
          Checklist.rising d = Some (pv <? v))
  | _ =>
      d = Checklist.mk_vix_data (Some 0) None (Some "UNKNOWN"%string)
            (Some "Unable to fetch VIX data"%string) None
  end.
Proof.
  cbn zeta. destruct hist as [[|c cs]|e]; try reflexivity.
  destruct (check_vix_level c cs) as [Hl Hc]. cbn zeta in Hl.
  split; [exact Hc|]. rewrite Hl.
  set (v := last (c :: cs) 0).
  destruct (v <? 15) eqn:E15;
    [apply Qltb_lt in E15 | apply Qltb_ge in E15];
    (destruct (v <? 20) eqn:E20;
     [apply Qltb_lt in E20 | apply Qltb_ge in E20]);
    (destruct (v <? 30) eqn:E30;
     [apply Qltb_lt in E30 | apply Qltb_ge in E30]);
    (split; [split; [intro H; try discriminate H; lra
                    | intro H; try reflexivity; exfalso; lra]|]);
    (split; [split; [intro H; try discriminate H; split; lra
                    | intros [? ?]; try reflexivity; exfalso; lra]|]);
    (split; [split; [intro H; try discriminate H; split; lra
                    | intros [? ?]; try reflexivity; exfalso; lra]|]);
    (split; [split; [intro H; try discriminate H; lra
                    | intro H; try reflexivity; exfalso; lra]|]);
    (unfold Checklist.check_vix; fold v;
     destruct (v <? 15), (v <? 20), (v <? 30);
     destruct cs as [|c2 cs'];
     eexists; (split; [reflexivity|]); split; try reflexivity;
     cbn [length Nat.ltb Nat.leb]; rewrite ?Nat.sub_0_r; reflexivity).
Qed.

(** The action of the decision, read as a cascade of three tests. *)
Lemma decision_action {C} market_data vix (negative_catalysts : list C) :
  Checklist.action
    (Checklist.generate_trading_decision market_data vix negative_catalysts)
  = if 25 <? vix_level_of vix then Checklist.WAIT_VIX
    else if (5 <? length negative_catalysts)%nat then Checklist.CAUTION_NEWS
    else if sp500_trend_of market_data <? -(15 # 10)
         then Checklist.WAIT_SELLOFF
         else Checklist.ENTER_TRADE.
Proof.
  unfold Checklist.generate_trading_decision.
  fold (vix_level_of vix). fold (sp500_trend_of market_data).
  destruct (25 <? vix_level_of vix); [reflexivity|].
  destruct (5 <? length negative_catalysts)%nat; [reflexivity|].
  destruct (sp500_trend_of market_data <? -(15 # 10)); reflexivity.
Qed.

(** One line of the decision table: the action is a known text, and the
    condition follows from, or contradicts, the three tests. *)
Ltac action_iff :=
  let Hact := fresh "Hact" in
  split;
  [ intro Hact;
    try (exfalso; revert Hact; apply String.eqb_neq; reflexivity);
    repeat split; first [assumption | lra | lia]
  | intro Hact; try reflexivity; exfalso;
    repeat match goal with Hc : _ /\ _ |- _ => destruct Hc end;
    first [lra | lia] ].

(** X21. [generate_trading_decision] says WAIT for volatility exactly when
    the VIX read from the dict (20 when the dict has no current value) is
    above 25; otherwise CAUTION exactly when there are more than 5 negative
    catalysts; otherwise WAIT for the sell-off exactly when the S&P 500
    change (0 when the overview has none) is below -1.5; and ENTER TRADE
    exactly when none of the three holds. *)
Theorem X21_trading_decision {C}
  (market_data : list (string * Checklist.index_data))
  (vix : Checklist.vix_data) (negative_catalysts : list C) :
  let d := Checklist.generate_trading_decision market_data vix
                                               negative_catalysts in
  let v := vix_level_of vix in
  let n := length negative_catalysts in
  let t := sp500_trend_of market_data in
  (Checklist.action d = Checklist.WAIT_VIX <-> 25 < v) /\
  (Checklist.action d = Checklist.CAUTION_NEWS <-> v <= 25 /\ (5 < n)%nat) /\
  (Checklist.action d = Checklist.WAIT_SELLOFF <->
   v <= 25 /\ (n <= 5)%nat /\ t < -(15 # 10)) /\
  (Checklist.action d = Checklist.ENTER_TRADE <->
   v <= 25 /\ (n <= 5)%nat /\ -(15 # 10) <= t) /\
  Checklist.news_check d = n.
Proof.
  cbn zeta. rewrite decision_action.
  assert (Hn : Checklist.news_check
                 (Checklist.generate_trading_decision market_data vix
                                                      negative_catalysts)
               = length negative_catalysts).
  { unfold Checklist.generate_trading_decision.
    destruct (25 <? _); [reflexivity|].
    destruct (5 <? _)%nat; [reflexivity|].
    destruct (_ <? -(15 # 10)); reflexivity. }
  destruct (25 <? vix_level_of vix) eqn:Ev;
    [apply Qltb_lt in Ev | apply Qltb_ge in Ev];
    (destruct (5 <? length negative_catalysts)%nat eqn:En;
     [apply Nat.ltb_lt in En | apply Nat.ltb_ge in En]);
    (destruct (sp500_trend_of market_data <? -(15 # 10)) eqn:Et;
     [apply Qltb_lt in Et | apply Qltb_ge in Et]);
    (repeat (split; [action_iff|])); exact Hn.
Qed.

Lemma check_vix_unavailable (hist : result (list Q)) :
  vix_unavailable hist ->
  Checklist.check_vix hist =
  Checklist.mk_vix_data (Some 0) None (Some "UNKNOWN"%string)
    (Some "Unable to fetch VIX data"%string) None.
Proof. destruct hist as [[|c cs]|e]; [reflexivity|contradiction|reflexivity]. Qed.

Lemma check_vix_level_value (hist : result (list Q)) (name : string) :
  Checklist.level (Checklist.check_vix hist) = Some name ->
  name <> "UNKNOWN"%string ->
  exists v,
    vix_level_of (Checklist.check_vix hist) = v /\
    name = (if v <? 15 then "LOW (Complacent)"%string
            else if v <? 20 then "NORMAL"%string
            else if v <? 30 then "ELEVATED"%string
            else "HIGH (Fear)"%string).
Proof.
  intros Hl Hne. destruct hist as [[|c cs]|e];
    try (cbn in Hl; injection Hl as <-; congruence).
  destruct (check_vix_level c cs) as [Hlevel Hcur]. cbn zeta in *.
  exists (last (c :: cs) 0). unfold vix_level_of. rewrite Hcur.
  split; [reflexivity|]. rewrite Hlevel in Hl. now injection Hl.
Qed.

(** X22. On the dict that [check_vix] returns, [generate_trading_decision]
    never falls back on its default of 20.  When the VIX could not be
    fetched it takes the volatility to be 0: it never says WAIT for
    volatility, and says ENTER TRADE when there are at most 5 negative
    catalysts and the S&P 500 change is not below -1.5.  A level HIGH always
    gives WAIT for volatility, and a level LOW or NORMAL never does. *)
Theorem X22_decision_on_check_vix {C}
  (market_data : list (string * Checklist.index_data))
  (hist : result (list Q)) (negative_catalysts : list C) :
  let vix := Checklist.check_vix hist in
  let d := Checklist.generate_trading_decision market_data vix
                                               negative_catalysts in
  Checklist.current vix <> None /\
  (vix_unavailable hist ->
   vix_level_of vix = 0 /\
   Checklist.action d <> Checklist.WAIT_VIX /\
   ((length negative_catalysts <= 5)%nat ->
    -(15 # 10) <= sp500_trend_of market_data ->
    Checklist.action d = Checklist.ENTER_TRADE)) /\
  (Checklist.level vix = Some "HIGH (Fear)"%string ->
   Checklist.action d = Checklist.WAIT_VIX) /\
  (Checklist.level vix = Some "LOW (Complacent)"%string \/
   Checklist.level vix = Some "NORMAL"%string ->
   Checklist.action d <> Checklist.WAIT_VIX).
Proof.
  cbn zeta. rewrite decision_action.
  destruct checklist_actions_distinct as [D1 [D2 [D3 _]]].
  split; [|split; [|split]].
  - destruct hist as [[|c cs]|e]; try discriminate.
    destruct (check_vix_level c cs) as [_ Hc]. rewrite Hc. discriminate.
  - intro Hu. rewrite (check_vix_unavailable hist Hu).
    split; [reflexivity|].
    change (vix_level_of _) with 0.
    change (25 <? 0) with false. cbv iota. split.
    + destruct (5 <? _)%nat; [congruence|].
      destruct (_ <? -(15 # 10)); congruence.
    + intros Hn Ht. apply Nat.ltb_ge in Hn. apply Qltb_ge in Ht.
      now rewrite Hn, Ht.
  - intro Hl.
    destruct (check_vix_level_value hist _ Hl ltac:(discriminate))
      as [v [Hv Hname]].
    rewrite Hv.
    destruct (v <? 15); [discriminate|].
    destruct (v <? 20); [discriminate|].
    destruct (v <? 30) eqn:E30; [discriminate|].
    apply Qltb_ge in E30.
    assert (H25 : (25 <? v) = true) by (apply Qltb_lt; lra).
    now rewrite H25.
  - intro Hl.
    assert (Hv : exists v, vix_level_of (Checklist.check_vix hist) = v /\
                           v < 20).
    { destruct Hl as [Hl|Hl];
        destruct (check_vix_level_value hist _ Hl ltac:(discriminate))
          as [v [Hv Hname]];
        exists v; (split; [exact Hv|]);
        destruct (v <? 15) eqn:E15;
        [apply Qltb_lt in E15; lra| |apply Qltb_lt in E15; lra|];
        (destruct (v <? 20) eqn:E20; [now apply Qltb_lt in E20|]);
        destruct (v <? 30); discriminate. }
    destruct Hv as [v [Hv Hlt]]. rewrite Hv.
    assert (H25 : (25 <? v) = false) by (apply Qltb_ge; lra).
    rewrite H25.
    destruct (5 <? _)%nat; [congruence|].
    destruct (_ <? -(15 # 10)); congruence.
Qed.

(** ** Instances *)

(** The four ways to no chain, each on a market that shows it. *)
Lemma X2_get_options_chain_none_witness :
  get_options_chain closed_market "X" []
  = (Ok None, [EvOptions "X"%string]) /\
  get_options_chain no_chain_market "X" []
  = (Ok None, [EvOptions "X"%string]) /\
  fst (get_options_chain malformed_market "X" []) = Ok None /\
  fst (get_options_chain far_market "X" []) = Ok None.
Proof.
  pose proof (X2_get_options_chain_none closed_market "X" [])
    as [_ [H1 _]].
  pose proof (X2_get_options_chain_none no_chain_market "X" [])
    as [_ [_ [H2 _]]].
  pose proof (X2_get_options_chain_none malformed_market "X" [])
    as [_ [_ [_ [H3 _]]]].
  pose proof (X2_get_options_chain_none far_market "X" [])
    as [_ [_ [_ [_ H4]]]].
  split; [exact (H1 RemoteError eq_refl)|].
  split; [exact (H2 eq_refl)|].
  split.
  - apply (H3 ["2026-01-16"%string; "soon"%string] "soon"%string ValueError).
    + reflexivity.
    + right. now left.
    + reflexivity.
  - apply (H4 ["2026-01-16"%string]); [reflexivity|].
    intros e [<-|[]] [d [Hd Hw]].
    vm_compute in Hd. injection Hd as <-.
    unfold in_dte_window in Hw. vm_compute in Hw.
    destruct Hw as [_ Hw]. now apply Hw.
Defined.

(** The two rows of the chain of scenario C. *)
Lemma X3_chain_rows_tagged_witness :
  let chain :=
    match fst (get_options_chain scenario_C "X" []) with
    | Ok (Some rows) => rows
    | _ => []
    end in
  length chain = 2%nat /\
  Forall (row_tagged scenario_C (chain_clock scenario_C [])
                     ["2026-01-16"%string]) chain.
Proof.
  intro chain. split; [reflexivity|].
  apply (X3_chain_rows_tagged scenario_C "X" [] ["2026-01-16"%string] chain).
  - reflexivity.
  - vm_compute. reflexivity.
Defined.

(** After a falling day the script buys on a candle after the first
    three. *)
Lemma X17_bracket_prices_witness :
  exists limit tp sl,
    Bracket.script falling_days five_candles
    = inr (Bracket.Placed Bracket.BUY 10 limit tp sl) /\
    tp = limit + 2 * (limit - sl) /\
    exists candle,
      In candle (skipn 3 five_candles) /\
      limit = Bracket.bar_low candle /\ sl = Bracket.bar_high candle.
Proof.
  eexists _, _, _. split; [vm_compute; reflexivity|].
  match goal with
  | |- ?tp = ?limit + 2 * (?limit - ?sl) /\ _ =>
      destruct (X17_bracket_prices falling_days five_candles
                  Bracket.BUY 10 limit tp sl eq_refl)
        as [_ [Ht [candle [Hin [Hl [Hs _]]]]]]
  end.
  split; [exact Ht|]. exists candle. repeat split; assumption.
Defined.

(** The candle bought is the last of the five: green, and of less volume
    than the green candle before it. *)
Lemma X18_bracket_signal_witness :
  exists limit tp sl,
    Bracket.script falling_days five_candles
    = inr (Bracket.Placed Bracket.BUY 10 limit tp sl) /\
    exists candle pre post,
      filter (Bracket.is_color Bracket.green) (skipn 3 five_candles)
      = pre ++ candle :: post /\
      (forall b, In b pre ->
                 Bracket.bar_volume candle < Bracket.bar_volume b) /\
      Bracket.bar_open candle < Bracket.bar_close candle /\
      limit = Bracket.bar_low candle /\ sl = Bracket.bar_high candle.
Proof.
  eexists _, _, _. split; [vm_compute; reflexivity|].
  match goal with
  | |- exists candle pre post, _ /\ _ /\ _ /\ ?limit = _ /\ ?sl = _ =>
      destruct (X18_bracket_signal falling_days five_candles
                  Bracket.BUY 10 limit
                  (Bracket.bar_low
                     (Bracket.lowest_volume
                        (Bracket.mk_bar 98.4 99.2 98.3 99 250)
                        [Bracket.mk_bar 99 99.5 98.8 99.3 200])
                   + 2 * (Bracket.bar_low
                            (Bracket.lowest_volume
                               (Bracket.mk_bar 98.4 99.2 98.3 99 250)
                               [Bracket.mk_bar 99 99.5 98.8 99.3 200])
                          - Bracket.bar_high
                              (Bracket.lowest_volume
                                 (Bracket.mk_bar 98.4 99.2 98.3 99 250)
                                 [Bracket.mk_bar 99 99.5 98.8 99.3 200])))
                  sl eq_refl)
        as [_ [candle [pre [post [Hf [Hpre [_ [Hc [Hl Hs]]]]]]]]]
  end.
  exists candle, pre, post. repeat split; assumption.
Defined.

(** With three intraday bars the script leaves without an order. *)
Lemma X19_bracket_failures_witness :
  exists o,
    Bracket.script falling_days (firstn 3 five_candles) = inr o /\
    o = Bracket.NoSignal.
Proof.
  destruct X19_bracket_failures as [_ [_ [_ H]]].
  destruct (H (Bracket.mk_bar 101 102 98 99 1000)
              (Bracket.mk_bar 99 100 97 98 1200) []
              (Bracket.mk_bar 98 99 97 98.5 500)
              [Bracket.mk_bar 98.5 99 98 98.2 400;
               Bracket.mk_bar 98.2 98.6 97.9 98.4 300])
    as [o [E Ho]].
  exists o. split; [exact E|]. apply Ho. simpl. lia.
Defined.

(** Without a reading of the index, five pieces of bad news and a market
    down one percent, the decision is to enter; a reading of 35 makes it
    wait, a reading of 12 does not. *)
Lemma X22_decision_on_check_vix_witness :
  let market_data :=
    [("S&P 500"%string,
      Checklist.mk_index_data (Some 5000) (Some (-1)) (Some "DOWN"%string))] in
  let news := [1; 2; 3; 4; 5]%nat in
  Checklist.action
    (Checklist.generate_trading_decision
       market_data (Checklist.check_vix (Raised RemoteError)) news)
  = Checklist.ENTER_TRADE /\
  Checklist.action
    (Checklist.generate_trading_decision
       market_data (Checklist.check_vix (Ok [35])) news)
  = Checklist.WAIT_VIX /\
  Checklist.action
    (Checklist.generate_trading_decision
       market_data (Checklist.check_vix (Ok [12])) news)
  <> Checklist.WAIT_VIX.
Proof.
  intros market_data news.
  destruct (X22_decision_on_check_vix market_data (Raised RemoteError) news)
    as [_ [H1 _]].
  destruct (X22_decision_on_check_vix market_data (Ok [35]) news)
    as [_ [_ [H2 _]]].
  destruct (X22_decision_on_check_vix market_data (Ok [12]) news)
    as [_ [_ [_ H3]]].
  split.
  - destruct (H1 I) as [_ [_ H]]. apply H.
    + simpl. lia.
    + vm_compute. discriminate.
  - split.
    + apply H2. reflexivity.
    + apply H3. left. reflexivity.
Defined.

(** * The screeners in binary64: properties *)

(** A frame of two rows of different strikes has one descending order. *)
Lemma descending_pair (a b : Binary64.put_row)
  (sorted : list Binary64.put_row) :
  (Binary64.strike a <=? Binary64.strike b)%float = false ->
  descending_permutation [a; b] sorted \/
  descending_permutation [b; a] sorted ->
  sorted = [a; b].
Proof.
  intros Hab H.
  assert (Hp : Permutation [a; b] sorted /\
               StronglySorted
                 (fun x y => (Binary64.strike y <=? Binary64.strike x)%float
                             = true) sorted).
  { destruct H as [[Hp Hs]|[Hp Hs]]; split; try assumption.
    eapply Permutation_trans; [apply perm_swap|exact Hp]. }
  destruct Hp as [Hp Hs].
  apply Permutation_length_2_inv in Hp. destruct Hp as [->| ->]; [reflexivity|].
  exfalso. inversion Hs as [|x l _ Hall]; subst.
  inversion Hall as [|y l' Hy _]; subst. congruence.
Qed.

(** C7, refuted as worded: in binary64 the one candidate of scenario C has
    a net credit of 1.5, and a spread width, a max risk and a return on
    risk that are not 4.8, 330 and 31.25. *)
Lemma C7_counterexample :
  ~ scenario_C_as_stated
      (fst (Binary64.screen_bull_put_spread (b64_scenario_C b64_sort_desc)
                                            "X" [])) /\
  exists c,
    fst (Binary64.screen_bull_put_spread (b64_scenario_C b64_sort_desc)
                                         "X" []) = Ok [c] /\
    (Binary64.Bps.credit c =? 1.5)%float = true /\
    (Binary64.Bps.spread_width c =? 4.8)%float = false /\
    (Binary64.Bps.max_risk c =? 330)%float = false /\
    (Binary64.Bps.return_on_risk c =? 31.25)%float = false.
Proof.
  split.
  - intros [c [E [_ [Hw _]]]]. vm_compute in E. injection E as <-.
    vm_compute in Hw. discriminate.
  - eexists. split; [vm_compute; reflexivity|].
    repeat split; vm_compute; reflexivity.
Qed.

(** C7, amended. In binary64, whatever descending order [sort_values]
    returns, [screen_bull_put_spread] returns exactly one candidate on
    scenario C: net credit 1.5, spread width 4.799999999999997, max risk
    329.9999999999997 and return on risk 31.250000000000018, which passes
    the threshold; the three are the 4.8, 330 and 31.25 of exact arithmetic
    up to rounding. *)
Theorem C7_scenario_C_binary64
  (sort_values : list Binary64.put_row -> list Binary64.put_row) :
  descending_permutation b64_group_C (sort_values b64_group_C) ->
  exists c w',
    Binary64.screen_bull_put_spread (b64_scenario_C sort_values) "X" []
    = (Ok [c], w') /\
    Binary64.Bps.current_price c = 100%float /\
    Binary64.Bps.short_strike c = 95%float /\
    Binary64.Bps.long_strike c = 90.2%float /\
    Binary64.Bps.short_premium c = 2.1%float /\
    Binary64.Bps.long_premium c = 0.6%float /\
    Binary64.Bps.credit c = 1.5%float /\
    Binary64.Bps.spread_width c = 4.799999999999997%float /\
    Binary64.Bps.max_risk c = 329.9999999999997%float /\
    Binary64.Bps.return_on_risk c = 31.250000000000018%float /\
    (Binary64.MIN_RETURN_ON_RISK <=? Binary64.Bps.return_on_risk c)%float
    = true /\
    b64_within (Binary64.Bps.spread_width c) 4.8 (1 # 10 ^ 14) /\
    b64_within (Binary64.Bps.max_risk c) 330 (1 # 10 ^ 12) /\
    b64_within (Binary64.Bps.return_on_risk c) 31.25 (1 # 10 ^ 13).
Proof.
  intro Hsort.
  assert (Hs : sort_values b64_group_C
               = [Binary64.mk_put_row 95 2.0 2.2 100 100
                    (5 * MICROSECONDS_PER_DAY) "2026-01-16" 5;
                  Binary64.mk_put_row 90.2 0.5 0.7 100 100
                    (5 * MICROSECONDS_PER_DAY) "2026-01-16" 5]).
  { apply descending_pair; [vm_compute; reflexivity|]. left. exact Hsort. }
  vm_compute in Hs.
  eexists. eexists. split.
  - vm_compute. rewrite Hs. vm_compute. reflexivity.
  - repeat split; vm_compute; reflexivity || discriminate.
Qed.

(** On scenario C with the insertion sort, and with the same sort fed the
    rows in reverse. *)
Lemma C7_scenario_C_binary64_witness :
  (exists c w',
      Binary64.screen_bull_put_spread (b64_scenario_C b64_sort_desc) "X" []
      = (Ok [c], w') /\
      Binary64.Bps.spread_width c = 4.799999999999997%float) /\
  (exists c w',
      Binary64.screen_bull_put_spread (b64_scenario_C b64_sort_desc_rev)
                                      "X" []
      = (Ok [c], w') /\
      Binary64.Bps.spread_width c = 4.799999999999997%float).
Proof.
  split.
  - destruct (C7_scenario_C_binary64 b64_sort_desc)
      as [c [w' [E [_ [_ [_ [_ [_ [_ [Hw _]]]]]]]]]].
    + split; [vm_compute; apply Permutation_refl|].
      vm_compute. repeat constructor.
    + exists c, w'. split; assumption.
  - destruct (C7_scenario_C_binary64 b64_sort_desc_rev)
      as [c [w' [E [_ [_ [_ [_ [_ [_ [Hw _]]]]]]]]]].
    + split; [vm_compute; apply Permutation_refl|].
      vm_compute. repeat constructor.
    + exists c, w'. split; assumption.
Defined.

(** ** The fetchers *)

Section Binary64Fetchers.

Variable env : Binary64.Env.

Lemma b64_get_current_price_run (symbol : string) (w : World) :
  exists p,
    Binary64.get_current_price env symbol w = (Ok p, EvHistory symbol :: w).
Proof.
  unfold Binary64.get_current_price, try_except, bind, request, ret.
  destruct (Binary64.yf_history env symbol (length w)) as [[|c cs]|e]; eauto.
Qed.

Lemma b64_collect_puts_run symbol current_date expirations :
  forall all_puts w,
    Forall (Forall (fun r => in_dte_window (Binary64.dte r))) all_puts ->
    exists r w',
      Binary64.collect_puts env symbol current_date expirations all_puts w
      = (r, w') /\
      (forall ap, r = Ok ap ->
                  Forall (Forall (fun r => in_dte_window (Binary64.dte r)))
                         ap).
Proof.
  induction expirations as [|exp_str rest IH]; intros all_puts w Hall; simpl.
  - exists (Ok all_puts), w. split; [reflexivity|].
    intros ap [= <-]. exact Hall.
  - unfold bind at 1, lift.
    destruct (Binary64.strptime env exp_str) as [exp_date|e].
    + destruct ((MIN_DTE <=? timedelta_days exp_date current_date)%Z &&
                (timedelta_days exp_date current_date <=? MAX_DTE)%Z)%bool
        eqn:Hd.
      * unfold bind at 1, request.
        destruct (Binary64.yf_option_chain env symbol exp_str (length w))
          as [puts|e].
        -- apply andb_true_iff in Hd. destruct Hd as [H1 H2].
           apply Z.leb_le in H1, H2. apply IH.
           apply Forall_app. split; [exact Hall|].
           constructor; [|constructor].
           unfold Binary64.tag_puts. apply Forall_forall.
           intros r Hr. apply in_map_iff in Hr.
           destruct Hr as [raw [<- _]]. split; assumption.
        -- exists (Raised e), (EvOptionChain symbol exp_str :: w).
           split; [reflexivity|]. intros ap [=].
      * apply IH. exact Hall.
    + exists (Raised e), w. split; [reflexivity|]. intros ap [=].
Qed.

Lemma b64_get_options_chain_run (symbol : string) (w : World) :
  exists r w',
    Binary64.get_options_chain env symbol w = (Ok r, w') /\
    (forall chain, r = Some chain ->
                   Forall (fun r => in_dte_window (Binary64.dte r)) chain).
Proof.
  unfold Binary64.get_options_chain, try_except.
  unfold bind at 1, request.
  destruct (Binary64.yf_options env symbol (length w)) as [[|e0 es]|e].
  - exists None, (EvOptions symbol :: w). split; [reflexivity|]. intros c [=].
  - unfold bind at 1.
    destruct (b64_collect_puts_run symbol
                (Binary64.datetime_now env (length (EvOptions symbol :: w)))
                (e0 :: es) [] (EvNow :: EvOptions symbol :: w))
      as [r [w' [E Hr]]]; [constructor|].
    unfold bind. rewrite E. destruct r as [[|f fs]|e].
    + exists None, w'. split; [reflexivity|]. intros c [=].
    + exists (Some (concat (f :: fs))), w'. split; [reflexivity|].
      intros chain [= <-]. specialize (Hr _ eq_refl).
      apply Forall_concat in Hr. exact Hr.
    + exists None, w'. split; [reflexivity|]. intros c [=].
  - exists None, (EvOptions symbol :: w). split; [reflexivity|]. intros c [=].
Qed.

End Binary64Fetchers.

(** ** The loops *)

Lemma for_each_flat_map_or_raise {C B}
  (body : list C -> B -> result (list C)) (emit : B -> list C)
  (bad : B -> bool) (e : exn) (R : B -> Prop) :
  (forall acc x, R x ->
                 body acc x = if bad x then Raised e
                              else Ok (acc ++ emit x)) ->
  forall xs acc,
    Forall R xs ->
    for_each body acc xs = if existsb bad xs then Raised e
                           else Ok (acc ++ flat_map emit xs).
Proof.
  intros Hbody xs. induction xs as [|x xs IH]; intros acc Hxs; simpl.
  - now rewrite app_nil_r.
  - inversion Hxs as [|? ? Hx Hrest]; subst.
    rewrite (Hbody acc x Hx). destruct (bad x); simpl; [reflexivity|].
    rewrite (IH _ Hrest). destruct (existsb bad xs); [reflexivity|].
    now rewrite app_assoc.
Qed.

Lemma b64_py_int_div_days (d : Z) :
  in_dte_window d ->
  Binary64.py_int_div 365 d
  = Ok (Binary64.of_int 365 / Binary64.of_int d)%float.
Proof.
  unfold in_dte_window, MIN_DTE, Binary64.py_int_div. intros [H _].
  destruct (d =? 0)%Z eqn:E; [apply Z.eqb_eq in E; lia|reflexivity].
Qed.

Lemma b64_csp_body_eq symbol p candidates row :
  (p =? 0)%float = false ->
  in_dte_window (Binary64.dte row) ->
  Binary64.csp_body symbol p candidates row =
  if b64_zero_strike row then Raised ZeroDivisionError
  else Ok (candidates ++
           if b64_csp_accepts row then [b64_csp_of_row symbol p row] else []).
Proof.
  intros Hp Hd. unfold Binary64.csp_body, Binary64.py_div, b64_zero_strike.
  rewrite Hp. cbn [rbind].
  destruct (Binary64.strike row =? 0)%float; [reflexivity|]. cbn [rbind].
  unfold b64_csp_accepts.
  destruct (Binary64.MIN_RETURN_ON_RISK <=? _)%float.
  - rewrite (b64_py_int_div_days _ Hd). reflexivity.
  - now rewrite app_nil_r.
Qed.

Lemma b64_bps_body_eq symbol p min_strike max_strike expiry_chain candidates
  short_row :
  (p =? 0)%float = false ->
  in_dte_window (Binary64.dte short_row) ->
  Binary64.bps_body symbol p min_strike max_strike expiry_chain candidates
                    short_row =
  if b64_zero_width min_strike max_strike expiry_chain short_row
  then Raised ZeroDivisionError
  else Ok (candidates ++
           b64_bps_emit symbol p min_strike max_strike expiry_chain
                        short_row).
Proof.
  intros Hp Hd.
  unfold Binary64.bps_body, b64_zero_width, b64_bps_emit, b64_long_leg.
  destruct (_ || _)%bool; [now rewrite app_nil_r|].
  assert (Hfind : forall (f : Binary64.put_row -> bool) l,
             find f l = match filter f l with
                        | [] => None
                        | x :: _ => Some x
                        end).
  { intros f l. induction l as [|x l IH]; simpl; [reflexivity|].
    destruct (f x); [reflexivity|exact IH]. }
  rewrite Hfind.
  destruct (filter _ expiry_chain) as [|long_row rest];
    [now rewrite app_nil_r|].
  unfold Binary64.bps_pair, b64_bps_accepts, Binary64.py_div.
  destruct (Binary64.rejects short_row long_row);
    [now rewrite app_nil_r|].
  cbn [negb andb].
  destruct (Binary64.actual_width_of short_row long_row =? 0)%float;
    [reflexivity|].
  cbn [rbind]. destruct (Binary64.MIN_RETURN_ON_RISK <=? _)%float.
  - rewrite Hp. cbn [rbind]. rewrite (b64_py_int_div_days _ Hd). reflexivity.
  - now rewrite app_nil_r.
Qed.

Lemma b64_screen_csp_outcome (env : Binary64.Env) (symbol : string)
  (w : World) :
  exists price chain,
    fst (Binary64.get_current_price env symbol w) = Ok price /\
    fst (Binary64.get_options_chain env symbol (EvHistory symbol :: w))
    = Ok chain /\
    fst (Binary64.screen_csp env symbol w)
    = b64_csp_outcome symbol price chain.
Proof.
  destruct (b64_get_current_price_run env symbol w) as [price E].
  destruct (b64_get_options_chain_run env symbol (EvHistory symbol :: w))
    as [chain [w' [E2 Hr]]].
  exists price, chain. rewrite E, E2. split; [reflexivity|].
  split; [reflexivity|].
  unfold Binary64.screen_csp, bind. rewrite E.
  destruct price as [p|]; [|reflexivity]. unfold b64_csp_outcome.
  destruct (p =? 0)%float eqn:Hp; [now destruct chain|].
  rewrite E2. destruct chain as [chain|]; [|reflexivity].
  specialize (Hr _ eq_refl).
  destruct (length chain =? 0)%nat eqn:Hlen.
  { apply Nat.eqb_eq in Hlen. apply length_zero_iff_nil in Hlen.
    subst chain. reflexivity. }
  unfold lift, b64_csp_rows. cbn [fst Binary64.strike_window].
  rewrite <- flat_map_filter_map.
  rewrite (for_each_flat_map_or_raise
             (Binary64.csp_body symbol p)
             (fun row => if b64_csp_accepts row
                         then [b64_csp_of_row symbol p row] else [])
             b64_zero_strike ZeroDivisionError
             (fun r => in_dte_window (Binary64.dte r))).
  - reflexivity.
  - intros acc x Hd. now apply b64_csp_body_eq.
  - apply Forall_forall. intros r Hin. apply filter_In in Hin.
    rewrite Forall_forall in Hr. apply Hr, Hin.
Qed.

Lemma b64_screen_bull_put_spread_outcome (env : Binary64.Env)
  (symbol : string) (w : World) :
  reorders env ->
  exists price chain,
    fst (Binary64.get_current_price env symbol w) = Ok price /\
    fst (Binary64.get_options_chain env symbol (EvHistory symbol :: w))
    = Ok chain /\
    fst (Binary64.screen_bull_put_spread env symbol w)
    = b64_bps_outcome env symbol price chain.
Proof.
  intro Hsort.
  destruct (b64_get_current_price_run env symbol w) as [price E].
  destruct (b64_get_options_chain_run env symbol (EvHistory symbol :: w))
    as [chain [w' [E2 Hr]]].
  exists price, chain. rewrite E, E2. split; [reflexivity|].
  split; [reflexivity|].
  unfold Binary64.screen_bull_put_spread, bind. rewrite E.
  destruct price as [p|]; [|reflexivity]. unfold b64_bps_outcome.
  destruct (p =? 0)%float eqn:Hp; [now destruct chain|].
  rewrite E2. destruct chain as [chain|]; [|reflexivity].
  specialize (Hr _ eq_refl).
  destruct (length chain =? 0)%nat eqn:Hlen.
  { apply Nat.eqb_eq in Hlen. apply length_zero_iff_nil in Hlen.
    subst chain. reflexivity. }
  unfold lift. cbn [fst Binary64.strike_window]. cbv zeta.
  set (min_strike := (p * (1 - Binary64.MAX_OTM_PERCENT / 100))%float).
  set (max_strike := (p * (1 - Binary64.MIN_OTM_PERCENT / 100))%float).
  set (chain' := filter (Binary64.bps_filter min_strike max_strike) chain).
  rewrite (for_each_flat_map_or_raise
             (Binary64.bps_expiry env symbol p min_strike max_strike chain')
             (fun e => flat_map
                         (b64_bps_emit symbol p min_strike max_strike
                            (Binary64.expiry_group env chain' e))
                         (Binary64.expiry_group env chain' e))
             (fun e => existsb
                         (b64_zero_width min_strike max_strike
                            (Binary64.expiry_group env chain' e))
                         (Binary64.expiry_group env chain' e))
             ZeroDivisionError (fun _ : Z => True)).
  - reflexivity.
  - intros acc e _. unfold Binary64.bps_expiry.
    apply for_each_flat_map_or_raise
      with (R := fun r => in_dte_window (Binary64.dte r)).
    + intros acc' x Hd. now apply b64_bps_body_eq.
    + apply Forall_forall. intros r Hin.
      unfold Binary64.expiry_group in Hin.
      apply (Permutation_in _ (Permutation_sym (Hsort _))) in Hin.
      apply filter_In in Hin. destruct Hin as [Hin _].
      apply filter_In in Hin. destruct Hin as [Hin _].
      rewrite Forall_forall in Hr. apply Hr, Hin.
  - apply Forall_forall. trivial.
Qed.

Lemma b64_insert_desc_perm (x : Binary64.put_row)
  (l : list Binary64.put_row) :
  Permutation (x :: l) (b64_insert_desc x l).
Proof.
  induction l as [|y l IH]; simpl; [apply Permutation_refl|].
  destruct (Binary64.strike x <? Binary64.strike y)%float.
  - eapply Permutation_trans; [apply perm_swap|]. now apply perm_skip.
  - apply Permutation_refl.
Qed.

Lemma b64_sort_desc_perm (l : list Binary64.put_row) :
  Permutation l (b64_sort_desc l).
Proof.
  induction l as [|x l IH]; simpl; [constructor|].
  eapply Permutation_trans; [apply perm_skip, IH|].
  apply b64_insert_desc_perm.
Qed.

(** X5. In binary64, [screen_csp] returns one candidate for each row of the
    fetched chain that passes the row filter and the return threshold, in
    the order of the chain, each built from its row by the formulas of
    lines 245-258, all compared and computed as the code does; it returns
    nothing when there is no price, a zero price or no chain.  The one way
    it raises is the division of line 251, when a row of strike zero passes
    the row filter. *)
Theorem X5_screen_csp_outcome (env : Binary64.Env) (symbol : string)
  (w : World) :
  exists price chain,
    fst (Binary64.get_current_price env symbol w) = Ok price /\
    fst (Binary64.get_options_chain env symbol (EvHistory symbol :: w))
    = Ok chain /\
    fst (Binary64.screen_csp env symbol w)
    = b64_csp_outcome symbol price chain.
Proof. apply b64_screen_csp_outcome. Qed.

(** X6. In binary64, and whatever order [sort_values] gives the rows of an
    expiry, [screen_bull_put_spread] returns the candidates of the expiries
    of the filtered chain in order of first appearance; within an expiry,
    each short leg inside the strike window, in the order of the sorted
    group, gives one candidate when the first row of the group in its width
    window passes the guard and the return threshold, built from the two
    rows by the formulas of lines 341-357.  The one way it raises is the
    division of line 351, when a pair that passes the guard has a zero
    width. *)
Theorem X6_screen_bull_put_spread_outcome (env : Binary64.Env)
  (symbol : string) (w : World) :
  reorders env ->
  exists price chain,
    fst (Binary64.get_current_price env symbol w) = Ok price /\
    fst (Binary64.get_options_chain env symbol (EvHistory symbol :: w))
    = Ok chain /\
    fst (Binary64.screen_bull_put_spread env symbol w)
    = b64_bps_outcome env symbol price chain.
Proof. apply b64_screen_bull_put_spread_outcome. Qed.

(** On scenario C with the insertion sort. *)
Lemma X6_screen_bull_put_spread_outcome_witness :
  exists price chain,
    fst (Binary64.get_current_price (b64_scenario_C b64_sort_desc) "X" [])
    = Ok price /\
    fst (Binary64.get_options_chain (b64_scenario_C b64_sort_desc) "X"
                                    [EvHistory "X"])
    = Ok chain /\
    fst (Binary64.screen_bull_put_spread (b64_scenario_C b64_sort_desc)
                                         "X" [])
    = b64_bps_outcome (b64_scenario_C b64_sort_desc) "X" price chain.
Proof.
  apply (X6_screen_bull_put_spread_outcome (b64_scenario_C b64_sort_desc)).
  intro rows. apply b64_sort_desc_perm.
Defined.

(** ** The tests a candidate has passed *)

Lemma b64_csp_outcome_In symbol price chain cs c :
  b64_csp_outcome symbol price chain = Ok cs ->
  In c cs ->
  exists p rows row,
    price = Some p /\ chain = Some rows /\ (p =? 0)%float = false /\
    In row rows /\
    Binary64.csp_filter (fst (Binary64.strike_window p))
                        (snd (Binary64.strike_window p)) row = true /\
    b64_zero_strike row = false /\
    b64_csp_accepts row = true /\
    c = b64_csp_of_row symbol p row.
Proof.
  unfold b64_csp_outcome. intros E Hin.
  destruct price as [p|]; [|injection E as <-; destruct Hin].
  destruct chain as [rows|]; [|injection E as <-; destruct Hin].
  destruct (p =? 0)%float eqn:Hp; [injection E as <-; destruct Hin|].
  destruct (existsb b64_zero_strike (b64_csp_rows p rows)) eqn:Hz;
    [discriminate|].
  injection E as <-. apply in_map_iff in Hin. destruct Hin as [row [<- Hrow]].
  apply filter_In in Hrow. destruct Hrow as [Hrow Hacc].
  assert (Hnz : b64_zero_strike row = false).
  { destruct (b64_zero_strike row) eqn:Ez; [|reflexivity].
    assert (Hex : existsb b64_zero_strike (b64_csp_rows p rows) = true)
      by (apply existsb_exists; exists row; split; assumption).
    congruence. }
  unfold b64_csp_rows in Hrow. apply filter_In in Hrow.
  destruct Hrow as [Hrow Hf].
  exists p, rows, row. repeat split; assumption.
Qed.

Lemma b64_csp_of_row_checked symbol p row :
  (p =? 0)%float = false ->
  Binary64.csp_filter (fst (Binary64.strike_window p))
                      (snd (Binary64.strike_window p)) row = true ->
  b64_zero_strike row = false ->
  b64_csp_accepts row = true ->
  b64_csp_checked (b64_csp_of_row symbol p row).
Proof.
  intros Hp Hf Hz Hacc. unfold Binary64.csp_filter in Hf.
  repeat (apply andb_true_iff in Hf; destruct Hf as [Hf ?]).
  unfold b64_csp_checked, b64_csp_of_row. cbn.
  repeat split; assumption.
Qed.

Lemma b64_existsb_false {A} (f : A -> bool) (l : list A) (x : A) :
  existsb f l = false -> In x l -> f x = false.
Proof.
  intros Hex Hin. destruct (f x) eqn:E; [|reflexivity].
  assert (H : existsb f l = true)
    by (apply existsb_exists; exists x; split; assumption).
  congruence.
Qed.

Lemma b64_bps_outcome_In env symbol price chain bs c :
  reorders env ->
  b64_bps_outcome env symbol price chain = Ok bs ->
  In c bs ->
  exists p short_row long_row,
    price = Some p /\ (p =? 0)%float = false /\
    Binary64.bps_filter (fst (Binary64.strike_window p))
                        (snd (Binary64.strike_window p)) short_row = true /\
    Binary64.bps_filter (fst (Binary64.strike_window p))
                        (snd (Binary64.strike_window p)) long_row = true /\
    (Binary64.strike short_row <? fst (Binary64.strike_window p))%float
    = false /\
    (snd (Binary64.strike_window p) <? Binary64.strike short_row)%float
    = false /\
    Binary64.long_window
      (Binary64.strike short_row - Binary64.SPREAD_WIDTH)%float long_row
    = true /\
    b64_bps_accepts short_row long_row = true /\
    (Binary64.actual_width_of short_row long_row =? 0)%float = false /\
    c = b64_bps_of_pair symbol p short_row long_row.
Proof.
  unfold b64_bps_outcome. intros Hsort E Hin.
  destruct price as [p|]; [|injection E as <-; destruct Hin].
  destruct chain as [rows|]; [|injection E as <-; destruct Hin].
  destruct (p =? 0)%float eqn:Hp; [injection E as <-; destruct Hin|].
  cbv zeta in E.
  set (min_strike := fst (Binary64.strike_window p)) in *.
  set (max_strike := snd (Binary64.strike_window p)) in *.
  set (chain' := filter (Binary64.bps_filter min_strike max_strike) rows)
    in *.
  destruct (existsb _ (unique (map Binary64.expiry chain'))) eqn:Hz;
    [discriminate|].
  injection E as <-. apply in_flat_map in Hin. destruct Hin as [e [He Hin]].
  apply in_flat_map in Hin. destruct Hin as [short_row [Hshort Hin]].
  assert (Hgroup : forall r, In r (Binary64.expiry_group env chain' e) ->
                             Binary64.bps_filter min_strike max_strike r
                             = true).
  { intros r Hr. unfold Binary64.expiry_group in Hr.
    apply (Permutation_in _ (Permutation_sym (Hsort _))) in Hr.
    apply filter_In in Hr. destruct Hr as [Hr _].
    unfold chain' in Hr. apply filter_In in Hr. apply Hr. }
  pose proof (b64_existsb_false _ _ e Hz He) as Hze. cbv beta in Hze.
  pose proof (b64_existsb_false _ _ short_row Hze Hshort) as Hzs.
  unfold b64_bps_emit in Hin. unfold b64_zero_width in Hzs.
  destruct (b64_long_leg min_strike max_strike
              (Binary64.expiry_group env chain' e) short_row)
    as [long_row|] eqn:Hleg; [|destruct Hin].
  destruct (b64_bps_accepts short_row long_row) eqn:Hacc; [|destruct Hin].
  destruct Hin as [<-|[]].
  unfold b64_long_leg in Hleg.
  destruct ((Binary64.strike short_row <? min_strike)
            || (max_strike <? Binary64.strike short_row))%float%bool
    eqn:Hwin; [discriminate|].
  apply orb_false_iff in Hwin. destruct Hwin as [Hlo Hhi].
  apply find_some in Hleg. destruct Hleg as [Hlong Hlw].
  assert (Hrej : Binary64.rejects short_row long_row = false).
  { unfold b64_bps_accepts in Hacc. apply andb_true_iff in Hacc.
    destruct Hacc as [Hrej _]. now apply negb_true_iff in Hrej. }
  rewrite Hrej in Hzs. cbn [negb andb] in Hzs.
  exists p, short_row, long_row.
  split; [reflexivity|]. split; [exact Hp|].
  split; [now apply Hgroup|]. split; [now apply Hgroup|].
  split; [exact Hlo|]. split; [exact Hhi|]. split; [exact Hlw|].
  split; [exact Hacc|]. split; [exact Hzs|reflexivity].
Qed.

Lemma b64_bps_of_pair_checked symbol p short_row long_row :
  (p =? 0)%float = false ->
  Binary64.bps_filter (fst (Binary64.strike_window p))
                      (snd (Binary64.strike_window p)) short_row = true ->
  (Binary64.strike short_row <? fst (Binary64.strike_window p))%float
  = false ->
  Binary64.long_window
    (Binary64.strike short_row - Binary64.SPREAD_WIDTH)%float long_row
  = true ->
  b64_bps_accepts short_row long_row = true ->
  (Binary64.actual_width_of short_row long_row =? 0)%float = false ->
  b64_bps_checked (b64_bps_of_pair symbol p short_row long_row) /\
  b64_spread_checked (b64_bps_of_pair symbol p short_row long_row).
Proof.
  intros Hp Hf Hlo Hlw Hacc Hw. unfold Binary64.bps_filter in Hf.
  repeat (apply andb_true_iff in Hf; destruct Hf as [Hf ?]).
  unfold Binary64.long_window in Hlw. apply andb_true_iff in Hlw.
  destruct Hlw as [Hl1 Hl2].
  unfold b64_bps_accepts in Hacc. apply andb_true_iff in Hacc.
  destruct Hacc as [Hrej Hror]. apply negb_true_iff in Hrej.
  unfold Binary64.rejects in Hrej. apply orb_false_iff in Hrej.
  destruct Hrej as [Hrisk Hcredit].
  unfold b64_bps_checked, b64_spread_checked, b64_bps_of_pair. cbn.
  repeat split; assumption.
Qed.

Lemma b64_screen_csp_checked (env : Binary64.Env) symbol w :
  b64_all b64_csp_checked (fst (Binary64.screen_csp env symbol w)).
Proof.
  destruct (b64_screen_csp_outcome env symbol w)
    as [price [chain [_ [_ E]]]].
  rewrite E. unfold b64_all.
  destruct (b64_csp_outcome symbol price chain) as [cs|e] eqn:Eo.
  - apply Forall_forall. intros c Hc.
    destruct (b64_csp_outcome_In _ _ _ _ _ Eo Hc)
      as [p [rows [row [_ [_ [Hp [_ [Hf [Hz [Hacc ->]]]]]]]]]].
    now apply b64_csp_of_row_checked.
  - unfold b64_csp_outcome in Eo.
    destruct price as [p|]; [|discriminate].
    destruct chain as [rows|]; [|discriminate].
    destruct (p =? 0)%float; [discriminate|].
    destruct (existsb _ _); [|discriminate]. now injection Eo as <-.
Qed.

Lemma b64_screen_bull_put_spread_checked (env : Binary64.Env) symbol w :
  reorders env ->
  b64_all (fun c => b64_bps_checked c /\ b64_spread_checked c)
          (fst (Binary64.screen_bull_put_spread env symbol w)).
Proof.
  intro Hsort.
  destruct (b64_screen_bull_put_spread_outcome env symbol w Hsort)
    as [price [chain [_ [_ E]]]].
  rewrite E. unfold b64_all.
  destruct (b64_bps_outcome env symbol price chain) as [bs|e] eqn:Eo.
  - apply Forall_forall. intros c Hc.
    destruct (b64_bps_outcome_In _ _ _ _ _ _ Hsort Eo Hc)
      as [p [sr [lr [_ [Hp [Hfs [_ [Hlo [_ [Hlw [Hacc [Hw ->]]]]]]]]]]]].
    now apply b64_bps_of_pair_checked.
  - unfold b64_bps_outcome in Eo.
    destruct price as [p|]; [|discriminate].
    destruct chain as [rows|]; [|discriminate].
    destruct (p =? 0)%float; [discriminate|].
    cbv zeta in Eo. destruct (existsb _ _); [|discriminate].
    now injection Eo as <-.
Qed.

(** X7. In binary64, a screener ends with [ZeroDivisionError] or with
    candidates that have passed the code's tests on the values they store:
    a non-zero spot price, a (short) strike that passes the comparisons with
    the window computed from that price, and a return on risk that passes
    the threshold; [otm_percent] is [(price - strike) / price * 100] as
    computed.  For [screen_bull_put_spread] this holds whatever order
    [sort_values] gives the rows. *)
Theorem X7_window_tests_binary64 (env : Binary64.Env) (symbol : string)
  (w : World) :
  b64_all b64_csp_checked (fst (Binary64.screen_csp env symbol w)) /\
  (reorders env ->
   b64_all b64_bps_checked
           (fst (Binary64.screen_bull_put_spread env symbol w))).
Proof.
  split; [apply b64_screen_csp_checked|]. intro Hsort.
  pose proof (b64_screen_bull_put_spread_checked env symbol w Hsort) as H.
  unfold b64_all in *.
  destruct (fst (Binary64.screen_bull_put_spread env symbol w));
    [|exact H].
  eapply Forall_impl; [|exact H]. intros c [Hc _]. exact Hc.
Qed.

(** The tests do not keep [otm_percent] inside
    [MIN_OTM_PERCENT, MAX_OTM_PERCENT]: at a spot of 38 the row of strike
    36.1 passes every test and is stored with 4.9999999999999964, at a spot
    of 23 the row of strike 20.7 with 10.000000000000004.  The spread of
    scenario C passes the tests. *)
Lemma X7_window_tests_binary64_witness :
  (exists c,
      fst (Binary64.screen_csp b64_market_38 "X" []) = Ok [c] /\
      b64_csp_checked c /\
      (Binary64.Csp.otm_percent c <? Binary64.MIN_OTM_PERCENT)%float
      = true) /\
  (exists c,
      fst (Binary64.screen_csp b64_market_23 "X" []) = Ok [c] /\
      b64_csp_checked c /\
      (Binary64.MAX_OTM_PERCENT <? Binary64.Csp.otm_percent c)%float
      = true) /\
  (exists c,
      fst (Binary64.screen_bull_put_spread (b64_scenario_C b64_sort_desc)
                                           "X" []) = Ok [c] /\
      b64_bps_checked c).
Proof.
  pose proof (X7_window_tests_binary64 b64_market_38 "X" []) as [H38 _].
  pose proof (X7_window_tests_binary64 b64_market_23 "X" []) as [H23 _].
  pose proof (X7_window_tests_binary64 (b64_scenario_C b64_sort_desc) "X" [])
    as [_ HC].
  specialize (HC (fun rows => b64_sort_desc_perm rows)).
  split; [|split].
  - eexists. split; [vm_compute; reflexivity|]. split.
    + unfold b64_all in H38.
      destruct (fst (Binary64.screen_csp b64_market_38 "X" []))
        as [cs|e] eqn:E; [|vm_compute in E; discriminate].
      vm_compute in E. injection E as <-.
      inversion H38 as [|c l Hc _]; subst. exact Hc.
    + vm_compute. reflexivity.
  - eexists. split; [vm_compute; reflexivity|]. split.
    + unfold b64_all in H23.
      destruct (fst (Binary64.screen_csp b64_market_23 "X" []))
        as [cs|e] eqn:E; [|vm_compute in E; discriminate].
      vm_compute in E. injection E as <-.
      inversion H23 as [|c l Hc _]; subst. exact Hc.
    + vm_compute. reflexivity.
  - eexists. split; [vm_compute; reflexivity|].
    unfold b64_all in HC.
    destruct (fst (Binary64.screen_bull_put_spread
                     (b64_scenario_C b64_sort_desc) "X" []))
      as [cs|e] eqn:E; [|vm_compute in E; discriminate].
    vm_compute in E. injection E as <-.
    inversion HC as [|c l Hc _]; subst. exact Hc.
Defined.

(** X10. In binary64, and whatever order [sort_values] gives the rows,
    [screen_bull_put_spread] ends with [ZeroDivisionError] or with
    candidates that have passed the code's tests on the values they store:
    a long strike that passes the comparisons with
    [short_strike - SPREAD_WIDTH -/+ 0.50], a non-zero width
    [short_strike - long_strike], a credit
    [short_premium - long_premium] and a max risk
    [(width - credit) * 100] that both fail the test [<= 0] of the
    guard. *)
Theorem X10_spread_tests_binary64 (env : Binary64.Env) (symbol : string)
  (w : World) :
  reorders env ->
  b64_all b64_spread_checked
          (fst (Binary64.screen_bull_put_spread env symbol w)).
Proof.
  intro Hsort.
  pose proof (b64_screen_bull_put_spread_checked env symbol w Hsort) as H.
  unfold b64_all in *.
  destruct (fst (Binary64.screen_bull_put_spread env symbol w));
    [|exact H].
  eapply Forall_impl; [|exact H]. intros c [_ Hc]. exact Hc.
Qed.

(** The bounds that the tests give in exact arithmetic, a credit of at
    least 0.9 and a max risk of at most 440, do not hold of the stored
    values: a spread of width 4.5 passes every test with a credit of
    0.8999999999999999, and one of width 5.5 with a max risk of
    440.00000000000006. *)
Lemma X10_spread_tests_binary64_witness :
  (exists c,
      fst (Binary64.screen_bull_put_spread b64_market_thin_credit "X" [])
      = Ok [c] /\
      b64_spread_checked c /\
      (Binary64.Bps.credit c <? 0.9)%float = true) /\
  (exists c,
      fst (Binary64.screen_bull_put_spread b64_market_wide "X" [])
      = Ok [c] /\
      b64_spread_checked c /\
      (440 <? Binary64.Bps.max_risk c)%float = true).
Proof.
  pose proof (X10_spread_tests_binary64 b64_market_thin_credit "X" []
                (fun rows => b64_sort_desc_perm rows)) as H1.
  pose proof (X10_spread_tests_binary64 b64_market_wide "X" []
                (fun rows => b64_sort_desc_perm rows)) as H2.
  split.
  - eexists. split; [vm_compute; reflexivity|]. split.
    + unfold b64_all in H1.
      destruct (fst (Binary64.screen_bull_put_spread
                       b64_market_thin_credit "X" []))
        as [cs|e] eqn:E; [|vm_compute in E; discriminate].
      vm_compute in E. injection E as <-.
      inversion H1 as [|c l Hc _]; subst. exact Hc.
    + vm_compute. reflexivity.
  - eexists. split; [vm_compute; reflexivity|]. split.
    + unfold b64_all in H2.
      destruct (fst (Binary64.screen_bull_put_spread
                       b64_market_wide "X" []))
        as [cs|e] eqn:E; [|vm_compute in E; discriminate].
      vm_compute in E. injection E as <-.
      inversion H2 as [|c l Hc _]; subst. exact Hc.
    + vm_compute. reflexivity.
Defined.

(** ** Rounding and ties *)

(** At a spot of 12 the upper end of the window is 11.399999999999999 in
    binary64: the row at 11.4, which exact arithmetic admits, is left
    out. *)
Example b64_boundary_row :
  snd (Binary64.strike_window 12) = 11.399999999999999%float /\
  fst (Binary64.screen_csp b64_market_12 "X" []) = Ok [] /\
  exists c,
    fst (screen_csp (steady_market 12 5 [mk_raw_put 11.4 5 5 100 100])
                    "X" []) = Ok [c].
Proof.
  split; [vm_compute; reflexivity|]. split; [vm_compute; reflexivity|].
  eexists. vm_compute. reflexivity.
Qed.

(** Among rows of equal strike the long leg is the one that [sort_values]
    puts first: two descending orders of the same rows give two different
    spreads. *)
Example b64_tie_order :
  descending_permutation
    (Binary64.tag_puts (5 * MICROSECONDS_PER_DAY) "2026-01-16" 5
                       b64_tied_legs)
    (b64_sort_desc
       (Binary64.tag_puts (5 * MICROSECONDS_PER_DAY) "2026-01-16" 5
                          b64_tied_legs)) /\
  descending_permutation
    (Binary64.tag_puts (5 * MICROSECONDS_PER_DAY) "2026-01-16" 5
                       b64_tied_legs)
    (b64_sort_desc_rev
       (Binary64.tag_puts (5 * MICROSECONDS_PER_DAY) "2026-01-16" 5
                          b64_tied_legs)) /\
  (exists c,
      fst (Binary64.screen_bull_put_spread
             (b64_steady_market b64_sort_desc 100 5 b64_tied_legs) "X" [])
      = Ok [c] /\
      Binary64.Bps.long_premium c = 0.5%float /\
      Binary64.Bps.credit c = 1.75%float) /\
  (exists c,
      fst (Binary64.screen_bull_put_spread
             (b64_steady_market b64_sort_desc_rev 100 5 b64_tied_legs)
             "X" [])
      = Ok [c] /\
      Binary64.Bps.long_premium c = 0.25%float /\
      Binary64.Bps.credit c = 2%float).
Proof.
  split; [|split; [|split]].
  - split; [apply b64_sort_desc_perm|]. vm_compute. repeat constructor.
  - split.
    + unfold b64_sort_desc_rev.
      eapply Permutation_trans; [apply Permutation_rev|].
      apply b64_sort_desc_perm.
    + vm_compute. repeat constructor.
  - eexists. split; [vm_compute; reflexivity|].
    split; vm_compute; reflexivity.
  - eexists. split; [vm_compute; reflexivity|].
    split; vm_compute; reflexivity.
Qed.
